(** * NiTi_Setup_Sim: the dashboard's log parser and status poller, and
      the report generator's loading layer

    Shallow embedding of
      - [src/setup_sim/src/dashboard.py]: [parse_lammps_log],
        [create_plot], [get_simulation_status], [require_auth], [login],
        [logout], [get_log], the module name space and the start-up
        block;
      - [src/setup_sim/src/py_phase4.py]: [load_data], the five analysis
        entry points and [main], the parsing of the thermodynamics file,
        the peak search of the RDF, and of [generate_pdf_report] the
        size and composition tables, the time to half ejection and the
        correlation wording.

    Python [str] values are modelled as [string], a character being a
    code point below 256; the builtin string methods the code calls
    ([strip], [split], [in], [startswith], [float]) are written out
    below.  A float read by [float] is kept as the decimal its literal
    denotes. *)

From Stdlib Require Import Bool Arith ZArith NArith QArith Qabs Lia Lqa List.
From Stdlib Require Import Sorted.
From Stdlib Require Import Ascii String.
Import ListNotations.

Local Close Scope Q_scope.
Local Open Scope nat_scope.
Local Open Scope string_scope.
Local Open Scope list_scope.

(* ===================================================================== *)
(** ** Python string builtins *)
(* ===================================================================== *)

Module PyStr.

(** Characters [str.strip()] and [str.split()] treat as whitespace:
    TAB, LF, VT, FF, CR, FS, GS, RS, US, space, NEL and NBSP. *)
Definition is_space (c : ascii) : bool :=
  let n := nat_of_ascii c in
  (((9 <=? n) && (n <=? 13)) || ((28 <=? n) && (n <=? 32))
   || (n =? 133) || (n =? 160))%nat.

Fixpoint chars (s : string) : list ascii :=
  match s with
  | EmptyString => []
  | String c s' => c :: chars s'
  end.

Definition nonempty (s : string) : bool :=
  match s with EmptyString => false | String _ _ => true end.

(** Dropping the leading, and the trailing, characters that satisfy [sp]. *)
Fixpoint lstrip_by (sp : ascii -> bool) (s : string) : string :=
  match s with
  | EmptyString => EmptyString
  | String c s' => if sp c then lstrip_by sp s' else s
  end.

Fixpoint rstrip_by (sp : ascii -> bool) (s : string) : string :=
  match s with
  | EmptyString => EmptyString
  | String c s' =>
      match rstrip_by sp s' with
      | EmptyString => if sp c then EmptyString else String c EmptyString
      | r => String c r
      end
  end.

Definition strip_by (sp : ascii -> bool) (s : string) : string :=
  rstrip_by sp (lstrip_by sp s).

(** [s.strip()] *)
Definition strip (s : string) : string := strip_by is_space s.

(** [s.split()]: the maximal runs of non-whitespace characters. *)
Fixpoint split (s : string) : list string :=
  match s with
  | EmptyString => []
  | String c s' =>
      if is_space c then split s'
      else
        match s' with
        | EmptyString => [String c EmptyString]
        | String c' _ =>
            if is_space c' then String c EmptyString :: split s'
            else
              match split s' with
              | t :: ts => String c t :: ts
              | [] => [String c EmptyString]
              end
        end
  end.

(** [s.split(sep)] for a one-character separator: never the empty list. *)
Fixpoint split_on (sep : ascii) (s : string) : list string :=
  match s with
  | EmptyString => [EmptyString]
  | String c s' =>
      if Ascii.eqb c sep then EmptyString :: split_on sep s'
      else
        match split_on sep s' with
        | t :: ts => String c t :: ts
        | [] => [String c EmptyString]
        end
  end.

(** [s.startswith(p)] *)
Definition startswith (s p : string) : bool := String.prefix p s.

(** [p in s]: [p] occurs in [s] as a contiguous substring. *)
Fixpoint contains (p s : string) : bool :=
  String.prefix p s
  || match s with
     | EmptyString => false
     | String _ s' => contains p s'
     end.

(** [x in l] for a list of strings: element equality. *)
Definition mem (x : string) (l : list string) : bool :=
  existsb (String.eqb x) l.

(** [str(n)] for a non-negative integer. *)
Definition digit_char (d : nat) : ascii := ascii_of_nat (48 + d).

Fixpoint str_fuel (fuel n : nat) (acc : string) : string :=
  match fuel with
  | O => acc
  | S fuel' =>
      let acc' := String (digit_char (n mod 10)) acc in
      if (n / 10 =? 0)%nat then acc' else str_fuel fuel' (n / 10) acc'
  end.

Definition str (n : nat) : string := str_fuel (S n) n EmptyString.

(** [f.readlines()] on text whose line ends are already LF: every line
    keeps its terminator, a last unterminated line is kept too. *)
Definition LF : ascii := ascii_of_nat 10.

Fixpoint readlines (s : string) : list string :=
  match s with
  | EmptyString => []
  | String c s' =>
      if Ascii.eqb c LF then String c EmptyString :: readlines s'
      else
        match readlines s' with
        | l :: ls => String c l :: ls
        | [] => [String c EmptyString]
        end
  end.

(** Test data: a line with its terminator, and a text of such lines. *)
Definition line (s : string) : string := (s ++ String LF EmptyString)%string.

Definition text_of_lines (ls : list string) : string :=
  String.concat EmptyString (map line ls).

End PyStr.

Import PyStr.

(* ===================================================================== *)
(** ** The builtin [float(x)] on strings *)
(* ===================================================================== *)

Module PyFloat.

(** The whitespace [float] drops around its literal: TAB, LF, VT, FF, CR,
    space, NEL and NBSP (not FS, GS, RS and US). *)
Definition is_float_space (c : ascii) : bool :=
  let n := nat_of_ascii c in
  (((9 <=? n) && (n <=? 13)) || (n =? 32) || (n =? 133) || (n =? 160))%nat.

(** The value a float literal denotes: [(-1)^neg * mant * 10^exp10], an
    infinity or a NaN.  The rounding to binary64 is left out: no property
    below looks at the value. *)
Inductive pyfloat : Type :=
| Finite (neg : bool) (mant : N) (exp10 : Z)
| Infinite (neg : bool)
| NaN.

Definition digit_of (c : ascii) : option N :=
  let n := nat_of_ascii c in
  if ((48 <=? n) && (n <=? 57))%nat then Some (N.of_nat (n - 48)) else None.

(** The rest of a [digitpart] once its first digit is read: a digit, or
    one underscore followed by a digit. *)
Fixpoint more_digits (s : string) (acc : N) (cnt : Z) : N * Z * string :=
  match s with
  | EmptyString => (acc, cnt, s)
  | String c s' =>
      match digit_of c with
      | Some d => more_digits s' (10 * acc + d)%N (cnt + 1)%Z
      | None =>
          if Ascii.eqb c "_" then
            match s' with
            | EmptyString => (acc, cnt, s)
            | String c' s'' =>
                match digit_of c' with
                | Some d => more_digits s'' (10 * acc + d)%N (cnt + 1)%Z
                | None => (acc, cnt, s)
                end
            end
          else (acc, cnt, s)
      end
  end.

(** [digitpart ::= digit (["_"] digit)*], continuing the number [acc]. *)
Definition digitpart (s : string) (acc : N) (cnt : Z)
  : option (N * Z * string) :=
  match s with
  | EmptyString => None
  | String c s' =>
      match digit_of c with
      | Some d => Some (more_digits s' (10 * acc + d)%N (cnt + 1)%Z)
      | None => None
      end
  end.

Definition sign (s : string) : bool * string :=
  match s with
  | String c r =>
      if Ascii.eqb c "+" then (false, r)
      else if Ascii.eqb c "-" then (true, r)
      else (false, s)
  | EmptyString => (false, s)
  end.

(** [number ::= [digitpart] "." digitpart | digitpart ["."]]: the digits
    read as one integer, the count of fraction digits, and what follows. *)
Definition number (s : string) : option (N * Z * string) :=
  match digitpart s 0%N 0%Z with
  | Some (i, _, rest) =>
      match rest with
      | String c rest' =>
          if Ascii.eqb c "." then
            match digitpart rest' i 0%Z with
            | Some r => Some r
            | None => Some (i, 0%Z, rest')
            end
          else Some (i, 0%Z, rest)
      | EmptyString => Some (i, 0%Z, rest)
      end
  | None =>
      match s with
      | String c rest' =>
          if Ascii.eqb c "." then digitpart rest' 0%N 0%Z else None
      | EmptyString => None
      end
  end.

(** [[("e" | "E") [sign] digitpart]] up to the end of the string. *)
Definition exponent (s : string) : option Z :=
  match s with
  | EmptyString => Some 0%Z
  | String c r =>
      if Ascii.eqb c "e" || Ascii.eqb c "E" then
        let (neg, r') := sign r in
        match digitpart r' 0%N 0%Z with
        | Some (e, _, EmptyString) =>
            Some (if neg then (- Z.of_N e)%Z else Z.of_N e)
        | _ => None
        end
      else None
  end.

Definition lower (c : ascii) : ascii :=
  let n := nat_of_ascii c in
  if ((65 <=? n) && (n <=? 90))%nat then ascii_of_nat (n + 32) else c.

Fixpoint lower_str (s : string) : string :=
  match s with
  | EmptyString => EmptyString
  | String c s' => String (lower c) (lower_str s')
  end.

(** [float(s)]: [None] stands for [ValueError]. *)
Definition float (s : string) : option pyfloat :=
  let (neg, body) := sign (strip_by is_float_space s) in
  let low := lower_str body in
  if String.eqb low "inf" || String.eqb low "infinity" then Some (Infinite neg)
  else if String.eqb low "nan" then Some NaN
  else
    match number body with
    | Some (m, k, rest) =>
        match exponent rest with
        | Some e => Some (Finite neg m (e - k)%Z)
        | None => None
        end
    | None => None
    end.

(** The characters a string accepted by [float] can hold. *)
Definition float_char (c : ascii) : bool :=
  is_space c
  || match digit_of c with Some _ => true | None => false end
  || existsb (Ascii.eqb c) (chars "+-._")
  || existsb (Ascii.eqb (lower c)) (chars "einftya").

End PyFloat.

Import PyFloat.

(* ===================================================================== *)
(** ** dashboard.py: [parse_lammps_log] *)
(* ===================================================================== *)

(** What opening and reading a file in text mode gives: its text (line
    ends already translated to LF), or an exception ([OSError],
    [UnicodeDecodeError], ...). *)
Inductive read_result : Type :=
| ReadOk (text : string)
| ReadError.

Definition row : Type := list pyfloat.
Definition section : Type := (list string * list row)%type.

(** The local variables of the loop of [parse_lammps_log]. *)
Record parser_state : Type := mkParser {
  data_sections : list section;
  in_data_section : bool;
  headers : list string;
  current_section : list row
}.

Definition parser_init : parser_state :=
  mkParser [] false [] [].

(** [[float(x) for x in line.split()]]: [None] when some [float(x)]
    raises [ValueError]. *)
Fixpoint floats (tokens : list string) : option row :=
  match tokens with
  | [] => Some []
  | x :: xs =>
      match float x with
      | None => None
      | Some v =>
          match floats xs with
          | None => None
          | Some vs => Some (v :: vs)
          end
      end
  end.

Definition row_values (line : string) : option row := floats (split line).

(** [if 'Step' in line and 'Temp' in line] *)
Definition is_header (line : string) : bool :=
  contains "Step" line && contains "Temp" line.

(** [if in_data_section and current_section]: a list is true when it is
    not empty. *)
Definition has_rows (st : parser_state) : bool :=
  in_data_section st
  && match current_section st with [] => false | _ :: _ => true end.

Definition flush (st : parser_state) : list section :=
  if has_rows st
  then data_sections st ++ [(headers st, current_section st)]
  else data_sections st.

(** One iteration of [for line in content]. *)
Definition parse_line (st : parser_state) (raw : string) : parser_state :=
  let line := strip raw in
  if is_header line then
    mkParser (flush st) true (split line) []
  else if in_data_section st then
    if nonempty line
       && negb (startswith line "Loop")
       && negb (startswith line "#")
    then
      match row_values line with
      | Some values =>
          if (List.length values =? List.length (headers st))%nat
          then mkParser (data_sections st) (in_data_section st) (headers st)
                 (current_section st ++ [values])
          else st
      | None =>
          mkParser (data_sections st) false (headers st) (current_section st)
      end
    else st
  else st.

Definition parse_lines (content : list string) : list section :=
  flush (fold_left parse_line content parser_init).

(** [parse_lammps_log(log_file)], on what reading [log_file] gives. *)
Definition parse_lammps_log (f : read_result) : list section :=
  match f with
  | ReadOk text => parse_lines (readlines text)
  | ReadError => []
  end.

(* ===================================================================== *)
(** ** dashboard.py: [create_plot] and [get_simulation_status] *)
(* ===================================================================== *)

(** [os.path.basename(p)]: what follows the last "/". *)
Definition basename (p : string) : string :=
  last (split_on "/" p) EmptyString.

(** What [subprocess.run(["pgrep", ...], capture_output=True, text=True)]
    gives: a return code and the captured output, or an exception. *)
Inductive run_result : Type :=
| Ran (returncode : Z) (stdout : string)
| RunError.

(** A file matched by [glob.glob(os.path.join(log_dir, "*.log"))]: its
    path, its [os.path.getmtime] (taken to succeed on a matched file) and
    what reading it gives, the same for both reads a poll makes. *)
Record log_file : Type := mkLog {
  log_path : string;
  log_mtime : Z;
  log_read : read_result
}.

(** What one poll sees of a phase directory. *)
Record phase_dir : Type := mkPhaseDir {
  dir_exists : bool;          (* os.path.exists(phase_dir) *)
  logs_exists : bool;         (* os.path.exists(log_dir) *)
  logs_glob : list log_file;  (* glob.glob(log_dir/*.log) *)
  complete_exists : bool      (* os.path.exists(phase_dir/COMPLETE) *)
}.

(** One call of [create_plot], kept as a record of what it was given. *)
Record plot_call : Type := mkCall {
  call_data : list row;
  call_headers : list string;
  call_title : string;
  call_filename : string
}.

(** What one turn of the loop over [plot_types] comes to for a column the
    frame has, from [plt.figure] to [plt.close], once [df['Step']] has
    been found: the file is saved, or one of the calls raises, and then
    [plt.savefig] may or may not have left a file at the path. *)
Inductive drawing : Type :=
| Saved
| DrawError (file_left : bool).

(** The files of [PLOT_DIR], the calls of [create_plot] so far, and what
    matplotlib and the file system make of drawing a column for a call. *)
Record world : Type := mkWorld {
  plot_dir : list string;
  plot_calls : list plot_call;
  draw : plot_call -> string -> drawing
}.

Definition plot_types : list string := ["Temp"; "PotEng"; "KinEng"; "Press"].

(** [f"{plot_base}_{plot_type}.png"] *)
Definition plot_file (plot_base plot_type : string) : string :=
  (plot_base ++ "_" ++ plot_type ++ ".png")%string.

(** [pd.DataFrame(data, columns=headers)] on a list of rows: no row at all
    makes an empty frame; otherwise the rows are padded to the longest
    one, and the call raises unless that one is as long as [headers]. *)
Definition frame_ok (data : list row) (hs : list string) : bool :=
  match data with
  | [] => true
  | _ :: _ =>
      (list_max (map (fun r : row => List.length r) data) =? List.length hs)%nat
  end.

(** The loop over the plot types whose column is in the frame: the files
    it leaves, and whether it got to its end.  The first turn that raises
    ends it. *)
Fixpoint draw_columns (drawn : string -> drawing) (filename : string)
    (cols : list string) : list string * bool :=
  match cols with
  | [] => ([], true)
  | col :: cols' =>
      match drawn col with
      | Saved =>
          let '(files, ok) := draw_columns drawn filename cols' in
          (plot_file filename col :: files, ok)
      | DrawError file_left =>
          (if file_left then [plot_file filename col] else [], false)
      end
  end.

(** [create_plot(data, headers, title, filename)]: the files it leaves in
    [PLOT_DIR] and what it returns.  [pd.DataFrame] raising, [df['Step']]
    raising because no column is named "Step", and a turn of the loop
    raising all land in the [except] that returns [False]. *)
Definition create_plot (data : list row) (hs : list string)
    (title filename : string) (w : world) : world * bool :=
  let call := mkCall data hs title filename in
  let cols := filter (fun col => mem col hs) plot_types in
  let '(files, ok) :=
    if negb (frame_ok data hs) then ([], false)
    else
      match cols with
      | [] => ([], true)
      | _ :: _ =>
          if mem "Step" hs then draw_columns (draw w call) filename cols
          else ([], false)
      end in
  (mkWorld (plot_dir w ++ files) (plot_calls w ++ [call]) (draw w), ok).

Inductive phase_status : Type :=
| NotStarted | Running | Paused | Complete | Unknown.

(** The [phase_info] dictionary. *)
Record phase_info : Type := mkInfo {
  phase : nat;
  status : phase_status;
  progress : Q;
  log_files : list string;
  plots : list string;
  current_log : option string
}.

(** [max(a, b)] and [min(a, b)]: the first argument unless the second is
    strictly beyond it. *)
Definition py_max (a b : Q) : Q := if Qle_bool b a then a else b.
Definition py_min (a b : Q) : Q := if Qle_bool a b then a else b.

(** [min(95, max(10, len(content) / 10000 * 100))], in exact arithmetic. *)
Definition estimate_progress (content : string) : Q :=
  py_min 95 (py_max 10
    ((inject_Z (Z.of_nat (String.length content)) / 10000) * 100)%Q).

(** [max(log_files, key=os.path.getmtime)]: the first file of the
    greatest modification time. *)
Fixpoint max_by_mtime (best : log_file) (rest : list log_file) : log_file :=
  match rest with
  | [] => best
  | f :: rest' =>
      if (log_mtime best <? log_mtime f)%Z then max_by_mtime f rest'
      else max_by_mtime best rest'
  end.

(** The plot files of [plot_base] that exist in [PLOT_DIR]. *)
Definition existing_plots (plot_base : string) (w : world) : list string :=
  filter (fun f => mem f (plot_dir w)) (map (plot_file plot_base) plot_types).

(** The body of [if not have_plots:] once [sections] is known. *)
Definition generate_plots (i : nat) (plot_base : string)
    (sections : list section) (w : world) (plots0 : list string)
  : world * list string :=
  match sections with
  | [] => (w, plots0)
  | _ :: _ =>
      let '(hs, data) := last sections ([], []) in   (* sections[-1] *)
      let w' := fst (create_plot data hs ("Phase " ++ str i)%string plot_base w) in
      (w', plots0 ++ existing_plots plot_base w')
  end.

(** [str(i) in active_lammps] decides between "Running" and "Paused". *)
Definition running_or_paused (i : nat) (active_lammps : list string)
  : phase_status :=
  if mem (str i) active_lammps then Running else Paused.

(** One iteration of [for i, phase_dir in enumerate(PHASE_DIRS, 1)]: the
    world after it, the [phase_info] appended, and what it adds to
    [completed_phases]. *)
Definition process_phase (active_lammps : list string) (i : nat)
    (d : phase_dir) (w : world) : world * phase_info * nat :=
  let info0 := mkInfo i NotStarted 0 [] [] None in
  if dir_exists d then
    if logs_exists d then
      let names := map (fun f => basename (log_path f)) (logs_glob d) in
      match logs_glob d with
      | [] => (w, mkInfo i NotStarted 0 names [] None, 0)
      | f0 :: fs =>
          if complete_exists d then
            (w, mkInfo i Complete 100 names [] None, 1)
          else
            let latest_log := max_by_mtime f0 fs in
            let cur := Some (basename (log_path latest_log)) in
            let plot_base := ("phase" ++ str i ++ "_latest")%string in
            let found := existing_plots plot_base w in
            let '(w', plots') :=
              match found with
              | _ :: _ => (w, found)
              | [] =>
                  generate_plots i plot_base
                    (parse_lammps_log (log_read latest_log)) w found
              end in
            match log_read latest_log with
            | ReadOk content =>
                if contains "Loop time" content then
                  (w', mkInfo i Complete 100 names plots' cur, 1)
                else
                  (w', mkInfo i (running_or_paused i active_lammps)
                         (estimate_progress content) names plots' cur, 0)
            | ReadError =>
                (w', mkInfo i Unknown 0 names plots' cur, 0)
            end
      end
    else (w, info0, 0)
  else (w, info0, 0).

(** The [status] dictionary. *)
Record status_report : Type := mkStatus {
  phases : list phase_info;
  overall_progress : Q;
  pipeline_running : bool;
  active_lammps_count : nat
}.

Definition pipeline_is_running (r : run_result) : bool :=
  match r with
  | Ran rc _ => (rc =? 0)%Z
  | RunError => false
  end.

(** [result.stdout.strip().split('\n')] when [pgrep -f lmp] found
    something, the empty list otherwise. *)
Definition active_lammps_of (r : run_result) : list string :=
  match r with
  | Ran rc out => if (rc =? 0)%Z then split_on LF (strip out) else []
  | RunError => []
  end.

(** The loop over [PHASE_DIRS], numbered from [i]. *)
Fixpoint process_phases (active_lammps : list string) (i : nat)
    (dirs : list phase_dir) (w : world) : world * list phase_info * nat :=
  match dirs with
  | [] => (w, [], 0)
  | d :: dirs' =>
      let '(w1, info, c) := process_phase active_lammps i d w in
      let '(w2, infos, cs) := process_phases active_lammps (S i) dirs' w1 in
      (w2, info :: infos, c + cs)
  end.

Definition sum_progress (infos : list phase_info) : Q :=
  fold_left (fun acc p => (acc + progress p)%Q) infos 0%Q.

(** [get_simulation_status()], on what the two [pgrep] runs and the
    phase directories give. *)
Definition get_simulation_status (pipeline lmp : run_result)
    (dirs : list phase_dir) (w : world) : world * status_report :=
  let active_lammps := active_lammps_of lmp in
  let '(w', infos, completed_phases) := process_phases active_lammps 1 dirs w in
  let overall :=
    if (completed_phases =? 4)%nat then 100%Q
    else (sum_progress infos / 4)%Q in
  (w', mkStatus infos overall (pipeline_is_running pipeline)
         (List.length active_lammps)).

(** The [phase_info] one iteration appends. *)
Definition phase_report (active_lammps : list string) (i : nat)
    (d : phase_dir) (w : world) : phase_info :=
  snd (fst (process_phase active_lammps i d w)).

(** The [phase_info] list of a poll. *)
Definition polled_phases (pipeline lmp : run_result) (dirs : list phase_dir)
    (w : world) : list phase_info :=
  phases (snd (get_simulation_status pipeline lmp dirs w)).

(** The calls of [create_plot] a poll has made when it returns. *)
Definition polled_calls (pipeline lmp : run_result) (dirs : list phase_dir)
    (w : world) : list plot_call :=
  plot_calls (fst (get_simulation_status pipeline lmp dirs w)).

(** The section a call of [create_plot] was given is the last one of the
    latest log of [d]. *)
Definition from_last_section (d : phase_dir) (call : plot_call) : Prop :=
  exists f0 fs,
    logs_glob d = f0 :: fs
    /\ parse_lammps_log (log_read (max_by_mtime f0 fs)) <> []
    /\ (call_headers call, call_data call)
       = last (parse_lammps_log (log_read (max_by_mtime f0 fs))) ([], []).

(* ===================================================================== *)
(** ** dashboard.py: the module's names and the end of the start-up block *)
(* ===================================================================== *)

Module Startup.

(** The names a module holds before its first statement runs. *)
Definition implicit_globals : list string :=
  ["__name__"; "__doc__"; "__package__"; "__loader__"; "__spec__";
   "__annotations__"; "__builtins__"; "__file__"; "__cached__"].

(** Every name the module-level code of dashboard.py binds (imports,
    assignments, [def]s, [with ... as], and the [global remote_url] of
    [setup_ngrok]), each with the line of the statement that first
    binds it. *)
Definition module_bindings : list (nat * string) :=
  [
   (5, "os"); (6, "sys"); (7, "glob"); (8, "json"); (9, "time");
   (10, "socket"); (11, "threading"); (12, "subprocess"); (13, "np");
   (14, "matplotlib"); (16, "plt"); (17, "datetime"); (18, "Flask");
   (18, "render_template"); (18, "jsonify"); (18, "request");
   (18, "send_file"); (18, "redirect"); (18, "url_for"); (18, "session");
   (19, "SocketIO"); (20, "pd"); (21, "logging"); (22, "argparse");
   (23, "requests"); (24, "secrets"); (25, "hashlib"); (26, "qrcode");
   (27, "BytesIO"); (28, "base64"); (35, "logger"); (38, "parser");
   (42, "args"); (45, "ACCESS_KEY"); (48, "get_local_ip"); (60, "app");
   (63, "socketio"); (66, "WORKSPACE_DIR"); (67, "DATA_DIR");
   (68, "PHASE_DIRS"); (69, "LOG_DIRS"); (70, "PLOT_DIR");
   (71, "KEY_HASH"); (72, "running_sims"); (73, "last_update");
   (74, "remote_url"); (80, "setup_ngrok"); (135, "generate_qr_code");
   (152, "require_auth"); (165, "parse_lammps_log"); (203, "create_plot");
   (234, "get_simulation_status"); (344, "login"); (356, "logout");
   (362, "index"); (367, "api_status"); (372, "api_launch");
   (393, "get_plot"); (398, "get_log"); (422, "get_login_template");
   (482, "get_dashboard_template"); (830, "get_dashboard_url");
   (850, "render_login_template"); (856, "render_template_string");
   (861, "remote_access_success"); (863, "secure_url"); (864, "qr_code");
   (874, "f"); (892, "ip"); (893, "port"); (904, "update_thread")
  ].

(** The names of Python's [builtins] module. *)
Definition builtins : list string :=
  [
   "ArithmeticError"; "AssertionError"; "AttributeError"; "BaseException";
   "BaseExceptionGroup"; "BlockingIOError"; "BrokenPipeError";
   "BufferError"; "BytesWarning"; "ChildProcessError";
   "ConnectionAbortedError"; "ConnectionError"; "ConnectionRefusedError";
   "ConnectionResetError"; "DeprecationWarning"; "EOFError"; "Ellipsis";
   "EncodingWarning"; "EnvironmentError"; "Exception"; "ExceptionGroup";
   "False"; "FileExistsError"; "FileNotFoundError"; "FloatingPointError";
   "FutureWarning"; "GeneratorExit"; "IOError"; "ImportError";
   "ImportWarning"; "IndentationError"; "IndexError"; "InterruptedError";
   "IsADirectoryError"; "KeyError"; "KeyboardInterrupt"; "LookupError";
   "MemoryError"; "ModuleNotFoundError"; "NameError"; "None";
   "NotADirectoryError"; "NotImplemented"; "NotImplementedError";
   "OSError"; "OverflowError"; "PendingDeprecationWarning";
   "PermissionError"; "ProcessLookupError"; "RecursionError";
   "ReferenceError"; "ResourceWarning"; "RuntimeError"; "RuntimeWarning";
   "StopAsyncIteration"; "StopIteration"; "SyntaxError"; "SyntaxWarning";
   "SystemError"; "SystemExit"; "TabError"; "TimeoutError"; "True";
   "TypeError"; "UnboundLocalError"; "UnicodeDecodeError";
   "UnicodeEncodeError"; "UnicodeError"; "UnicodeTranslateError";
   "UnicodeWarning"; "UserWarning"; "ValueError"; "Warning";
   "ZeroDivisionError"; "__build_class__"; "__debug__"; "__doc__";
   "__import__"; "__loader__"; "__name__"; "__package__"; "__spec__";
   "abs"; "aiter"; "all"; "anext"; "any"; "ascii"; "bin"; "bool";
   "breakpoint"; "bytearray"; "bytes"; "callable"; "chr"; "classmethod";
   "compile"; "complex"; "copyright"; "credits"; "delattr"; "dict"; "dir";
   "divmod"; "enumerate"; "eval"; "exec"; "exit"; "filter"; "float";
   "format"; "frozenset"; "getattr"; "globals"; "hasattr"; "hash"; "help";
   "hex"; "id"; "input"; "int"; "isinstance"; "issubclass"; "iter"; "len";
   "license"; "list"; "locals"; "map"; "max"; "memoryview"; "min"; "next";
   "object"; "oct"; "open"; "ord"; "pow"; "print"; "property"; "quit";
   "range"; "repr"; "reversed"; "round"; "set"; "setattr"; "slice";
   "sorted"; "staticmethod"; "str"; "sum"; "super"; "tuple"; "type";
   "vars"; "zip"
  ].

(** The attributes a lookup on the class [datetime.datetime] finds
    (Python 3.11): those of the class and its bases, and those of its
    metaclass. *)
Definition datetime_class_attributes : list string :=
  [
   "__add__"; "__base__"; "__bases__"; "__basicsize__"; "__call__";
   "__class__"; "__delattr__"; "__dict__"; "__dictoffset__"; "__dir__";
   "__doc__"; "__eq__"; "__flags__"; "__format__"; "__ge__";
   "__getattribute__"; "__getstate__"; "__gt__"; "__hash__"; "__init__";
   "__init_subclass__"; "__instancecheck__"; "__itemsize__"; "__le__";
   "__lt__"; "__module__"; "__mro__"; "__name__"; "__ne__"; "__new__";
   "__or__"; "__prepare__"; "__qualname__"; "__radd__"; "__reduce__";
   "__reduce_ex__"; "__repr__"; "__ror__"; "__rsub__"; "__setattr__";
   "__sizeof__"; "__str__"; "__sub__"; "__subclasscheck__";
   "__subclasses__"; "__subclasshook__"; "__text_signature__";
   "__weakrefoffset__"; "astimezone"; "combine"; "ctime"; "date"; "day";
   "dst"; "fold"; "fromisocalendar"; "fromisoformat"; "fromordinal";
   "fromtimestamp"; "hour"; "isocalendar"; "isoformat"; "isoweekday";
   "max"; "microsecond"; "min"; "minute"; "month"; "mro"; "now"; "replace";
   "resolution"; "second"; "strftime"; "strptime"; "time"; "timestamp";
   "timetuple"; "timetz"; "today"; "toordinal"; "tzinfo"; "tzname";
   "utcfromtimestamp"; "utcnow"; "utcoffset"; "utctimetuple"; "weekday";
   "year"
  ].

(** What a global is bound to, as far as start-up depends on it: the
    class [datetime.datetime], or an object of another kind. *)
Inductive object : Type :=
| DatetimeClass
| Other.

(** The module's globals, the newest binding first. *)
Definition namespace : Type := list (string * object).

Definition names (g : namespace) : list string := map fst g.

Definition lookup (n : string) (g : namespace) : option object :=
  option_map snd (find (fun b => String.eqb n (fst b)) g).

Definition initial_namespace : namespace :=
  map (fun n => (n, Other)) implicit_globals.

(** [LibraryError line]: the import system or a library raised at that
    line, whatever the exception is (ImportError, OSError, the SystemExit
    of [parse_args], ...). *)
Inductive exn : Type :=
| NameError (name : string)
| AttributeError (type_name attribute : string)
| LibraryError (line : nat).

Inductive event : Type :=
| ThreadStarted (target : string)
| ServerRunning.

(** What running statements gives: the events so far, and an exception
    or a value. *)
Definition run (A : Type) : Type := (list event * (exn + A))%type.

Definition ret {A : Type} (a : A) : run A := ([], inr a).

Definition bind {A B : Type} (m : run A) (k : A -> run B) : run B :=
  match m with
  | (evs, inl e) => (evs, inl e)
  | (evs, inr a) => let '(evs', r) := k a in (evs ++ evs', r)
  end.

Definition emit (ev : event) : run unit := ([ev], inr tt).

(** Evaluating a name in module-level code: the globals, then the
    builtins, else [NameError]. *)
Definition load_name (globals : list string) (n : string) : run unit :=
  if mem n globals || mem n builtins then ret tt
  else ([], inl (NameError n)).

Definition raise {A : Type} (x : exn) : run A := ([], inl x).

(** What a module-level statement does with the globals, step by step in
    the order of evaluation. *)
Inductive step : Type :=
| Name (n : string)           (* the name [n] is evaluated *)
| Attribute (n a : string)    (* [n.a]: the name, then its attribute *)
| Library                     (* the import system or a library runs *)
| Bind (n : string) (o : object).   (* the global [n] is bound *)

Record statement : Type := mkStatement {
  stmt_line : nat;
  stmt_steps : list step
}.

(** [import m] and [import m as n]; [from m import n1, n2, ...], where
    each name is fetched from the module and bound in turn. *)
Definition import_module (line : nat) (n : string) : statement :=
  mkStatement line [Library; Bind n Other].

Definition from_import (line : nat) (bound : list (string * object)) : statement :=
  mkStatement line
    (Library :: flat_map (fun b => [Library; Bind (fst b) (snd b)]) bound).

(** Lines 5 to 62 of dashboard.py.  Line 45 evaluates one branch of its
    conditional expression, chosen by whether [--secure-key] was given a
    non-empty value. *)
Definition header (secure_key : bool) : list statement :=
  [ import_module 5 "os"; import_module 6 "sys"; import_module 7 "glob";
    import_module 8 "json"; import_module 9 "time"; import_module 10 "socket";
    import_module 11 "threading"; import_module 12 "subprocess";
    import_module 13 "np"; import_module 14 "matplotlib";
    mkStatement 15 [Attribute "matplotlib" "use"; Library];
    import_module 16 "plt";
    from_import 17 [("datetime", DatetimeClass)];
    from_import 18
      [("Flask", Other); ("render_template", Other); ("jsonify", Other);
       ("request", Other); ("send_file", Other); ("redirect", Other);
       ("url_for", Other); ("session", Other)];
    from_import 19 [("SocketIO", Other)];
    import_module 20 "pd"; import_module 21 "logging";
    import_module 22 "argparse"; import_module 23 "requests";
    import_module 24 "secrets"; import_module 25 "hashlib";
    import_module 26 "qrcode";
    from_import 27 [("BytesIO", Other)];
    import_module 28 "base64";
    mkStatement 31
      [Attribute "logging" "basicConfig"; Attribute "logging" "INFO";
       Attribute "logging" "FileHandler"; Library;
       Attribute "logging" "StreamHandler"; Library; Library];
    mkStatement 35 [Attribute "logging" "getLogger"; Library; Bind "logger" Other];
    mkStatement 38
      [Attribute "argparse" "ArgumentParser"; Library; Bind "parser" Other];
    mkStatement 39 [Attribute "parser" "add_argument"; Library];
    mkStatement 40 [Attribute "parser" "add_argument"; Name "str"; Library];
    mkStatement 41 [Attribute "parser" "add_argument"; Name "str"; Library];
    mkStatement 42 [Attribute "parser" "parse_args"; Library; Bind "args" Other];
    mkStatement 45
      (if secure_key
       then [Attribute "args" "secure_key"; Attribute "args" "secure_key";
             Bind "ACCESS_KEY" Other]
       else [Attribute "args" "secure_key"; Attribute "secrets" "token_urlsafe";
             Library; Bind "ACCESS_KEY" Other]);
    mkStatement 48 [Bind "get_local_ip" Other];
    mkStatement 60 [Name "Flask"; Name "__name__"; Library; Bind "app" Other];
    mkStatement 61
      [Attribute "secrets" "token_hex"; Library; Attribute "app" "config"; Library];
    mkStatement 62
      [Attribute "datetime" "timedelta"; Library; Attribute "app" "config"; Library]
  ].

Section Running.

(** Whether the library step at a line, and at a place among the steps of
    its statement, raises. *)
Variable lib : nat -> nat -> bool.

Definition library (line pos : nat) : run unit :=
  if lib line pos then raise (LibraryError line) else ret tt.

(** An attribute read off the class [datetime.datetime] is decided by the
    class; read off another object it is a library step. *)
Definition run_step (line pos : nat) (s : step) (g : namespace) : run namespace :=
  match s with
  | Name n => bind (load_name (names g) n) (fun _ => ret g)
  | Attribute n a =>
      bind (load_name (names g) n) (fun _ =>
      match lookup n g with
      | Some DatetimeClass =>
          if mem a datetime_class_attributes then ret g
          else raise (AttributeError "datetime.datetime" a)
      | _ => bind (library line pos) (fun _ => ret g)
      end)
  | Library => bind (library line pos) (fun _ => ret g)
  | Bind n o => ret ((n, o) :: g)
  end.

Fixpoint run_steps (line pos : nat) (ss : list step) (g : namespace)
  : run namespace :=
  match ss with
  | [] => ret g
  | s :: rest =>
      bind (run_step line pos s g) (fun g' => run_steps line (S pos) rest g')
  end.

Fixpoint run_statements (sts : list statement) (g : namespace) : run namespace :=
  match sts with
  | [] => ret g
  | st :: rest =>
      bind (run_steps (stmt_line st) 0 (stmt_steps st) g) (fun g' => run_statements rest g')
  end.

End Running.

(** Lines 903 to 909 of dashboard.py:
      update_thread = threading.Thread(target=background_updates)
      update_thread.daemon = True
      update_thread.start()
      socketio.run(app, host='0.0.0.0', port=port)                   *)
Definition start_updates_and_serve (globals : list string) : run unit :=
  bind (load_name globals "threading") (fun _ =>
  bind (load_name globals "background_updates") (fun _ =>
  let globals' := "update_thread" :: globals in
  bind (load_name globals' "update_thread") (fun _ =>
  bind (load_name globals' "update_thread") (fun _ =>
  bind (emit (ThreadStarted "background_updates")) (fun _ =>
  bind (load_name globals' "socketio") (fun _ =>
  bind (load_name globals' "app") (fun _ =>
  bind (load_name globals' "port") (fun _ =>
  emit ServerRunning)))))))).

(** Running dashboard.py as a script: lines 5 to 62, then lines 63 to 902
    (the remaining settings, the function and route definitions and the
    first part of the start-up block), which enter as [later], then lines
    903 to 909. *)
Definition startup (secure_key : bool) (lib : nat -> nat -> bool)
    (later : namespace -> run namespace) : run unit :=
  bind (run_statements lib (header secure_key) initial_namespace) (fun g =>
  bind (later g) (fun g' =>
  start_updates_and_serve (names g'))).

(** Where the steps of a statement end when no library step raises:
    [None] when a name is unbound or the class lacks an attribute. *)
Fixpoint steps_resolve (ss : list step) (g : namespace) : option namespace :=
  match ss with
  | [] => Some g
  | s :: rest =>
      match s with
      | Name n =>
          if mem n (names g) || mem n builtins then steps_resolve rest g else None
      | Attribute n a =>
          if mem n (names g) || mem n builtins then
            match lookup n g with
            | Some DatetimeClass =>
                if mem a datetime_class_attributes then steps_resolve rest g
                else None
            | _ => steps_resolve rest g
            end
          else None
      | Library => steps_resolve rest g
      | Bind n o => steps_resolve rest ((n, o) :: g)
      end
  end.

Fixpoint statements_resolve (sts : list statement) (g : namespace)
  : option namespace :=
  match sts with
  | [] => Some g
  | st :: rest =>
      match steps_resolve (stmt_steps st) g with
      | Some g' => statements_resolve rest g'
      | None => None
      end
  end.

End Startup.

(* ===================================================================== *)
(** ** py_phase4.py: [load_data], the analysis entry points and [main] *)
(* ===================================================================== *)

Module Report.

(** [os.path.join(DATA_DIR, name)] with [DATA_DIR = "../output/"]. *)
Definition DATA_DIR : string := "../output/".
Definition PARTICLE_SIZE_FILE : string := (DATA_DIR ++ "particle_size_dist.dat")%string.
Definition COMPOSITION_FILE : string := (DATA_DIR ++ "composition_analysis.dat")%string.
Definition RDF_FILE : string := (DATA_DIR ++ "rdf_nanoparticles.dat")%string.
Definition THERMO_FILE : string := (DATA_DIR ++ "thermodynamic_analysis.dat")%string.
Definition EVOLUTION_FILE : string := (DATA_DIR ++ "cluster_evolution.dat")%string.
Definition FIGURE_DIR : string := "../figures/".

(** What the script sees and leaves: which paths [os.path.exists]
    accepts, and the lines it has printed. *)
Record env : Type := mkEnv {
  present : string -> bool;
  printed : list string
}.

(** A call returns a value or raises an exception with a message. *)
Inductive outcome (A : Type) : Type :=
| Returned (a : A)
| Raised (msg : string).
Arguments Returned {A} a.
Arguments Raised {A} msg.

Definition M (A : Type) : Type := env -> env * outcome A.

Definition ret {A : Type} (a : A) : M A := fun e => (e, Returned a).

Definition bind {A B : Type} (m : M A) (k : A -> M B) : M B :=
  fun e =>
    match m e with
    | (e', Returned a) => k a e'
    | (e', Raised msg) => (e', Raised msg)
    end.

(** [print(msg)] *)
Definition print (msg : string) : M unit :=
  fun e => (mkEnv (present e) (printed e ++ [msg]), Returned tt).

(** [try: body except Exception as e: handler(str(e))] *)
Definition try_except {A : Type} (body : M A) (handler : string -> M A) : M A :=
  fun e =>
    match body e with
    | (e', Returned a) => (e', Returned a)
    | (e', Raised msg) => handler msg e'
    end.

(** Statements run one after the other, their values dropped. *)
Fixpoint seq (steps : list (M unit)) : M unit :=
  match steps with
  | [] => ret tt
  | s :: rest => bind s (fun _ => seq rest)
  end.

Definition ignore {A : Type} (m : M A) : M unit := bind m (fun _ => ret tt).

Fixpoint repeat_char (c : ascii) (n : nat) : string :=
  match n with
  | O => EmptyString
  | S n' => String c (repeat_char c n')
  end.

Notation "x <- m ;; k" := (bind m (fun x => k))
  (at level 61, m at next level, right associativity).
Notation "m ;;; k" := (bind m (fun _ => k))
  (at level 61, right associativity).

Section Analyses.

(** The numpy array type and the library calls the script makes. *)
Variable ndarray : Type.
Variable value : Type.

(** [np.loadtxt(filename, skiprows=..., delimiter=...)] *)
Variable np_loadtxt : string -> nat -> option string -> M ndarray.

(** The statistics and plotting each analysis does with its data. *)
Variable size_body : ndarray -> M (option value).
Variable composition_body : ndarray -> M (option value).
Variable structure_body : ndarray -> M (option value).
Variable evolution_body : ndarray -> M (option value).

(** The reading, printing and plotting of [analyze_thermodynamics]
    inside its [try], once the file is known to exist. *)
Variable thermo_body : M value.

Variable generate_report : M unit.
Variable generate_pdf_report : M unit.

(** [load_data(filename, skip_rows=1, delimiter=None)] *)
Definition load_data (filename : string) (skip_rows : nat)
    (delimiter : option string) : M (option ndarray) :=
  try_except
    (fun e =>
       if present e filename then
         (a <- np_loadtxt filename skip_rows delimiter ;; ret (Some a)) e
       else
         (print ("Warning: " ++ filename ++ " not found")%string ;;; ret None) e)
    (fun msg =>
       print ("Error loading " ++ filename ++ ": " ++ msg)%string ;;; ret None).

Definition analyze_size_distribution : M (option value) :=
  print "Analyzing nanoparticle size distribution..." ;;;
  sizes_data <- load_data PARTICLE_SIZE_FILE 1 None ;;
  match sizes_data with
  | None => ret None
  | Some a => size_body a
  end.

Definition analyze_composition : M (option value) :=
  print "Analyzing composition data..." ;;;
  comp_data <- load_data COMPOSITION_FILE 1 None ;;
  match comp_data with
  | None => ret None
  | Some a => composition_body a
  end.

Definition analyze_structure : M (option value) :=
  print "Analyzing structural data (RDF)..." ;;;
  rdf_data <- load_data RDF_FILE 1 None ;;
  match rdf_data with
  | None => ret None
  | Some a => structure_body a
  end.

Definition analyze_thermodynamics : M (option value) :=
  print "Analyzing thermodynamic data..." ;;;
  try_except
    (fun e =>
       if present e THERMO_FILE then (v <- thermo_body ;; ret (Some v)) e
       else ret None e)
    (fun msg =>
       print ("Error processing thermodynamic data: " ++ msg)%string ;;; ret None).

Definition analyze_time_evolution : M (option value) :=
  print "Analyzing temporal evolution..." ;;;
  evolution_data <- load_data EVOLUTION_FILE 1 None ;;
  match evolution_data with
  | None => ret None
  | Some a => evolution_body a
  end.

(** The five analyses [main] runs, the file each one reads, and what it
    prints when that file is missing. *)
Inductive analysis : Type :=
| Size | Composition | Structure | Thermodynamics | Evolution.

Definition input_file (k : analysis) : string :=
  match k with
  | Size => PARTICLE_SIZE_FILE
  | Composition => COMPOSITION_FILE
  | Structure => RDF_FILE
  | Thermodynamics => THERMO_FILE
  | Evolution => EVOLUTION_FILE
  end.

Definition analyze (k : analysis) : M (option value) :=
  match k with
  | Size => analyze_size_distribution
  | Composition => analyze_composition
  | Structure => analyze_structure
  | Thermodynamics => analyze_thermodynamics
  | Evolution => analyze_time_evolution
  end.

Definition missing_output (k : analysis) : list string :=
  match k with
  | Size =>
      ["Analyzing nanoparticle size distribution...";
       ("Warning: " ++ PARTICLE_SIZE_FILE ++ " not found")%string]
  | Composition =>
      ["Analyzing composition data...";
       ("Warning: " ++ COMPOSITION_FILE ++ " not found")%string]
  | Structure =>
      ["Analyzing structural data (RDF)...";
       ("Warning: " ++ RDF_FILE ++ " not found")%string]
  | Thermodynamics => ["Analyzing thermodynamic data..."]
  | Evolution =>
      ["Analyzing temporal evolution...";
       ("Warning: " ++ EVOLUTION_FILE ++ " not found")%string]
  end.

(** Where the call of each analysis stands among the statements of
    [main], counted from 0. *)
Definition position (k : analysis) : nat :=
  match k with
  | Size => 3
  | Composition => 4
  | Structure => 5
  | Thermodynamics => 6
  | Evolution => 7
  end.

(** The statements of [main], in order. *)
Definition main_steps : list (M unit) :=
  [ print (repeat_char "=" 80);
    print "NITINOL NANOPARTICLE FORMATION ANALYSIS";
    print (repeat_char "=" 80);
    ignore (analyze Size);
    ignore (analyze Composition);
    ignore (analyze Structure);
    ignore (analyze Thermodynamics);
    ignore (analyze Evolution);
    generate_report;
    generate_pdf_report;
    print (String LF "Analysis complete. Results saved to: " ++ FIGURE_DIR)%string;
    print ("PDF report with enhanced statistics generated in: " ++ DATA_DIR)%string;
    print (repeat_char "=" 80) ].

Definition main : M unit := seq main_steps.

End Analyses.

End Report.

(* ===================================================================== *)
(** ** Predicates of the statements, and test data *)
(* ===================================================================== *)

(** Every character of [s] is one a float literal can hold. *)
Definition all_float_chars (s : string) : Prop :=
  forall c, In c (chars s) -> float_char c = true.

(** A numeric row for the header tokens [hs]: every token converts with
    [float], and there are as many tokens as header tokens. *)
Definition numeric_row (hs : list string) (raw : string) : Prop :=
  exists vs, row_values (strip raw) = Some vs
             /\ List.length (split (strip raw)) = List.length hs.

(** A well-formed section, and the invariant of the parsing loop. *)
Definition section_ok (s : section) : Prop :=
  snd s <> []
  /\ Forall (fun r : row => List.length r = List.length (fst s)) (snd s).

Definition parser_inv (st : parser_state) : Prop :=
  Forall section_ok (data_sections st)
  /\ Forall (fun r : row => List.length r = List.length (headers st))
       (current_section st).

(** Test data: the loop's variables after a header and one row. *)
Definition after_one_row : parser_state :=
  fold_left parse_line [line "Step Temp"; line "1 2"] parser_init.

(** Test data: phase directories as a poll may find them. *)
Definition no_dir : phase_dir := mkPhaseDir false false [] false.

Definition flag_without_logs : phase_dir := mkPhaseDir true true [] true.

Definition flag_with_log : phase_dir :=
  mkPhaseDir true true
    [mkLog "/home/rimuru/workspace/setup_sim/data/phase1/logs/run.log" 100
       (ReadOk (text_of_lines ["Step Temp"; "0 300"]))]
    true.

Definition unreadable_log : phase_dir :=
  mkPhaseDir true true
    [mkLog "/home/rimuru/workspace/setup_sim/data/phase1/logs/run.log" 100
       ReadError]
    false.

Definition growing_log : phase_dir :=
  mkPhaseDir true true
    [mkLog "/home/rimuru/workspace/setup_sim/data/phase1/logs/old.log" 50
       (ReadOk (text_of_lines ["Step Temp"; "0 300"; "Loop time of 2.0"]));
     mkLog "/home/rimuru/workspace/setup_sim/data/phase1/logs/run.log" 100
       (ReadOk (text_of_lines
                  ["Step Temp"; "0 300"; "Step Temp Press"; "0 300 1.5"; "10 301 1.4"]))]
    false.

(** An empty PLOT_DIR where every drawing succeeds. *)
Definition empty_world : world := mkWorld [] [] (fun _ _ => Saved).

(** What a poll reports for [growing_log] as phase 1 while process 1 runs. *)
Definition growing_log_info : phase_info :=
  mkInfo 1 Running 10 ["old.log"; "run.log"]
    ["phase1_latest_Temp.png"; "phase1_latest_Press.png"] (Some "run.log").

(** [pgrep -f lmp] printing the process ids 1 and 4711, and 12 and 4711. *)
Definition pgrep_1_4711 : run_result := Ran 0 (text_of_lines ["1"; "4711"]).
Definition pgrep_12_4711 : run_result := Ran 0 (text_of_lines ["12"; "4711"]).

(** Test data for the report script: library calls that do nothing, and
    an output directory that holds the RDF file only. *)
Definition test_loadtxt : string -> nat -> option string -> Report.M unit :=
  fun _ _ _ => Report.ret tt.

Definition test_body : unit -> Report.M (option unit) :=
  fun _ => Report.bind (Report.print "(statistics and plots)")
             (fun _ => Report.ret (Some tt)).

Definition test_thermo : Report.M unit := Report.ret tt.

Definition test_report : Report.M unit := Report.print "(report)".

Definition only_rdf_present : Report.env :=
  Report.mkEnv (fun p => String.eqb p Report.RDF_FILE) [].

(** What [main] has printed in that directory when it reaches the
    composition analysis. *)
Definition after_size_missing : Report.env :=
  Report.mkEnv (Report.present only_rdf_present)
    [ Report.repeat_char "=" 80;
      "NITINOL NANOPARTICLE FORMATION ANALYSIS";
      Report.repeat_char "=" 80;
      "Analyzing nanoparticle size distribution...";
      "Warning: ../output/particle_size_dist.dat not found" ].


(* ===================================================================== *)
(** ** Further predicates on logs *)
(* ===================================================================== *)

(** The loop's variables after the lines [content]. *)
Definition parser_after (content : list string) : parser_state :=
  fold_left parse_line content parser_init.

(** The sections already appended to [data_sections] after [content]:
    those a later header line has closed. *)
Definition closed_sections (content : list string) : list section :=
  data_sections (parser_after content).

(** A line that reaches [float] and makes it raise: not a header, not
    blank, not a "Loop" or comment line, with a token [float] rejects. *)
Definition unconvertible (raw : string) : Prop :=
  is_header (strip raw) = false
  /\ nonempty (strip raw) = true
  /\ startswith (strip raw) "Loop" = false
  /\ startswith (strip raw) "#" = false
  /\ row_values (strip raw) = None.

Definition no_header (content : list string) : Prop :=
  Forall (fun l => is_header (strip l) = false) content.

(** The number of header lines of a log. *)
Definition count_headers (content : list string) : nat :=
  List.length (filter (fun l => is_header (strip l)) content).

(** Where a returned section comes from: its header tokens from a header
    line of the log, each of its rows from a line of the log. *)
Definition section_from (content : list string) (s : section) : Prop :=
  (exists l, In l content /\ is_header (strip l) = true
             /\ fst s = split (strip l))
  /\ forall r, In r (snd s) ->
       exists l, In l content /\ row_values (strip l) = Some r.

(** A line the loop passes over: no header, and blank or starting with
    "Loop" or "#". *)
Definition skipped_line (raw : string) : bool :=
  negb (is_header (strip raw))
  && (negb (nonempty (strip raw))
      || startswith (strip raw) "Loop"
      || startswith (strip raw) "#").

(* ===================================================================== *)
(** ** Further predicates on polls *)
(* ===================================================================== *)

(** [f"phase{i}_latest"] *)
Definition plot_base_of (i : nat) : string :=
  ("phase" ++ str i ++ "_latest")%string.

(** Decimal digits, and strings of them: what [str] gives for a number. *)
Definition is_digit (c : ascii) : Prop := exists d, d < 10 /\ c = digit_char d.

Fixpoint all_digits (s : string) : Prop :=
  match s with
  | EmptyString => True
  | String c s' => is_digit c /\ all_digits s'
  end.

(** The number a string of digits denotes, after the digits of [acc]. *)
Fixpoint digits_value (acc : nat) (s : string) : nat :=
  match s with
  | EmptyString => acc
  | String c s' => digits_value (10 * acc + (nat_of_ascii c - 48)) s'
  end.

(** Test data: the last section of the newest log of [growing_log]. *)
Definition growing_log_last_section : section :=
  (["Step"; "Temp"; "Press"],
   [[Finite false 0 0; Finite false 300 0; Finite false 15 (-1)];
    [Finite false 10 0; Finite false 301 0; Finite false 14 (-1)]]).

(** [m] is the first file of the greatest modification time in [logs]. *)
Definition first_newest (m : log_file) (logs : list log_file) : Prop :=
  exists pre post,
    logs = pre ++ m :: post
    /\ (forall f, In f pre -> (log_mtime f < log_mtime m)%Z)
    /\ (forall f, In f post -> (log_mtime f <= log_mtime m)%Z).

(** The plot columns among the header tokens [hs]. *)
Definition plot_columns (hs : list string) : list string :=
  filter (fun col => mem col hs) plot_types.

(** Test data: a section whose pressure column holds 1e308 and -1e308,
    and a PLOT_DIR where drawing the pressure raises and leaves no file. *)
Definition overflow_section : section :=
  (["Step"; "Temp"; "Press"],
   [[Finite false 0 0; Finite false 300 0; Finite false 1 308];
    [Finite false 1 0; Finite false 301 0; Finite true 1 308]]).

Definition press_overflow_world : world :=
  mkWorld [] []
    (fun _ col => if String.eqb col "Press" then DrawError false else Saved).

(** [pgrep -f lmp] found nothing, or could not be run. *)
Definition pgrep_failed (r : run_result) : Prop :=
  r = RunError \/ exists rc out, r = Ran rc out /\ rc <> 0%Z.

(** Test data: a phase whose newest log ends with the completion marker
    while an older one does not. *)
Definition finished_log : phase_dir :=
  mkPhaseDir true true
    [mkLog "/home/rimuru/workspace/setup_sim/data/phase2/logs/a.log" 10
       (ReadOk (text_of_lines ["Step Temp"; "0 300"]));
     mkLog "/home/rimuru/workspace/setup_sim/data/phase2/logs/b.log" 20
       (ReadOk (text_of_lines ["Step Temp"; "0 300"; "Loop time of 2.0 on 4 procs"]))]
    false.

(** [min(95, max(10, x))], and [n / 10000 * 100] for a length [n]. *)
Definition clamp (x : Q) : Q := py_min 95 (py_max 10 x).

Definition raw_estimate (n : nat) : Q :=
  (inject_Z (Z.of_nat n) / 10000 * 100)%Q.

(** A phase directory with a logs directory that holds a log file. *)
Definition has_logs (d : phase_dir) : bool :=
  dir_exists d && logs_exists d
  && match logs_glob d with [] => false | _ :: _ => true end.

(** What reading the newest log gives, when there is a log. *)
Definition latest_read (d : phase_dir) : option read_result :=
  match logs_glob d with
  | [] => None
  | f0 :: fs => Some (log_read (max_by_mtime f0 fs))
  end.

(** The status the loop body decides, read off its branches. *)
Definition expected_status (active : list string) (i : nat) (d : phase_dir)
  : phase_status :=
  if negb (has_logs d) then NotStarted
  else if complete_exists d then Complete
  else
    match latest_read d with
    | Some (ReadOk content) =>
        if contains "Loop time" content then Complete
        else if mem (str i) active then Running else Paused
    | Some ReadError => Unknown
    | None => NotStarted
    end.

(* ===================================================================== *)
(** ** py_phase4.py: peaks of the RDF, energies, half-ejection time *)
(* ===================================================================== *)

Module Stats.

(** Finite float values compare as the rationals they are; [a < b]. *)
Definition Qlt_bool (a b : Q) : bool := negb (Qle_bool b a).

(** [gr[i]] for an index in range. *)
Definition at_index (gr : list Q) (i : nat) : Q := nth i gr 0%Q.

(** [gr[i] > gr[i-1] and gr[i] > gr[i+1] and gr[i] > 1.0] *)
Definition is_peak (gr : list Q) (i : nat) : bool :=
  Qlt_bool (at_index gr (i - 1)) (at_index gr i)
  && Qlt_bool (at_index gr (i + 1)) (at_index gr i)
  && Qlt_bool 1 (at_index gr i).

(** The loop [for i in range(1, len(gr)-1): if ...: peak_indices.append(i)]
    of [analyze_structure] and [generate_pdf_report]. *)
Definition peak_indices (gr : list Q) : list nat :=
  filter (is_peak gr) (seq 1 (List.length gr - 2)).

(** [peak_indices[:5]], the peaks that get a label or a table row. *)
Definition labelled_peaks (gr : list Q) : list nat :=
  firstn 5 (peak_indices gr).

(** Exceptions of the code below. *)
Inductive py_exn : Type :=
| IndexError
| ValueError (token : string)
| TypeError
| UnboundLocalError (name : string).

Inductive result (A : Type) : Type :=
| Ok (a : A)
| Err (e : py_exn).
Arguments Ok {A} a.
Arguments Err {A} e.

(** The four local variables of the thermodynamics parsing. *)
Record energies : Type := mkEnergies {
  energy_total : option pyfloat;
  energy_nano : option pyfloat;
  formation_energy : option pyfloat;
  surface_energy : option pyfloat
}.

Definition no_energies : energies := mkEnergies None None None None.

(** [float(parts[i+1])] where [rest] is [parts[i+1:]]. *)
Definition next_float (rest : list string) : result pyfloat :=
  match rest with
  | [] => Err IndexError
  | x :: _ =>
      match float x with
      | Some v => Ok v
      | None => Err (ValueError x)
      end
  end.

(** [for i, part in enumerate(parts): if part == "Energy_Total:": ...] *)
Fixpoint scan_parts (parts : list string) (e : energies) : result energies :=
  match parts with
  | [] => Ok e
  | part :: rest =>
      if String.eqb part "Energy_Total:" then
        match next_float rest with
        | Ok v => scan_parts rest
                    (mkEnergies (Some v) (energy_nano e) (formation_energy e)
                       (surface_energy e))
        | Err x => Err x
        end
      else if String.eqb part "Energy_Nano:" then
        match next_float rest with
        | Ok v => scan_parts rest
                    (mkEnergies (energy_total e) (Some v) (formation_energy e)
                       (surface_energy e))
        | Err x => Err x
        end
      else if String.eqb part "Formation_Energy:" then
        match next_float rest with
        | Ok v => scan_parts rest
                    (mkEnergies (energy_total e) (energy_nano e) (Some v)
                       (surface_energy e))
        | Err x => Err x
        end
      else if String.eqb part "Surface_Energy:" then
        match next_float rest with
        | Ok v => scan_parts rest
                    (mkEnergies (energy_total e) (energy_nano e)
                       (formation_energy e) (Some v))
        | Err x => Err x
        end
      else scan_parts rest e
  end.

(** [for line in lines: if "Energy_Total:" in line: parts = line.split() ...] *)
Fixpoint scan_lines (lines : list string) (e : energies) : result energies :=
  match lines with
  | [] => Ok e
  | l :: rest =>
      if contains "Energy_Total:" l then
        match scan_parts (split l) e with
        | Ok e' => scan_lines rest e'
        | Err x => Err x
        end
      else scan_lines rest e
  end.

Definition extract_energies (lines : list string) : result energies :=
  scan_lines lines no_energies.

(** A local variable of a function: assigned or not yet. *)
Inductive local (A : Type) : Type :=
| Unbound
| Bound (a : A).
Arguments Unbound {A}.
Arguments Bound {A} a.

(** [max(xs)] of a non-empty sequence: the first greatest element. *)
Fixpoint max_from (best : Q) (xs : list Q) : Q :=
  match xs with
  | [] => best
  | x :: xs' => if Qlt_bool best x then max_from x xs' else max_from best xs'
  end.

Definition py_max_list (xs : list Q) : Q :=
  match xs with
  | [] => 0%Q
  | x :: xs' => max_from x xs'
  end.

(** The loop
      for i in range(len(time)):
          if ejected_count[i] >= max(ejected_count) * 0.5:
              half_ejection_time = time[i]; break
    over the rows [(time[i], ejected_count[i])]; the threshold is exact,
    halving a binary float loses nothing short of underflow. *)
Fixpoint first_reaching (threshold : Q) (rows : list (Q * Q)) : option Q :=
  match rows with
  | [] => None
  | (t, ej) :: rows' =>
      if Qle_bool threshold ej then Some t else first_reaching threshold rows'
  end.

(** The variable [half_ejection_time] after
      if max(ejected_count) > 0:
          half_ejection_time = None
          for ...                                                     *)
Definition half_ejection_time (rows : list (Q * Q)) : local (option Q) :=
  let m := py_max_list (map snd rows) in
  if Qlt_bool 0 m then Bound (first_reaching (m * (1 # 2)) rows)
  else Unbound.

(** The first row whose ejected count reaches the threshold. *)
Definition first_at (threshold : Q) (rows : list (Q * Q)) (t : Q) : Prop :=
  exists pre ej post,
    rows = pre ++ (t, ej) :: post
    /\ (threshold <= ej)%Q
    /\ forall r, In r pre -> (snd r < threshold)%Q.

Section Cells.

(** [format(x, ".1f")] *)
Variable format_1f : Q -> string.

(** The table cell
      f"{half_ejection_time:.1f}" if half_ejection_time is not None else "N/A" *)
Definition half_ejection_cell (h : local (option Q)) : result string :=
  match h with
  | Unbound => Err (UnboundLocalError "half_ejection_time")
  | Bound None => Ok "N/A"
  | Bound (Some t) => Ok (format_1f t)
  end.

End Cells.

(** The float literals 0.7 and 0.3, as the binary64 values they denote. *)
Definition lit_0_7 : Q := 3152519739159347 # 4503599627370496.
Definition lit_0_3 : Q := 5404319552844595 # 18014398509481984.

(** ['Strong' if abs(c) > 0.7 else 'Moderate' if abs(c) > 0.3 else 'Weak'] *)
Inductive strength : Type := Strong | Moderate | Weak.

Definition correlation_strength (c : Q) : strength :=
  if Qlt_bool lit_0_7 (Qabs c) then Strong
  else if Qlt_bool lit_0_3 (Qabs c) then Moderate
  else Weak.

(** ['positive' if c > 0 else 'negative'] *)
Definition correlation_is_positive (c : Q) : bool := Qlt_bool 0 c.

(** The closing sentence on temperature and ejection:
      'higher temperatures strongly correlate ...' if c > 0.7 else
      'temperature has limited direct impact ...' if abs(c) < 0.3 else
      'temperature moderately influences material ejection'          *)
Inductive influence : Type := StronglyCorrelates | LimitedImpact | ModeratelyInfluences.

Definition temperature_influence (c : Q) : influence :=
  if Qlt_bool lit_0_7 c then StronglyCorrelates
  else if Qlt_bool (Qabs c) lit_0_3 then LimitedImpact
  else ModeratelyInfluences.

End Stats.

(* ===================================================================== *)
(** ** py_phase4.py: [analyze_thermodynamics], inside its [try] *)
(* ===================================================================== *)

Module Thermo.

Import Stats.

(** "Å²" *)
Definition angstrom2 : string :=
  String (ascii_of_nat 197) (String (ascii_of_nat 178) EmptyString).

Section Body.

(** [format(x, spec)] on a float, [str(e)] on an exception,
    [open(path).readlines()], the two figures, and the returned tuple. *)
Variable format_float : string -> pyfloat -> string.
Variable exn_message : py_exn -> string.
Variable read_lines : string -> Report.M (list string).
Variable thermo_figures : pyfloat -> pyfloat -> pyfloat -> pyfloat -> Report.M unit.
Variable value : Type.
Variable tuple4 : pyfloat -> pyfloat -> pyfloat -> pyfloat -> value.

Definition raise {A : Type} (e : py_exn) : Report.M A :=
  fun env => (env, Report.Raised (exn_message e)).

Definition lift {A : Type} (r : result A) : Report.M A :=
  match r with
  | Ok a => Report.ret a
  | Err e => raise e
  end.

(** [f"{x:spec}"]: formatting None with a float format raises TypeError. *)
Definition formatted (spec : string) (x : option pyfloat) : Report.M string :=
  match x with
  | Some v => Report.ret (format_float spec v)
  | None => raise TypeError
  end.

(** Lines 264 to 318, once [os.path.exists(THERMO_FILE)] holds. *)
Definition thermo_body : Report.M value :=
  Report.bind (read_lines Report.THERMO_FILE) (fun lines =>
  Report.bind (lift (extract_energies lines)) (fun e =>
  Report.bind (Report.print "Thermodynamic results:") (fun _ =>
  Report.bind (formatted ".2f" (energy_total e)) (fun s1 =>
  Report.bind (Report.print ("  Total energy: " ++ s1 ++ " eV")%string) (fun _ =>
  Report.bind (formatted ".2f" (energy_nano e)) (fun s2 =>
  Report.bind (Report.print ("  Nanoparticle energy: " ++ s2 ++ " eV")%string) (fun _ =>
  Report.bind (formatted ".4f" (formation_energy e)) (fun s3 =>
  Report.bind (Report.print ("  Formation energy: " ++ s3 ++ " eV/atom")%string) (fun _ =>
  Report.bind (formatted ".6f" (surface_energy e)) (fun s4 =>
  Report.bind (Report.print ("  Surface energy: " ++ s4 ++ " eV/" ++ angstrom2)%string) (fun _ =>
  match energy_total e, energy_nano e, formation_energy e, surface_energy e with
  | Some t, Some n, Some f, Some s =>
      Report.bind (thermo_figures t n f s) (fun _ => Report.ret (tuple4 t n f s))
  | _, _, _, _ => raise TypeError
  end))))))))))).

(** [analyze_thermodynamics()] with that body. *)
Definition analyze_thermodynamics : Report.M (option value) :=
  Report.analyze_thermodynamics value thermo_body.

End Body.

End Thermo.

(* ===================================================================== *)
(** ** dashboard.py: the session, [require_auth], the views *)
(* ===================================================================== *)

Module Web.

(** The Flask session: the value under the key 'authenticated' when the
    key is there, and the [permanent] flag. *)
Record session : Type := mkSession {
  authenticated : option bool;
  permanent : bool
}.

Definition fresh_session : session := mkSession None false.

(** What a view returns, as far as the code decides it. *)
Inductive response (A : Type) : Type :=
| Unauthorized                          (* jsonify({"error": ...}), 401 *)
| RedirectToLogin (next : option string) (* redirect(url_for('login', next=...)) *)
| RedirectTo (url : string)             (* redirect(url) *)
| LoginPage (error : option string)     (* render_template('login.html', error=...) *)
| Page (a : A).                         (* what the wrapped view returns *)
Arguments Unauthorized {A}.
Arguments RedirectToLogin {A} next.
Arguments RedirectTo {A} url.
Arguments LoginPage {A} error.
Arguments Page {A} a.

(** ['authenticated' not in session or not session['authenticated']] *)
Definition not_authenticated (s : session) : bool :=
  match authenticated s with
  | None => true
  | Some b => negb b
  end.

(** [require_auth(f)], called at [request.path]. *)
Definition require_auth {A : Type} (f : session -> A) (path : string)
    (s : session) : response A :=
  if not_authenticated s then
    if startswith path "/api/" then Unauthorized
    else RedirectToLogin (Some path)
  else Page (f s).

Inductive http_method : Type := GET | POST.

Section Login.

(** [hashlib.sha256(s.encode()).hexdigest()], and the access key. *)
Variable sha256_hex : string -> string.
Variable ACCESS_KEY : string.

Definition KEY_HASH : string := sha256_hex ACCESS_KEY.

(** [login()]: [access_key] is [request.form.get('access_key')], [next]
    is [request.args.get('next')], each None when absent. *)
Definition login {A : Type} (m : http_method) (access_key next : option string)
    (s : session) : session * response A :=
  match m with
  | POST =>
      let input_key := match access_key with Some k => k | None => EmptyString end in
      if String.eqb (sha256_hex input_key) KEY_HASH then
        (mkSession (Some true) true,
         RedirectTo (match next with Some n => n | None => "/" end))
      else (s, LoginPage (Some "Invalid access key"))
  | GET => (s, LoginPage None)
  end.

(** [logout()]: [session.pop('authenticated', None)]. *)
Definition logout {A : Type} (s : session) : session * response A :=
  (mkSession None (permanent s), RedirectToLogin None).

End Login.

(** [os.path.join(dir, name)] for a relative [name] and a [dir] that
    does not end in "/". *)
Definition path_join (dir name : string) : string :=
  (dir ++ "/" ++ name)%string.

Definition DATA_DIR : string := "/home/rimuru/workspace/setup_sim/data".

(** [LOG_DIRS]: [phase{i}/logs] under [DATA_DIR] for i = 1..4. *)
Definition LOG_DIRS : list string :=
  map (fun i => path_join (path_join DATA_DIR ("phase" ++ str i)%string) "logs")
    [1; 2; 3; 4].

(** A file system for reading: [None] when the path does not exist, else
    what opening and reading it gives. *)
Definition files : Type := string -> option read_result.

(** What [get_log] answers. *)
Inductive log_response : Type :=
| Content (text : string)     (* jsonify({"content": ...}) *)
| ReadFailed                  (* jsonify({"error": str(e)}) *)
| NotFound.                   (* jsonify({"error": "Log file not found"}) *)

Definition serve_file (r : read_result) : log_response :=
  match r with
  | ReadOk text => Content text
  | ReadError => ReadFailed
  end.

(** The loop [for log_dir in LOG_DIRS] of [get_log]: the first directory
    that has the file answers, readable or not. *)
Fixpoint first_log (fs : files) (dirs : list string) (filename : string)
  : option log_response :=
  match dirs with
  | [] => None
  | d :: dirs' =>
      match fs (path_join d filename) with
      | Some r => Some (serve_file r)
      | None => first_log fs dirs' filename
      end
  end.

(** [get_log(filename)] *)
Definition get_log (fs : files) (filename : string) : log_response :=
  match first_log fs LOG_DIRS filename with
  | Some resp => resp
  | None =>
      if String.eqb filename "pipeline.log" then
        match fs (path_join DATA_DIR "pipeline.log") with
        | Some r => serve_file r
        | None => NotFound
        end
      else NotFound
  end.

End Web.

(* ===================================================================== *)
(** ** py_phase4.py: the composition table of the PDF report *)
(* ===================================================================== *)

Module Format.

(** Which format specifications [format(x, spec)] accepts for a float
    [x]: [[[fill]align][sign]["z"]["#"]["0"][width][grouping]["." precision][type]]
    with a float presentation type. [ValueError] otherwise. *)
Definition one_of (chars_ : string) (c : ascii) : bool :=
  existsb (Ascii.eqb c) (PyStr.chars chars_).

Definition is_align : ascii -> bool := one_of "<>=^".
Definition is_sign : ascii -> bool := one_of "+- ".

Definition drop_if (p : ascii -> bool) (s : string) : string :=
  match s with
  | String c r => if p c then r else s
  | EmptyString => s
  end.

(** The decimal digits at the front of [s]: their value, how many there
    are, and what follows. *)
Fixpoint get_integer (s : string) (acc : N) (cnt : nat) : N * nat * string :=
  match s with
  | EmptyString => (acc, cnt, s)
  | String c r =>
      match digit_of c with
      | Some d => get_integer r (10 * acc + d)%N (S cnt)
      | None => (acc, cnt, s)
      end
  end.

Definition SSIZE_MAX : N := 9223372036854775807.
Definition INT_MAX : N := 2147483647.

Definition starts_with_char (c : ascii) (s : string) : bool :=
  match s with
  | String c' _ => Ascii.eqb c' c
  | EmptyString => false
  end.

Definition float_spec_ok (spec : string) : bool :=
  (* [[fill]align] *)
  let s1 :=
    match spec with
    | String c0 (String c1 r) =>
        if is_align c1 then r else if is_align c0 then String c1 r else spec
    | String c0 EmptyString => if is_align c0 then EmptyString else spec
    | EmptyString => spec
    end in
  let s2 := drop_if is_sign s1 in
  let s3 := drop_if (Ascii.eqb "z") s2 in
  let s4 := drop_if (Ascii.eqb "#") s3 in
  let '(width, _, s5) := get_integer s4 0%N 0 in
  let comma := starts_with_char "," s5 in
  let s6 := drop_if (Ascii.eqb ",") s5 in
  let underscore := starts_with_char "_" s6 in
  let s7 := drop_if (Ascii.eqb "_") s6 in
  let comma_after := starts_with_char "," s7 in
  let '(precision, digits, s8) :=
    match s7 with
    | String c r => if Ascii.eqb c "." then get_integer r 0%N 0
                    else (0%N, 1, s7)
    | EmptyString => (0%N, 1, s7)
    end in
  let grouped := comma || underscore in
  (width <=? SSIZE_MAX)%N
  && negb (comma && underscore)
  && negb (underscore && comma_after)
  && negb (digits =? 0)%nat
  && (precision <=? INT_MAX)%N
  && match s8 with
     | EmptyString => true
     | String t EmptyString =>
         if grouped then one_of "eEfFgG%" t else one_of "eEfFgGn%" t
     | String _ (String _ _) => false
     end.

End Format.

Module PdfReport.

Import Stats.

(** The float literal 0.05, as the binary64 value it denotes. *)
Definition lit_0_05 : Q := 3602879701896397 # 72057594037927936.

Definition rbind {A B : Type} (r : result A) (k : A -> result B) : result B :=
  match r with
  | Ok a => k a
  | Err e => Err e
  end.

Notation "x <~ r ;; k" := (rbind r (fun x => k))
  (at level 61, r at next level, right associativity).

Section Tables.

(** [format(x, spec)] for a specification floats accept. *)
Variable render : string -> Q -> string.

(** [f"{x:spec}"] *)
Definition py_format (spec : string) (x : Q) : result string :=
  if Format.float_spec_ok spec then Ok (render spec x)
  else Err (ValueError spec).

(** The statistics of the size section, as computed before the table. *)
Record size_stats : Type := mkSizeStats {
  n : nat;
  mean_size : Q; ci_low : Q; ci_high : Q; median_size : Q;
  std_dev : Q; variance : Q; min_size : Q; max_size : Q;
  iqr_val : Q; skewness : Q; kurt : Q; q1 : Q; q3 : Q
}.

(** The list [data] of lines 552 to 566, built cell by cell in order. *)
Definition size_table (s : size_stats) : result (list (list string)) :=
  c_mean <~ py_format ".2f" (mean_size s) ;;
  c_lo <~ py_format ".2f" (ci_low s) ;;
  c_hi <~ py_format ".2f" (ci_high s) ;;
  c_median <~ py_format ".2f" (median_size s) ;;
  c_std <~ py_format ".2f" (std_dev s) ;;
  c_var <~ py_format ".2f" (variance s) ;;
  c_min <~ py_format ".0f" (min_size s) ;;
  c_max <~ py_format ".0f" (max_size s) ;;
  c_iqr <~ py_format ".2f" (iqr_val s) ;;
  c_skew <~ py_format ".3f" (skewness s) ;;
  c_kurt <~ py_format ".3f" (kurt s) ;;
  c_q1 <~ py_format ".2f" (q1 s) ;;
  c_q3 <~ py_format ".2f" (q3 s) ;;
  Ok [ ["Metric"; "Value"];
       ["Count"; str (n s)];
       ["Mean Size"; (c_mean ++ " atoms")%string];
       ["95% CI for Mean"; ("(" ++ c_lo ++ ", " ++ c_hi ++ ")")%string];
       ["Median Size"; (c_median ++ " atoms")%string];
       ["Standard Deviation"; c_std];
       ["Variance"; c_var];
       ["Range"; (c_min ++ " - " ++ c_max ++ " atoms")%string];
       ["Interquartile Range"; c_iqr];
       ["Skewness";
        (c_skew ++ " ("
         ++ (if Qlt_bool 0 (skewness s) then "right-skewed" else "left-skewed")
         ++ ")")%string];
       ["Kurtosis";
        (c_kurt ++ " ("
         ++ (if Qlt_bool 0 (kurt s) then "heavy-tailed" else "light-tailed")
         ++ ")")%string];
       ["Q1 (25th percentile)"; c_q1];
       ["Q3 (75th percentile)"; c_q3] ].

(** The statistics of the composition section. *)
Record composition_stats : Type := mkCompStats {
  mean_ratio : Q; median_ratio : Q; std_ratio : Q;
  ratio_ci_low : Q; ratio_ci_high : Q;
  skewness_ratio : Q; p_value : Q;
  mean_ni_fraction : Q; mean_ti_fraction : Q
}.

(** The list [comp_data] of lines 643 to 653, built cell by cell in
    order; the last row formats with the specification ":.3f". *)
Definition comp_data (s : composition_stats) : result (list (list string)) :=
  c_mean <~ py_format ".3f" (mean_ratio s) ;;
  c_median <~ py_format ".3f" (median_ratio s) ;;
  c_std <~ py_format ".3f" (std_ratio s) ;;
  c_lo <~ py_format ".3f" (ratio_ci_low s) ;;
  c_hi <~ py_format ".3f" (ratio_ci_high s) ;;
  c_skew <~ py_format ".3f" (skewness_ratio s) ;;
  c_p <~ py_format ".4f" (p_value s) ;;
  c_ni <~ py_format ".3f" (mean_ni_fraction s) ;;
  c_ti <~ py_format ":.3f" (mean_ti_fraction s) ;;
  Ok [ ["Metric"; "Value"; "Interpretation"];
       ["Mean Ni:Ti Ratio"; c_mean; "Ideal ratio is 1.0"];
       ["Median Ni:Ti Ratio"; c_median; ""];
       ["Std Dev of Ratio"; c_std; ""];
       ["95% CI for Ratio"; ("(" ++ c_lo ++ ", " ++ c_hi ++ ")")%string; ""];
       ["Skewness"; c_skew;
        ((if Qlt_bool 0 (skewness_ratio s) then "Right" else "Left")
         ++ "-skewed")%string];
       ["Test vs. 1:1 Ratio"; ("p-value: " ++ c_p)%string;
        ((if Qlt_bool (p_value s) lit_0_05 then "Significantly different"
          else "Not significantly different") ++ " from 1:1")%string];
       ["Mean Ni Fraction"; c_ni; ""];
       ["Mean Ti Fraction"; c_ti; ""] ].

End Tables.

End PdfReport.
(* ===================================================================== *)
(** ** Lexical facts about the string builtins *)
(* ===================================================================== *)

Section Lexical.

Lemma prefix_head c p s : String.prefix (String c p) s = true -> In c (chars s).
Proof.
  destruct s as [|c' s']; simpl; [discriminate|].
  destruct (ascii_dec c c') as [->|]; [now left | discriminate].
Qed.

Lemma contains_head c p s : contains (String c p) s = true -> In c (chars s).
Proof.
  induction s as [|c' s' IH].
  - simpl. discriminate.
  - intros H. cbn [contains] in H. apply orb_true_iff in H as [H|H].
    + now apply prefix_head in H.
    + right. now apply IH.
Qed.

Lemma startswith_head c p s : startswith s (String c p) = true -> In c (chars s).
Proof. apply prefix_head. Qed.

(** Every non-blank character of a string lies in one of its tokens. *)
Lemma split_covers s c :
  In c (chars s) -> is_space c = false ->
  exists t, In t (split s) /\ In c (chars t).
Proof.
  induction s as [|a s' IH]; intros Hin Hc; [destruct Hin|].
  cbn [split]. destruct Hin as [->|Hin].
  - rewrite Hc. destruct s' as [|a' s''].
    + eexists; split; [left; reflexivity | now left].
    + destruct (is_space a').
      * eexists; split; [left; reflexivity | now left].
      * destruct (split (String a' s'')); eexists; (split; [left; reflexivity | now left]).
  - specialize (IH Hin Hc) as (t & Ht & Hct).
    destruct (is_space a); [now exists t|].
    destruct s' as [|a' s'']; [destruct Hin|].
    destruct (is_space a').
    + exists t; split; [now right | assumption].
    + destruct (split (String a' s'')) as [|t0 ts]; [destruct Ht|].
      destruct Ht as [<-|Ht].
      * eexists; split; [left; reflexivity | now right].
      * exists t; split; [now right | assumption].
Qed.

Lemma lstrip_by_chars sp s c :
  In c (chars s) -> sp c = true \/ In c (chars (lstrip_by sp s)).
Proof.
  induction s as [|a s' IH]; intros Hin; [destruct Hin|].
  cbn [lstrip_by]. destruct (sp a) eqn:Ha.
  - destruct Hin as [<-|Hin]; [now left | now apply IH].
  - now right.
Qed.

Lemma rstrip_by_chars sp s c :
  In c (chars s) -> sp c = true \/ In c (chars (rstrip_by sp s)).
Proof.
  induction s as [|a s' IH]; intros Hin; [destruct Hin|].
  cbn [rstrip_by]. destruct Hin as [->|Hin].
  - destruct (rstrip_by sp s'); [destruct (sp c) eqn:Hc|]; auto; right; now left.
  - destruct (IH Hin) as [H|H]; [now left|].
    destruct (rstrip_by sp s'); [destruct H|]. right; now right.
Qed.

Lemma strip_by_chars sp s c :
  In c (chars s) -> sp c = true \/ In c (chars (strip_by sp s)).
Proof.
  intros H. unfold strip_by.
  destruct (lstrip_by_chars sp _ _ H) as [|H']; [now left|].
  now apply rstrip_by_chars.
Qed.

End Lexical.

(* ===================================================================== *)
(** ** The alphabet of float literals *)
(* ===================================================================== *)

Section FloatAlphabet.

Lemma all_float_chars_nil : all_float_chars EmptyString.
Proof. intros c []. Qed.

Lemma all_float_chars_cons c s :
  float_char c = true -> all_float_chars s -> all_float_chars (String c s).
Proof. intros Hc Hs x [<-|Hx]; auto. Qed.

Lemma all_float_chars_tail c s : all_float_chars (String c s) -> all_float_chars s.
Proof. intros H x Hx. apply H. now right. Qed.

Lemma float_space_is_space c : is_float_space c = true -> is_space c = true.
Proof.
  destruct c as [[] [] [] [] [] [] [] []]; cbn; intros H;
    first [reflexivity | discriminate H].
Qed.

Lemma digit_float_char c d : digit_of c = Some d -> float_char c = true.
Proof.
  intros H. unfold float_char. rewrite H.
  now rewrite orb_true_r.
Qed.

Lemma punct_float_char c :
  In c (chars "+-._") -> float_char c = true.
Proof.
  intros H. unfold float_char.
  assert (E : existsb (Ascii.eqb c) (chars "+-._") = true).
  { apply existsb_exists. exists c. split; [assumption | apply Ascii.eqb_refl]. }
  rewrite E. now rewrite orb_true_r.
Qed.

Lemma letter_float_char c :
  In (lower c) (chars "einftya") -> float_char c = true.
Proof.
  intros H. unfold float_char.
  assert (E : existsb (Ascii.eqb (lower c)) (chars "einftya") = true).
  { apply existsb_exists. exists (lower c). split; [assumption | apply Ascii.eqb_refl]. }
  rewrite E. now rewrite orb_true_r.
Qed.

Lemma more_digits_chars s :
  (forall acc cnt m k rest,
      more_digits s acc cnt = (m, k, rest) ->
      all_float_chars rest -> all_float_chars s)
  /\ (forall c acc cnt m k rest,
      more_digits (String c s) acc cnt = (m, k, rest) ->
      all_float_chars rest -> all_float_chars (String c s)).
Proof.
  induction s as [|a s' [IH1 IH2]].
  - split.
    + intros * H. cbn in H. now inversion H.
    + intros * H. cbn in H.
      destruct (digit_of c) eqn:Hd.
      * inversion H; subst. intros _.
        apply all_float_chars_cons; [eapply digit_float_char; eauto | apply all_float_chars_nil].
      * destruct (Ascii.eqb c "_"); now inversion H.
  - split; [exact (IH2 a)|].
    intros * H Hrest. cbn [more_digits] in H.
    destruct (digit_of c) eqn:Hd.
    + apply all_float_chars_cons; [eapply digit_float_char; eauto|].
      eapply IH2; eauto.
    + destruct (Ascii.eqb c "_") eqn:Hu; [|now inversion H; subst].
      destruct (digit_of a) eqn:Ha; [|now inversion H; subst].
      apply Ascii.eqb_eq in Hu. subst c.
      apply all_float_chars_cons; [apply punct_float_char; cbn; tauto|].
      apply all_float_chars_cons; [eapply digit_float_char; eauto|].
      eapply IH1; eauto.
Qed.

Lemma digitpart_chars s acc cnt m k rest :
  digitpart s acc cnt = Some (m, k, rest) ->
  all_float_chars rest -> all_float_chars s.
Proof.
  destruct s as [|c s']; cbn; [discriminate|].
  destruct (digit_of c) eqn:Hd; [|discriminate].
  intros H Hrest. inversion H as [H'].
  apply all_float_chars_cons; [eapply digit_float_char; eauto|].
  eapply (proj1 (more_digits_chars s')); eauto.
Qed.

Lemma sign_chars s neg r :
  sign s = (neg, r) -> all_float_chars r -> all_float_chars s.
Proof.
  destruct s as [|c s']; cbn; [now inversion 1|].
  destruct (Ascii.eqb c "+") eqn:Hp.
  - apply Ascii.eqb_eq in Hp. subst c. inversion 1; subst. intros Hr.
    apply all_float_chars_cons; [apply punct_float_char; cbn; tauto | assumption].
  - destruct (Ascii.eqb c "-") eqn:Hm.
    + apply Ascii.eqb_eq in Hm. subst c. inversion 1; subst. intros Hr.
      apply all_float_chars_cons; [apply punct_float_char; cbn; tauto | assumption].
    + now inversion 1; subst.
Qed.

Lemma number_chars s m k rest :
  number s = Some (m, k, rest) ->
  all_float_chars rest -> all_float_chars s.
Proof.
  unfold number. destruct (digitpart s 0%N 0%Z) as [[[i k0] r0]|] eqn:Hd.
  - intros H Hrest. eapply digitpart_chars; [exact Hd|].
    destruct r0 as [|c r1]; [now inversion H; subst|].
    destruct (Ascii.eqb c ".") eqn:Hdot; [|now inversion H; subst].
    apply Ascii.eqb_eq in Hdot. subst c.
    apply all_float_chars_cons; [apply punct_float_char; cbn; tauto|].
    destruct (digitpart r1 i 0%Z) as [[[m' k'] r']|] eqn:Hf.
    + inversion H; subst. eapply digitpart_chars; eauto.
    + now inversion H; subst.
  - destruct s as [|c r1]; [discriminate|].
    destruct (Ascii.eqb c ".") eqn:Hdot; [|discriminate].
    apply Ascii.eqb_eq in Hdot. subst c.
    intros H Hrest.
    apply all_float_chars_cons; [apply punct_float_char; cbn; tauto|].
    eapply digitpart_chars; eauto.
Qed.

Lemma exponent_chars s e : exponent s = Some e -> all_float_chars s.
Proof.
  destruct s as [|c r]; cbn; [intros _; apply all_float_chars_nil|].
  destruct (Ascii.eqb c "e" || Ascii.eqb c "E") eqn:He; [|discriminate].
  destruct (sign r) as [neg r'] eqn:Hs.
  destruct (digitpart r' 0%N 0%Z) as [[[m k] rest]|] eqn:Hd; [|discriminate].
  destruct rest; [|discriminate]. intros _.
  apply all_float_chars_cons.
  - apply letter_float_char.
    apply orb_true_iff in He as [He|He]; apply Ascii.eqb_eq in He; subst c; cbn; tauto.
  - eapply sign_chars; [exact Hs|].
    eapply digitpart_chars; [exact Hd | apply all_float_chars_nil].
Qed.

Lemma lower_str_chars s c :
  In c (chars s) -> In (lower c) (chars (lower_str s)).
Proof.
  induction s as [|a s' IH]; intros []; subst; cbn; auto.
Qed.

Lemma word_chars body w :
  lower_str body = w ->
  (forall x, In x (chars w) -> In x (chars "einftya")) ->
  all_float_chars body.
Proof.
  intros E Hw c Hc. apply letter_float_char, Hw.
  rewrite <- E. now apply lower_str_chars.
Qed.

Lemma float_chars s v : float s = Some v -> all_float_chars s.
Proof.
  unfold float. destruct (sign (strip_by is_float_space s)) as [neg body] eqn:Hs.
  intros H.
  assert (Hb : all_float_chars body).
  { destruct (String.eqb (lower_str body) "inf") eqn:E1.
    { apply String.eqb_eq in E1. eapply word_chars; [exact E1|].
      cbn; intros x Hx; intuition. }
    destruct (String.eqb (lower_str body) "infinity") eqn:E2.
    { apply String.eqb_eq in E2. eapply word_chars; [exact E2|].
      cbn; intros x Hx; intuition. }
    destruct (String.eqb (lower_str body) "nan") eqn:E3.
    { apply String.eqb_eq in E3. eapply word_chars; [exact E3|].
      cbn; intros x Hx; intuition. }
    cbn [orb] in H.
    destruct (number body) as [[[m k] rest]|] eqn:Hn; [|discriminate].
    destruct (exponent rest) as [e|] eqn:He; [|discriminate].
    eapply number_chars; [exact Hn|]. eapply exponent_chars; eauto. }
  assert (Hst : all_float_chars (strip_by is_float_space s))
    by (eapply sign_chars; eauto).
  intros c Hc. destruct (strip_by_chars is_float_space _ _ Hc) as [Hsp|Hin].
  - unfold float_char. now rewrite (float_space_is_space _ Hsp).
  - now apply Hst.
Qed.

End FloatAlphabet.

(* ===================================================================== *)
(** ** [parse_lammps_log]: numeric rows *)
(* ===================================================================== *)

Section NumericRows.

Lemma floats_length ts vs : floats ts = Some vs -> List.length vs = List.length ts.
Proof.
  revert vs. induction ts as [|t ts IH]; cbn; intros vs H.
  - now inversion H.
  - destruct (float t); [|discriminate].
    destruct (floats ts) as [vs'|]; [|discriminate].
    inversion H; subst. cbn. f_equal. now apply IH.
Qed.

Lemma floats_chars ts vs :
  floats ts = Some vs -> forall t, In t ts -> all_float_chars t.
Proof.
  revert vs. induction ts as [|t0 ts IH]; cbn; intros vs H t Ht; [destruct Ht|].
  destruct (float t0) as [v|] eqn:Hf; [|discriminate].
  destruct (floats ts) as [vs'|]; [|discriminate].
  destruct Ht as [<-|Ht]; [eapply float_chars; eauto | eapply IH; eauto].
Qed.

(** A line whose tokens all convert holds only blanks and float characters. *)
Lemma row_chars line vs :
  row_values line = Some vs -> all_float_chars line.
Proof.
  intros H c Hc. destruct (is_space c) eqn:Hsp.
  - unfold float_char. now rewrite Hsp.
  - destruct (split_covers _ _ Hc Hsp) as (t & Ht & Hct).
    eapply floats_chars; eauto.
Qed.

Lemma numeric_not_header line vs :
  row_values line = Some vs -> is_header line = false.
Proof.
  intros H. unfold is_header.
  destruct (contains "Step" line) eqn:E; [|reflexivity].
  apply contains_head in E. apply (row_chars _ _ H) in E. discriminate E.
Qed.

Lemma numeric_not_loop line vs :
  row_values line = Some vs -> startswith line "Loop" = false.
Proof.
  intros H. destruct (startswith line "Loop") eqn:E; [|reflexivity].
  apply startswith_head in E. apply (row_chars _ _ H) in E. discriminate E.
Qed.

Lemma numeric_not_comment line vs :
  row_values line = Some vs -> startswith line "#" = false.
Proof.
  intros H. destruct (startswith line "#") eqn:E; [|reflexivity].
  apply startswith_head in E. apply (row_chars _ _ H) in E. discriminate E.
Qed.

Lemma header_has_tokens line : is_header line = true -> split line <> [].
Proof.
  unfold is_header. intros H. apply andb_true_iff in H as [H _].
  apply contains_head in H.
  destruct (split_covers line "S"%char H eq_refl) as (t & Ht & _).
  intros E. rewrite E in Ht. destruct Ht.
Qed.

(** The first token of a string that starts with a non-blank character
    is a prefix of it. *)
Lemma first_token_prefix s : forall c s' t ts,
  s = String c s' -> is_space c = false -> split s = t :: ts ->
  String.prefix t s = true.
Proof.
  induction s as [|a s0 IH]; intros c s' t ts E Hc Hs; [discriminate E|].
  inversion E; subst a s0. cbn [split] in Hs. rewrite Hc in Hs.
  destruct s' as [|c' s''].
  - inversion Hs; subst. cbn. now destruct (ascii_dec c c).
  - destruct (is_space c') eqn:Hc'.
    + inversion Hs; subst. cbn. now destruct (ascii_dec c c).
    + destruct (split (String c' s'')) as [|t0 ts0] eqn:Hs0.
      * inversion Hs; subst. cbn. now destruct (ascii_dec c c).
      * inversion Hs; subst. cbn [String.prefix].
        destruct (ascii_dec c c) as [_|N]; [|now elim N].
        eapply IH; eauto.
Qed.

(** A token of a string occurs in it. *)
Lemma token_contained s : forall t, In t (split s) -> contains t s = true.
Proof.
  induction s as [|c s' IH]; intros t Ht; [destruct Ht|].
  cbn [contains]. apply orb_true_iff.
  cbn [split] in Ht. destruct (is_space c) eqn:Hc; [right; now apply IH|].
  destruct (split (String c s')) as [|t1 ts1] eqn:Hs.
  - exfalso. cbn [split] in Hs. rewrite Hc in Hs.
    destruct s' as [|c' s'']; [discriminate Hs|].
    destruct (is_space c'); [discriminate Hs|].
    destruct (split (String c' s'')); discriminate Hs.
  - assert (Hfirst : String.prefix t1 (String c s') = true)
      by (eapply first_token_prefix; eauto).
    assert (Ht' : t = t1 \/ In t (split s')).
    { cbn [split] in Hs. rewrite Hc in Hs.
      destruct s' as [|c' s'']; [inversion Hs; subst; destruct Ht as [<-|[]]; now left|].
      destruct (is_space c').
      - inversion Hs; subst. destruct Ht as [<-|Ht]; [now left | now right].
      - destruct (split (String c' s'')) as [|t0 ts0].
        + inversion Hs; subst. destruct Ht as [<-|[]]. now left.
        + inversion Hs; subst. destruct Ht as [<-|Ht]; [now left|].
          right. now right. }
    destruct Ht' as [->|Ht']; [now left | right; now apply IH].
Qed.

(** A line with the tokens "Step" and "Temp" is a header line. *)
Lemma header_tokens_is_header line :
  In "Step" (split line) -> In "Temp" (split line) -> is_header line = true.
Proof.
  intros H1 H2. unfold is_header.
  now rewrite (token_contained _ _ H1), (token_contained _ _ H2).
Qed.

Lemma tokens_nonempty line : split line <> [] -> nonempty line = true.
Proof. destruct line; [intros H; now elim H | reflexivity]. Qed.

End NumericRows.

Section ParserSteps.

Lemma parse_line_header st raw :
  is_header (strip raw) = true ->
  parse_line st raw = mkParser (flush st) true (split (strip raw)) [].
Proof. intros H. unfold parse_line. now rewrite H. Qed.

Lemma parse_line_row st raw vs :
  in_data_section st = true ->
  headers st <> [] ->
  row_values (strip raw) = Some vs ->
  List.length (split (strip raw)) = List.length (headers st) ->
  parse_line st raw =
    mkParser (data_sections st) true (headers st) (current_section st ++ [vs]).
Proof.
  intros Hin Hh Hv Hl. unfold parse_line.
  rewrite (numeric_not_header _ _ Hv), Hin.
  rewrite (numeric_not_loop _ _ Hv), (numeric_not_comment _ _ Hv).
  rewrite tokens_nonempty.
  2:{ intros E. rewrite E in Hl. destruct (headers st); [now elim Hh | discriminate Hl]. }
  cbn [andb negb]. rewrite Hv.
  unfold row_values in Hv. rewrite (floats_length _ _ Hv), Hl, Nat.eqb_refl.
  reflexivity.
Qed.

(** A row that converts but has another count than the header leaves the
    loop's variables as they were. *)
Lemma parse_line_mismatch st raw vs :
  row_values (strip raw) = Some vs ->
  List.length vs <> List.length (headers st) ->
  parse_line st raw = st.
Proof.
  intros Hv Hl. unfold parse_line.
  rewrite (numeric_not_header _ _ Hv).
  destruct (in_data_section st); [|reflexivity].
  destruct (nonempty (strip raw) && negb (startswith (strip raw) "Loop")
            && negb (startswith (strip raw) "#")); [|reflexivity].
  rewrite Hv. apply Nat.eqb_neq in Hl. now rewrite Hl.
Qed.

(** A "Loop" or comment line that is no header leaves them as they were. *)
Lemma parse_line_skipped st raw :
  is_header (strip raw) = false ->
  startswith (strip raw) "Loop" || startswith (strip raw) "#" = true ->
  parse_line st raw = st.
Proof.
  intros Hh Hs. unfold parse_line. rewrite Hh.
  destruct (in_data_section st); [|reflexivity].
  apply orb_true_iff in Hs as [Hs|Hs]; rewrite Hs; cbn;
    now rewrite ?andb_false_r.
Qed.

Lemma parse_rows rows : forall st,
  in_data_section st = true ->
  headers st <> [] ->
  Forall (numeric_row (headers st)) rows ->
  exists data,
    fold_left parse_line rows st =
      mkParser (data_sections st) true (headers st) (current_section st ++ data)
    /\ Forall2 (fun raw vs => row_values (strip raw) = Some vs) rows data.
Proof.
  induction rows as [|raw rows IH]; intros st Hin Hh Hrows.
  - exists []. split; [|constructor].
    cbn. rewrite app_nil_r. destruct st; cbn in *; now subst.
  - inversion Hrows as [|? ? (vs & Hv & Hl) Hrest]; subst.
    cbn [fold_left]. rewrite (parse_line_row st raw vs Hin Hh Hv Hl).
    edestruct (IH (mkParser (data_sections st) true (headers st)
                     (current_section st ++ [vs]))) as (data & E & F);
      [reflexivity | exact Hh | exact Hrest |].
    exists (vs :: data). split; [|now constructor].
    rewrite E. cbn. now rewrite <- app_assoc.
Qed.

End ParserSteps.

Section ParserInvariant.

Lemma parser_inv_init : parser_inv parser_init.
Proof. split; constructor. Qed.

Lemma flush_ok st : parser_inv st -> Forall section_ok (flush st).
Proof.
  intros [Hs Hc]. unfold flush, has_rows.
  destruct (in_data_section st); cbn; [|assumption].
  destruct (current_section st) as [|r rs] eqn:E; [assumption|].
  apply Forall_app. split; [assumption|].
  constructor; [|constructor]. split; cbn; [discriminate | assumption].
Qed.

Lemma parse_line_inv st raw : parser_inv st -> parser_inv (parse_line st raw).
Proof.
  intros Hinv. pose proof (flush_ok st Hinv) as Hf.
  destruct Hinv as [Hs Hc]. unfold parse_line.
  destruct (is_header (strip raw)).
  { split; cbn; [assumption | constructor]. }
  destruct (in_data_section st); [|now split].
  destruct (nonempty (strip raw) && negb (startswith (strip raw) "Loop")
            && negb (startswith (strip raw) "#")); [|now split].
  destruct (row_values (strip raw)) as [vs|]; [|now split].
  destruct (List.length vs =? List.length (headers st))%nat eqn:E; [|now split].
  apply Nat.eqb_eq in E. split; cbn; [assumption|].
  apply Forall_app. split; [assumption | now repeat constructor].
Qed.

Lemma fold_parse_line_inv content : forall st,
  parser_inv st -> parser_inv (fold_left parse_line content st).
Proof.
  induction content as [|raw content IH]; intros st H; cbn; [assumption|].
  now apply IH, parse_line_inv.
Qed.

End ParserInvariant.

(** C10. Every section [parse_lammps_log] returns, whatever reading the
    log gave, has at least one row, and every row of it has as many floats
    as the section has header tokens. *)
Theorem parse_lammps_log_sections_ok (f : read_result) :
  Forall section_ok (parse_lammps_log f).
Proof.
  destruct f as [text|]; cbn; [|constructor].
  apply flush_ok, fold_parse_line_inv, parser_inv_init.
Qed.

(** C2, as amended. Inside a data section, a line whose tokens all convert
    to floats but whose token count differs from the header count is
    skipped: the loop's variables are unchanged, so the section stays open
    (the next row of the right count joins it), and nothing is raised. *)
Theorem mismatched_row_is_skipped (st : parser_state) (raw : string) (vs : row) :
  in_data_section st = true ->
  row_values (strip raw) = Some vs ->
  List.length vs <> List.length (headers st) ->
  parse_line st raw = st
  /\ in_data_section (parse_line st raw) = true
  /\ forall rest, fold_left parse_line (raw :: rest) st = fold_left parse_line rest st.
Proof.
  intros Hin Hv Hl.
  pose proof (parse_line_mismatch st raw vs Hv Hl) as E.
  repeat split.
  - exact E.
  - now rewrite E.
  - intros rest. cbn. now rewrite E.
Qed.

Lemma mismatched_row_is_skipped_witness :
  parse_line after_one_row (line "1 2 3") = after_one_row
  /\ in_data_section (parse_line after_one_row (line "1 2 3")) = true
  /\ forall rest,
       fold_left parse_line ((line "1 2 3") :: rest) after_one_row
       = fold_left parse_line rest after_one_row.
Proof.
  apply (mismatched_row_is_skipped after_one_row (line "1 2 3")
           [Finite false 1 0; Finite false 2 0; Finite false 3 0]).
  - reflexivity.
  - reflexivity.
  - vm_compute. lia.
Defined.

(** C2 as stated fails: after a header and one row, the three-token row
    "1 2 3" under the two-token header leaves the section open. *)
Lemma mismatched_row_does_not_end_section :
  ~ (forall (st : parser_state) (raw : string) (vs : row),
        in_data_section st = true ->
        row_values (strip raw) = Some vs ->
        List.length vs <> List.length (headers st) ->
        in_data_section (parse_line st raw) = false).
Proof.
  intros H.
  specialize (H after_one_row (line "1 2 3")
                [Finite false 1 0; Finite false 2 0; Finite false 3 0]
                eq_refl eq_refl).
  assert (E : in_data_section (parse_line after_one_row (line "1 2 3")) = true)
    by reflexivity.
  rewrite H in E; [discriminate E | vm_compute; lia].
Qed.

(** The same on a whole log: the row after the mismatched one joins the
    section the mismatched row was read in. *)
Example mismatched_row_log :
  parse_lammps_log
    (ReadOk (text_of_lines ["Step Temp"; "1 2"; "1 2 3"; "3 4"]))
  = [(["Step"; "Temp"],
      [[Finite false 1 0; Finite false 2 0];
       [Finite false 3 0; Finite false 4 0]])].
Proof. reflexivity. Qed.

(** C3, as amended. A line that starts with "Loop" or "#" and is not
    itself a header line is skipped: the loop's variables are unchanged,
    the section stays open, and the lines after it are read as if it were
    not there. *)
Theorem loop_or_comment_line_is_skipped (st : parser_state) (raw : string) :
  in_data_section st = true ->
  is_header (strip raw) = false ->
  startswith (strip raw) "Loop" || startswith (strip raw) "#" = true ->
  parse_line st raw = st
  /\ in_data_section (parse_line st raw) = true
  /\ forall rest, fold_left parse_line (raw :: rest) st = fold_left parse_line rest st.
Proof.
  intros Hin Hh Hs.
  pose proof (parse_line_skipped st raw Hh Hs) as E.
  repeat split.
  - exact E.
  - now rewrite E.
  - intros rest. cbn. now rewrite E.
Qed.

Lemma loop_or_comment_line_is_skipped_witness :
  parse_line after_one_row (line "Loop time of 3.5 on 4 procs") = after_one_row
  /\ in_data_section
       (parse_line after_one_row (line "Loop time of 3.5 on 4 procs")) = true
  /\ forall rest,
       fold_left parse_line
         ((line "Loop time of 3.5 on 4 procs") :: rest) after_one_row
       = fold_left parse_line rest after_one_row.
Proof.
  apply (loop_or_comment_line_is_skipped after_one_row
           (line "Loop time of 3.5 on 4 procs")); reflexivity.
Defined.

(** C3 as stated fails: after a header and one row, the comment line
    "# note" leaves the section open. *)
Lemma comment_line_does_not_end_section :
  ~ (forall (st : parser_state) (raw : string),
        in_data_section st = true ->
        startswith (strip raw) "Loop" || startswith (strip raw) "#" = true ->
        in_data_section (parse_line st raw) = false).
Proof.
  intros H.
  specialize (H after_one_row (line "# note") eq_refl eq_refl).
  discriminate H.
Qed.

(** The same on a whole log: the rows after the comment line and after
    the "Loop" line join the section that was open before them. *)
Example comment_and_loop_log :
  parse_lammps_log
    (ReadOk (text_of_lines ["Step Temp"; "1 2"; "# note"; "3 4"; "Loop time of 3.5 on 4 procs"; "5 6"]))
  = [(["Step"; "Temp"],
      [[Finite false 1 0; Finite false 2 0];
       [Finite false 3 0; Finite false 4 0];
       [Finite false 5 0; Finite false 6 0]])].
Proof. reflexivity. Qed.

(** A row that does not convert closes the section, and a section closed
    that way is never returned. *)
Example unconvertible_row_log :
  parse_lammps_log
    (ReadOk (text_of_lines ["Step Temp"; "1 2"; "Loop time of 3.5"; "Performance: 12 ns/day"; "5 6"]))
  = [].
Proof. reflexivity. Qed.

(** C5, as amended. A log of one header line followed by N >= 1 numeric
    rows of the header's arity gives exactly one section: the header's
    tokens and the N rows, in order. *)
Theorem well_formed_log_one_section (text h : string) (rows : list string) :
  readlines text = h :: rows ->
  is_header (strip h) = true ->
  Forall (numeric_row (split (strip h))) rows ->
  rows <> [] ->
  exists data,
    parse_lammps_log (ReadOk text) = [(split (strip h), data)]
    /\ List.length data = List.length rows
    /\ Forall2 (fun raw vs => row_values (strip raw) = Some vs) rows data.
Proof.
  intros Hlines Hh Hrows Hne.
  cbn [parse_lammps_log]. rewrite Hlines. unfold parse_lines. cbn [fold_left].
  rewrite (parse_line_header _ _ Hh).
  edestruct (parse_rows rows (mkParser (flush parser_init) true (split (strip h)) []))
    as (data & E & F); [reflexivity | now apply header_has_tokens | exact Hrows |].
  exists data. rewrite E. cbn.
  pose proof (Forall2_length F) as L.
  repeat split; [|now symmetry|assumption].
  unfold flush, has_rows. cbn.
  destruct data; [|reflexivity].
  destruct rows; [now elim Hne | discriminate L].
Qed.

Lemma well_formed_log_one_section_witness :
  exists data,
    parse_lammps_log
      (ReadOk (text_of_lines ["Step Temp Press"; "0 300.5 1e-3"; "10 301 -2.5"]))
    = [(split (strip (line "Step Temp Press")), data)]
    /\ List.length data = List.length [line "0 300.5 1e-3"; line "10 301 -2.5"]
    /\ Forall2 (fun raw vs => row_values (strip raw) = Some vs)
         [line "0 300.5 1e-3"; line "10 301 -2.5"] data.
Proof.
  apply (well_formed_log_one_section
           (text_of_lines ["Step Temp Press"; "0 300.5 1e-3"; "10 301 -2.5"])
           (line "Step Temp Press")
           [line "0 300.5 1e-3"; line "10 301 -2.5"]).
  - reflexivity.
  - reflexivity.
  - repeat constructor; eexists; split; reflexivity.
  - discriminate.
Defined.

(** C5 as stated fails at N = 0: a log that is one header line and no
    row gives no section at all, not one section of no rows. *)
Lemma header_only_log_has_no_section :
  ~ (forall (text h : string) (rows : list string),
        readlines text = h :: rows ->
        is_header (strip h) = true ->
        Forall (numeric_row (split (strip h))) rows ->
        exists hs data,
          parse_lammps_log (ReadOk text) = [(hs, data)]
          /\ List.length data = List.length rows).
Proof.
  intros H.
  destruct (H (line "Step Temp") (line "Step Temp") [] eq_refl eq_refl (Forall_nil _))
    as (hs & data & E & _).
  discriminate E.
Qed.

(* ===================================================================== *)
(** ** [get_simulation_status]: one phase *)
(* ===================================================================== *)

Section OnePhase.

Variable active : list string.
Variable i : nat.
Variable w : world.

Lemma phase_complete_flag d :
  dir_exists d = true -> logs_exists d = true -> logs_glob d <> [] ->
  complete_exists d = true ->
  status (phase_report active i d w) = Complete
  /\ progress (phase_report active i d w) = 100%Q.
Proof.
  intros Hd Hl Hg Hc. unfold phase_report, process_phase.
  rewrite Hd, Hl. destruct (logs_glob d); [now elim Hg|].
  rewrite Hc. now split.
Qed.

(** The five ways an iteration can end. *)
Lemma phase_report_cases d :
  let info := phase_report active i d w in
  (status info = NotStarted /\ progress info = 0%Q)
  \/ (status info = Complete /\ progress info = 100%Q)
  \/ (status info = Unknown /\ progress info = 0%Q)
  \/ exists content,
       status info = running_or_paused i active
       /\ progress info = estimate_progress content.
Proof.
  unfold phase_report, process_phase.
  destruct (dir_exists d); [|now left].
  destruct (logs_exists d); [|now left].
  destruct (logs_glob d) as [|f0 fs]; [now left|].
  destruct (complete_exists d); [right; now left|].
  destruct (match existing_plots _ w with [] => _ | _ :: _ => _ end) as [w' plots'].
  destruct (log_read (max_by_mtime f0 fs)) as [content|]; cbn.
  - destruct (contains "Loop time" content); cbn.
    + right; now left.
    + right; right; right. now exists content.
  - right; right; now left.
Qed.

Lemma phase_running_or_paused d f0 fs content :
  dir_exists d = true -> logs_exists d = true -> logs_glob d = f0 :: fs ->
  complete_exists d = false ->
  log_read (max_by_mtime f0 fs) = ReadOk content ->
  contains "Loop time" content = false ->
  status (phase_report active i d w) = running_or_paused i active
  /\ phase (phase_report active i d w) = i.
Proof.
  intros Hd Hl Hg Hc Hr Hm. unfold phase_report, process_phase.
  rewrite Hd, Hl, Hg, Hc, Hr, Hm.
  destruct (match existing_plots _ w with [] => _ | _ :: _ => _ end) as [w' plots'].
  now split.
Qed.

End OnePhase.

Section Clamp.

Lemma py_max_lower a b : (a <= py_max a b)%Q.
Proof.
  unfold py_max. destruct (Qle_bool b a) eqn:E.
  - apply Qle_refl.
  - apply Qlt_le_weak, Qnot_le_lt. intros H.
    apply Qle_bool_iff in H. congruence.
Qed.

Lemma py_min_upper a b : (py_min a b <= a)%Q.
Proof.
  unfold py_min. destruct (Qle_bool a b) eqn:E.
  - apply Qle_refl.
  - apply Qlt_le_weak, Qnot_le_lt. intros H.
    apply Qle_bool_iff in H. congruence.
Qed.

Lemma py_min_lower a b c : (c <= a)%Q -> (c <= b)%Q -> (c <= py_min a b)%Q.
Proof. unfold py_min. now destruct (Qle_bool a b). Qed.

Lemma estimate_progress_bounds content :
  (10 <= estimate_progress content)%Q /\ (estimate_progress content <= 95)%Q.
Proof.
  unfold estimate_progress. split.
  - apply py_min_lower; [discriminate | apply py_max_lower].
  - apply py_min_upper.
Qed.

End Clamp.

Section RunningOrPaused.

Lemma mem_In x l : mem x l = true <-> In x l.
Proof.
  unfold mem. rewrite existsb_exists. split.
  - intros (y & Hy & E). apply String.eqb_eq in E. now subst.
  - intros H. exists x. split; [assumption | apply String.eqb_refl].
Qed.

Lemma running_iff i active :
  running_or_paused i active = Running <-> In (str i) active.
Proof.
  unfold running_or_paused. rewrite <- mem_In.
  destruct (mem (str i) active); split; congruence.
Qed.

Lemma paused_iff i active :
  running_or_paused i active = Paused <-> ~ In (str i) active.
Proof.
  unfold running_or_paused. rewrite <- mem_In.
  destruct (mem (str i) active); split; congruence.
Qed.

End RunningOrPaused.

(* ===================================================================== *)
(** ** [get_simulation_status]: the loop over the phases *)
(* ===================================================================== *)

Section AllPhases.

Lemma process_phases_nth active dirs : forall i w k d,
  nth_error dirs k = Some d ->
  exists wk,
    nth_error (snd (fst (process_phases active i dirs w))) k
    = Some (phase_report active (i + k) d wk).
Proof.
  induction dirs as [|d0 dirs IH]; intros i w k d Hk.
  - destruct k; discriminate Hk.
  - cbn [process_phases].
    destruct (process_phase active i d0 w) as [[w1 info] c] eqn:E1.
    destruct (process_phases active (S i) dirs w1) as [[w2 infos] cs] eqn:E2.
    destruct k as [|k]; cbn in Hk |- *.
    + inversion Hk; subst. exists w. unfold phase_report.
      now rewrite Nat.add_0_r, E1.
    + destruct (IH (S i) w1 k d Hk) as (wk & Hwk).
      exists wk. rewrite E2 in Hwk. cbn in Hwk.
      now rewrite Nat.add_succ_r.
Qed.

Lemma process_phases_In active dirs : forall i w info,
  In info (snd (fst (process_phases active i dirs w))) ->
  exists j d wj, In d dirs /\ info = phase_report active j d wj.
Proof.
  induction dirs as [|d0 dirs IH]; intros i w info Hin.
  - destruct Hin.
  - cbn [process_phases] in Hin.
    destruct (process_phase active i d0 w) as [[w1 info1] c] eqn:E1.
    destruct (process_phases active (S i) dirs w1) as [[w2 infos] cs] eqn:E2.
    cbn in Hin. destruct Hin as [<-|Hin].
    + exists i, d0, w. split; [now left|]. unfold phase_report. now rewrite E1.
    + specialize (IH (S i) w1 info). rewrite E2 in IH.
      destruct (IH Hin) as (j & d & wj & Hd & E).
      exists j, d, wj. split; [now right | assumption].
Qed.

Lemma polled_phases_eq pipeline lmp dirs w :
  polled_phases pipeline lmp dirs w
  = snd (fst (process_phases (active_lammps_of lmp) 1 dirs w)).
Proof.
  unfold polled_phases, get_simulation_status.
  destruct (process_phases (active_lammps_of lmp) 1 dirs w) as [[w' infos] c].
  reflexivity.
Qed.

Lemma polled_calls_eq pipeline lmp dirs w :
  polled_calls pipeline lmp dirs w
  = plot_calls (fst (fst (process_phases (active_lammps_of lmp) 1 dirs w))).
Proof.
  unfold polled_calls, get_simulation_status.
  destruct (process_phases (active_lammps_of lmp) 1 dirs w) as [[w' infos] c].
  reflexivity.
Qed.

End AllPhases.

(* ===================================================================== *)
(** ** [get_simulation_status]: the claims *)
(* ===================================================================== *)

Lemma phase_report_phase active i d w : phase (phase_report active i d w) = i.
Proof.
  unfold phase_report, process_phase.
  destruct (dir_exists d); [|reflexivity].
  destruct (logs_exists d); [|reflexivity].
  destruct (logs_glob d) as [|f0 fs]; [reflexivity|].
  destruct (complete_exists d); [reflexivity|].
  destruct (match existing_plots _ w with [] => _ | _ :: _ => _ end) as [w' plots'].
  destruct (log_read (max_by_mtime f0 fs)) as [content|]; [|reflexivity].
  now destruct (contains "Loop time" content).
Qed.

(** C1, as amended. A phase directory that has a logs directory with at
    least one "*.log" file and holds the COMPLETE file is reported as
    Complete with progress 100, whatever its logs hold. *)
Theorem complete_flag_gives_complete
    (pipeline lmp : run_result) (dirs : list phase_dir) (w : world)
    (k : nat) (d : phase_dir) :
  nth_error dirs k = Some d ->
  dir_exists d = true ->
  logs_exists d = true ->
  logs_glob d <> [] ->
  complete_exists d = true ->
  exists info,
    nth_error (polled_phases pipeline lmp dirs w) k = Some info
    /\ phase info = S k
    /\ status info = Complete
    /\ progress info = 100%Q.
Proof.
  intros Hk Hd Hl Hg Hc. rewrite polled_phases_eq.
  destruct (process_phases_nth (active_lammps_of lmp) dirs 1 w k d Hk) as (wk & E).
  eexists; split; [exact E|].
  split; [apply phase_report_phase|].
  now apply phase_complete_flag.
Qed.

Lemma complete_flag_gives_complete_witness :
  exists info,
    nth_error
      (polled_phases RunError pgrep_1_4711
         [flag_with_log; no_dir; no_dir; no_dir] empty_world) 0
    = Some info
    /\ phase info = 1
    /\ status info = Complete
    /\ progress info = 100%Q.
Proof.
  apply (complete_flag_gives_complete RunError pgrep_1_4711
           [flag_with_log; no_dir; no_dir; no_dir] empty_world 0 flag_with_log);
    try reflexivity.
  discriminate.
Defined.

(** C1 as stated fails: a phase directory that holds the COMPLETE file
    and a logs directory without any "*.log" file is reported as
    Not Started with progress 0. *)
Lemma complete_flag_without_logs_not_complete :
  ~ (forall (pipeline lmp : run_result) (dirs : list phase_dir) (w : world)
            (k : nat) (d : phase_dir),
        nth_error dirs k = Some d ->
        dir_exists d = true ->
        complete_exists d = true ->
        exists info,
          nth_error (polled_phases pipeline lmp dirs w) k = Some info
          /\ status info = Complete
          /\ progress info = 100%Q).
Proof.
  intros H.
  destruct (H RunError RunError [flag_without_logs; no_dir; no_dir; no_dir]
              empty_world 0 flag_without_logs eq_refl eq_refl eq_refl)
    as (info & E & Hs & _).
  vm_compute in E. inversion E; subst. discriminate Hs.
Qed.

Example complete_flag_without_logs_report :
  polled_phases RunError RunError
    [flag_without_logs; no_dir; no_dir; no_dir] empty_world
  = [mkInfo 1 NotStarted 0 [] [] None; mkInfo 2 NotStarted 0 [] [] None;
     mkInfo 3 NotStarted 0 [] [] None; mkInfo 4 NotStarted 0 [] [] None].
Proof. reflexivity. Qed.

(** C4, as amended. Every phase a poll reports as Running or Paused has
    its progress within [10, 95]; a phase reported as Unknown has
    progress 0. *)
Theorem running_or_paused_progress_clamped
    (pipeline lmp : run_result) (dirs : list phase_dir) (w : world)
    (info : phase_info) :
  In info (polled_phases pipeline lmp dirs w) ->
  (status info = Running \/ status info = Paused ->
   (10 <= progress info)%Q /\ (progress info <= 95)%Q)
  /\ (status info = Unknown -> progress info = 0%Q).
Proof.
  rewrite polled_phases_eq. intros Hin.
  destruct (process_phases_In _ _ _ _ _ Hin) as (j & d & wj & _ & ->).
  destruct (phase_report_cases (active_lammps_of lmp) j wj d)
    as [[Hs Hp]|[[Hs Hp]|[[Hs Hp]|(content & Hs & Hp)]]].
  - split; [intros [E|E]; congruence | intros; assumption].
  - split; [intros [E|E]; congruence | intros E; congruence].
  - split; [intros [E|E]; congruence | intros; assumption].
  - split.
    + intros _. rewrite Hp. apply estimate_progress_bounds.
    + intros E. rewrite Hs in E. unfold running_or_paused in E.
      destruct (mem (str j) (active_lammps_of lmp)); discriminate E.
Qed.

Lemma running_or_paused_progress_clamped_witness :
  (status growing_log_info = Running
   \/ status growing_log_info = Paused ->
   (10 <= progress growing_log_info)%Q
   /\ (progress growing_log_info <= 95)%Q)
  /\ (status growing_log_info = Unknown ->
      progress growing_log_info = 0%Q).
Proof.
  apply (running_or_paused_progress_clamped RunError pgrep_1_4711
           [growing_log; no_dir; no_dir; no_dir] empty_world).
  vm_compute. left. reflexivity.
Defined.

(** C4 as stated fails: a phase whose latest log cannot be read is
    reported as Unknown, which is neither Complete nor Not Started, with
    progress 0. *)
Lemma unknown_status_progress_zero :
  ~ (forall (pipeline lmp : run_result) (dirs : list phase_dir) (w : world)
            (info : phase_info),
        In info (polled_phases pipeline lmp dirs w) ->
        status info <> Complete ->
        status info <> NotStarted ->
        (10 <= progress info)%Q /\ (progress info <= 95)%Q).
Proof.
  intros H.
  destruct (H RunError RunError [unreadable_log; no_dir; no_dir; no_dir] empty_world
              (mkInfo 1 Unknown 0 ["run.log"] [] (Some "run.log")))
    as [Hlow _].
  - vm_compute. left. reflexivity.
  - discriminate.
  - discriminate.
  - vm_compute in Hlow. now apply Hlow.
Qed.

(** C6. A phase with log files and no COMPLETE file, whose latest log is
    read without error and lacks the completion marker, is reported as
    Running exactly when the decimal string of its number is an element of
    the list of active LAMMPS process ids, and as Paused otherwise. *)
Theorem running_iff_phase_number_among_pids
    (pipeline lmp : run_result) (dirs : list phase_dir) (w : world)
    (k : nat) (d : phase_dir) (f0 : log_file) (fs : list log_file)
    (content : string) :
  nth_error dirs k = Some d ->
  dir_exists d = true ->
  logs_exists d = true ->
  logs_glob d = f0 :: fs ->
  complete_exists d = false ->
  log_read (max_by_mtime f0 fs) = ReadOk content ->
  contains "Loop time" content = false ->
  exists info,
    nth_error (polled_phases pipeline lmp dirs w) k = Some info
    /\ phase info = S k
    /\ (status info = Running <-> In (str (S k)) (active_lammps_of lmp))
    /\ (status info = Paused <-> ~ In (str (S k)) (active_lammps_of lmp)).
Proof.
  intros Hk Hd Hl Hg Hc Hr Hm. rewrite polled_phases_eq.
  destruct (process_phases_nth (active_lammps_of lmp) dirs 1 w k d Hk) as (wk & E).
  cbn [Nat.add] in E.
  destruct (phase_running_or_paused (active_lammps_of lmp) (S k) wk d f0 fs content
              Hd Hl Hg Hc Hr Hm) as [Hs Hp].
  eexists; split; [exact E|].
  split; [exact Hp|]. rewrite Hs.
  split; [apply running_iff | apply paused_iff].
Qed.

Lemma running_iff_phase_number_among_pids_witness :
  exists info,
    nth_error
      (polled_phases RunError pgrep_1_4711
         [growing_log; no_dir; no_dir; no_dir] empty_world) 0
    = Some info
    /\ phase info = 1
    /\ (status info = Running <-> In (str 1) (active_lammps_of pgrep_1_4711))
    /\ (status info = Paused <-> ~ In (str 1) (active_lammps_of pgrep_1_4711)).
Proof.
  refine (running_iff_phase_number_among_pids RunError pgrep_1_4711
            [growing_log; no_dir; no_dir; no_dir] empty_world 0 growing_log
            _ _ _ _ _ _ _ _ _ _); reflexivity.
Defined.

(** The match is on whole list elements: process id 1 makes phase 1
    Running, process id 12 does not. *)
Example pid_1_runs_phase_1 :
  map status (polled_phases RunError pgrep_1_4711
                [growing_log; no_dir; no_dir; no_dir] empty_world)
  = [Running; NotStarted; NotStarted; NotStarted].
Proof. reflexivity. Qed.

Example pid_12_pauses_phase_1 :
  map status (polled_phases RunError pgrep_12_4711
                [growing_log; no_dir; no_dir; no_dir] empty_world)
  = [Paused; NotStarted; NotStarted; NotStarted].
Proof. reflexivity. Qed.

(* ===================================================================== *)
(** ** [get_simulation_status]: what plot generation is given *)
(* ===================================================================== *)

Section PlotCalls.

Lemma create_plot_calls data hs title filename w :
  plot_calls (fst (create_plot data hs title filename w))
  = plot_calls w ++ [mkCall data hs title filename].
Proof.
  unfold create_plot.
  now destruct (if negb (frame_ok data hs) then _ else _) as [files ok].
Qed.

Lemma generate_plots_calls i base sections w plots0 :
  sections <> [] ->
  plot_calls (fst (generate_plots i base sections w plots0))
  = plot_calls w
    ++ [mkCall (snd (last sections ([], []))) (fst (last sections ([], [])))
          ("Phase " ++ str i)%string base].
Proof.
  intros Hne. unfold generate_plots.
  destruct sections as [|s0 ss]; [now elim Hne|].
  destruct (last (s0 :: ss) ([], [])) as [hs data]. cbn [fst snd].
  apply create_plot_calls.
Qed.

Lemma generate_plots_last i base pre s w plots0 :
  generate_plots i base (pre ++ [s]) w plots0
  = generate_plots i base [s] w plots0.
Proof.
  unfold generate_plots.
  destruct (pre ++ [s]) as [|s0 ss] eqn:E.
  - now destruct pre.
  - rewrite <- E, last_last. reflexivity.
Qed.

Lemma process_phase_calls active i d w :
  exists cs,
    plot_calls (fst (fst (process_phase active i d w))) = plot_calls w ++ cs
    /\ forall call, In call cs -> from_last_section d call.
Proof.
  assert (Hnone : exists cs, plot_calls w = plot_calls w ++ cs
                    /\ forall call, In call cs -> from_last_section d call).
  { exists []. split; [now rewrite app_nil_r | intros ? []]. }
  unfold process_phase.
  destruct (dir_exists d); [|exact Hnone].
  destruct (logs_exists d); [|exact Hnone].
  destruct (logs_glob d) as [|f0 fs] eqn:Hg; [exact Hnone|].
  destruct (complete_exists d); [exact Hnone|].
  set (latest := max_by_mtime f0 fs).
  set (base := ("phase" ++ str i ++ "_latest")%string).
  assert (Hgen : exists cs,
             plot_calls
               (fst (match existing_plots base w with
                     | [] => generate_plots i base
                               (parse_lammps_log (log_read latest)) w
                               (existing_plots base w)
                     | _ :: _ => (w, existing_plots base w)
                     end)) = plot_calls w ++ cs
             /\ forall call, In call cs -> from_last_section d call).
  { destruct (existing_plots base w); [|exact Hnone].
    destruct (parse_lammps_log (log_read latest)) as [|s0 ss] eqn:Hp; [exact Hnone|].
    eexists. split.
    - apply generate_plots_calls. discriminate.
    - intros call [<-|[]]. exists f0, fs. fold latest.
      split; [exact Hg|]. rewrite Hp. split; [discriminate|].
      cbn [call_headers call_data]. now destruct (last (s0 :: ss) ([], [])). }
  destruct (match existing_plots base w with [] => _ | _ :: _ => _ end) as [w' plots'].
  cbn [fst] in Hgen.
  destruct (log_read latest) as [content|]; [|exact Hgen].
  now destruct (contains "Loop time" content).
Qed.

Lemma process_phases_calls active dirs : forall i w,
  exists cs,
    plot_calls (fst (fst (process_phases active i dirs w))) = plot_calls w ++ cs
    /\ forall call, In call cs -> exists d, In d dirs /\ from_last_section d call.
Proof.
  induction dirs as [|d0 dirs IH]; intros i w.
  - exists []. split; [cbn; now rewrite app_nil_r | intros ? []].
  - cbn [process_phases].
    destruct (process_phase_calls active i d0 w) as (cs1 & E1 & H1).
    destruct (process_phase active i d0 w) as [[w1 info] c].
    destruct (IH (S i) w1) as (cs2 & E2 & H2).
    destruct (process_phases active (S i) dirs w1) as [[w2 infos] cs].
    cbn [fst] in *. exists (cs1 ++ cs2). split.
    + now rewrite E2, E1, app_assoc.
    + intros call Hc. apply in_app_or in Hc as [Hc|Hc].
      * exists d0. split; [now left | now apply H1].
      * destruct (H2 call Hc) as (d & Hd & Hf).
        exists d. split; [now right | assumption].
Qed.

End PlotCalls.

Section PlotDirectoryGrows.

Lemma draw_columns_files drawn filename cols :
  forall f, In f (fst (draw_columns drawn filename cols)) ->
    exists t, In t cols /\ f = plot_file filename t.
Proof.
  induction cols as [|col cols IH]; intros f Hf; [destruct Hf|].
  cbn [draw_columns] in Hf. destruct (drawn col) as [|[|]].
  - destruct (draw_columns drawn filename cols) as [files ok].
    cbn [fst] in *. destruct Hf as [<-|Hf].
    + exists col. split; [now left | reflexivity].
    + destruct (IH f Hf) as (t & Ht & ->). exists t. split; [now right | reflexivity].
  - destruct Hf as [<-|[]]. exists col. split; [now left | reflexivity].
  - destruct Hf.
Qed.

Lemma create_plot_dir data hs title filename w :
  exists files,
    plot_dir (fst (create_plot data hs title filename w)) = plot_dir w ++ files
    /\ forall f, In f files ->
         exists t, In t (plot_columns hs) /\ f = plot_file filename t.
Proof.
  unfold create_plot. fold (plot_columns hs).
  destruct (negb (frame_ok data hs)).
  - exists []. split; [reflexivity | intros ? []].
  - destruct (plot_columns hs) as [|c cs] eqn:E.
    + exists []. split; [reflexivity | intros ? []].
    + destruct (mem "Step" hs).
      * pose proof (draw_columns_files (draw w (mkCall data hs title filename))
                      filename (c :: cs)) as H.
        destruct (draw_columns _ filename (c :: cs)) as [files ok].
        exists files. split; [reflexivity | exact H].
      * exists []. split; [reflexivity | intros ? []].
Qed.

Lemma plot_columns_types hs c : In c (plot_columns hs) -> In c plot_types.
Proof. unfold plot_columns. intros H. now apply filter_In in H. Qed.

Lemma process_phase_plot_dir active i d w :
  exists added,
    plot_dir (fst (fst (process_phase active i d w))) = plot_dir w ++ added
    /\ forall f, In f added ->
         exists t, In t plot_types /\ f = plot_file (plot_base_of i) t.
Proof.
  assert (Hnone : exists added, plot_dir w = plot_dir w ++ added
                    /\ forall f, In f added ->
                         exists t, In t plot_types /\ f = plot_file (plot_base_of i) t).
  { exists []. split; [now rewrite app_nil_r | intros ? []]. }
  unfold process_phase. fold (plot_base_of i).
  destruct (dir_exists d); [|exact Hnone].
  destruct (logs_exists d); [|exact Hnone].
  destruct (logs_glob d) as [|f0 fs]; [exact Hnone|].
  destruct (complete_exists d); [exact Hnone|].
  assert (Hgen : exists added,
             plot_dir
               (fst (match existing_plots (plot_base_of i) w with
                     | [] => generate_plots i (plot_base_of i)
                               (parse_lammps_log (log_read (max_by_mtime f0 fs))) w
                               (existing_plots (plot_base_of i) w)
                     | _ :: _ => (w, existing_plots (plot_base_of i) w)
                     end)) = plot_dir w ++ added
             /\ forall f, In f added ->
                  exists t, In t plot_types /\ f = plot_file (plot_base_of i) t).
  { destruct (existing_plots (plot_base_of i) w); [|exact Hnone].
    unfold generate_plots.
    destruct (parse_lammps_log (log_read (max_by_mtime f0 fs))) as [|s0 ss];
      [exact Hnone|].
    destruct (last (s0 :: ss) ([], [])) as [hs data]. cbn [fst].
    destruct (create_plot_dir data hs ("Phase " ++ str i)%string (plot_base_of i) w)
      as (files & E & Hfiles).
    exists files. split; [exact E|].
    intros f Hf. destruct (Hfiles f Hf) as (t & Ht & ->).
    exists t. split; [now apply plot_columns_types in Ht | reflexivity]. }
  destruct (match existing_plots (plot_base_of i) w with [] => _ | _ :: _ => _ end)
    as [w' plots'].
  cbn [fst] in Hgen.
  destruct (log_read (max_by_mtime f0 fs)) as [content|]; [|exact Hgen].
  now destruct (contains "Loop time" content).
Qed.

Lemma process_phases_plot_dir active dirs : forall i w,
  exists added,
    plot_dir (fst (fst (process_phases active i dirs w))) = plot_dir w ++ added
    /\ forall f, In f added ->
         exists k t, k < List.length dirs /\ In t plot_types
                     /\ f = plot_file (plot_base_of (i + k)) t.
Proof.
  induction dirs as [|d0 dirs IH]; intros i w.
  - exists []. split; [cbn; now rewrite app_nil_r | intros ? []].
  - cbn [process_phases].
    destruct (process_phase_plot_dir active i d0 w) as (a1 & E1 & H1).
    destruct (process_phase active i d0 w) as [[w1 info] c].
    destruct (IH (S i) w1) as (a2 & E2 & H2).
    destruct (process_phases active (S i) dirs w1) as [[w2 infos] cs].
    cbn [fst] in *. exists (a1 ++ a2). split.
    + now rewrite E2, E1, app_assoc.
    + intros f Hf. apply in_app_or in Hf as [Hf|Hf].
      * destruct (H1 f Hf) as (t & Ht & ->).
        exists 0, t. rewrite Nat.add_0_r. cbn. repeat split; [lia | assumption].
      * destruct (H2 f Hf) as (k & t & Hk & Ht & ->).
        exists (S k), t. rewrite Nat.add_succ_r. cbn. repeat split; [lia | assumption].
Qed.

End PlotDirectoryGrows.

Section DecimalDigits.

Lemma digit_char_value d : d < 10 -> nat_of_ascii (digit_char d) - 48 = d.
Proof.
  intros H. unfold digit_char. rewrite nat_ascii_embedding; lia.
Qed.

Lemma string_app_assoc (a b c : string) : ((a ++ b) ++ c = a ++ (b ++ c))%string.
Proof. induction a as [|x a IH]; cbn; [reflexivity | now rewrite IH]. Qed.

Lemma all_digits_app a b : all_digits a -> all_digits b -> all_digits (a ++ b).
Proof. induction a as [|x a IH]; cbn; [easy | intros [H1 H2] H3; split; auto]. Qed.

Lemma digits_value_app a b acc :
  digits_value acc (a ++ b) = digits_value (digits_value acc a) b.
Proof. revert acc. induction a as [|x a IH]; intros acc; cbn; [reflexivity | apply IH]. Qed.

Lemma str_fuel_digits fuel : forall n acc,
  n < fuel ->
  exists ds, str_fuel fuel n acc = (ds ++ acc)%string
             /\ all_digits ds /\ digits_value 0 ds = n.
Proof.
  induction fuel as [|fuel IH]; intros n acc Hn; [lia|].
  cbn [str_fuel].
  assert (Hd : n mod 10 < 10) by (apply Nat.mod_upper_bound; lia).
  destruct (n / 10 =? 0)%nat eqn:E.
  - apply Nat.eqb_eq in E.
    exists (String (digit_char (n mod 10)) EmptyString). repeat split.
    + now exists (n mod 10).
    + cbn [digits_value]. rewrite digit_char_value by assumption.
      pose proof (Nat.div_mod_eq n 10). lia.
  - apply Nat.eqb_neq in E.
    assert (Hlt : n / 10 < fuel).
    { pose proof (Nat.div_mod_eq n 10). lia. }
    destruct (IH (n / 10) (String (digit_char (n mod 10)) acc) Hlt)
      as (ds & Es & Hall & Hv).
    exists (ds ++ String (digit_char (n mod 10)) EmptyString)%string.
    split; [|split].
    + rewrite Es, string_app_assoc. reflexivity.
    + apply all_digits_app; [assumption|]. cbn. split; [now exists (n mod 10) | exact I].
    + rewrite digits_value_app, Hv. cbn [digits_value].
      rewrite digit_char_value by assumption.
      pose proof (Nat.div_mod_eq n 10). lia.
Qed.

Lemma str_digits n : all_digits (str n) /\ digits_value 0 (str n) = n.
Proof.
  unfold str. destruct (str_fuel_digits (S n) n EmptyString) as (ds & E & Ha & Hv); [lia|].
  rewrite E. assert (Hnil : forall s : string, (s ++ "")%string = s).
  { induction s as [|c s IHs]; cbn; [reflexivity | now rewrite IHs]. }
  rewrite Hnil. now split.
Qed.

Lemma str_inj a b : str a = str b -> a = b.
Proof.
  intros E. destruct (str_digits a) as [_ Ha], (str_digits b) as [_ Hb]. congruence.
Qed.

Lemma underscore_not_digit : ~ is_digit "_"%char.
Proof.
  intros (d & Hd & E). apply (f_equal nat_of_ascii) in E.
  unfold digit_char in E. rewrite nat_ascii_embedding in E by lia. cbn in E. lia.
Qed.

(** Two strings of digits, each followed by an underscore, are equal when
    what they begin is. *)
Lemma digits_prefix_inj a b r1 r2 :
  all_digits a -> all_digits b ->
  (a ++ String "_" r1 = b ++ String "_" r2)%string -> a = b.
Proof.
  revert b. induction a as [|x a IH]; intros [|y b] Ha Hb E; cbn in *.
  - reflexivity.
  - inversion E; subst. destruct Hb as [Hy _]. now elim underscore_not_digit.
  - inversion E; subst. destruct Ha as [Hx _]. now elim underscore_not_digit.
  - inversion E; subst. f_equal. apply IH; tauto.
Qed.

Lemma plot_base_of_inj a b : plot_base_of a = plot_base_of b -> a = b.
Proof.
  unfold plot_base_of. intros E. cbn [append] in E. inversion E as [E'].
  apply str_inj. apply (digits_prefix_inj _ _ "latest" "latest"); try apply str_digits.
  exact E'.
Qed.

Lemma plot_file_phase_inj a b t t' :
  plot_file (plot_base_of a) t = plot_file (plot_base_of b) t' -> a = b.
Proof.
  unfold plot_file, plot_base_of. intros E.
  rewrite !string_app_assoc in E. cbn [append] in E. inversion E as [E'].
  apply str_inj.
  apply (digits_prefix_inj _ _ ("latest" ++ "_" ++ t ++ ".png")
           ("latest" ++ "_" ++ t' ++ ".png")); try apply str_digits.
  exact E'.
Qed.

End DecimalDigits.

Section LastSectionPlotted.

Lemma process_phase_call_names active i d w :
  exists cs,
    plot_calls (fst (fst (process_phase active i d w))) = plot_calls w ++ cs
    /\ forall call, In call cs -> call_filename call = plot_base_of i.
Proof.
  assert (Hnone : exists cs, plot_calls w = plot_calls w ++ cs
                    /\ forall call, In call cs -> call_filename call = plot_base_of i).
  { exists []. split; [now rewrite app_nil_r | intros ? []]. }
  unfold process_phase. fold (plot_base_of i).
  destruct (dir_exists d); [|exact Hnone].
  destruct (logs_exists d); [|exact Hnone].
  destruct (logs_glob d) as [|f0 fs]; [exact Hnone|].
  destruct (complete_exists d); [exact Hnone|].
  assert (Hgen : exists cs,
             plot_calls
               (fst (match existing_plots (plot_base_of i) w with
                     | [] => generate_plots i (plot_base_of i)
                               (parse_lammps_log (log_read (max_by_mtime f0 fs))) w
                               (existing_plots (plot_base_of i) w)
                     | _ :: _ => (w, existing_plots (plot_base_of i) w)
                     end)) = plot_calls w ++ cs
             /\ forall call, In call cs -> call_filename call = plot_base_of i).
  { destruct (existing_plots (plot_base_of i) w); [|exact Hnone].
    destruct (parse_lammps_log (log_read (max_by_mtime f0 fs))) as [|s0 ss] eqn:Hp;
      [exact Hnone|].
    eexists. split.
    - apply generate_plots_calls. discriminate.
    - intros call [<-|[]]. reflexivity. }
  destruct (match existing_plots (plot_base_of i) w with [] => _ | _ :: _ => _ end)
    as [w' plots'].
  cbn [fst] in Hgen.
  destruct (log_read (max_by_mtime f0 fs)) as [content|]; [|exact Hgen].
  now destruct (contains "Loop time" content).
Qed.

Lemma process_phases_call_names active dirs : forall i w,
  exists cs,
    plot_calls (fst (fst (process_phases active i dirs w))) = plot_calls w ++ cs
    /\ forall call, In call cs ->
         exists j, j < List.length dirs /\ call_filename call = plot_base_of (i + j).
Proof.
  induction dirs as [|d0 dirs IH]; intros i w.
  - exists []. split; [cbn; now rewrite app_nil_r | intros ? []].
  - cbn [process_phases].
    destruct (process_phase_call_names active i d0 w) as (cs1 & E1 & H1).
    destruct (process_phase active i d0 w) as [[w1 info] c].
    destruct (IH (S i) w1) as (cs2 & E2 & H2).
    destruct (process_phases active (S i) dirs w1) as [[w2 infos] cs].
    cbn [fst] in *. exists (cs1 ++ cs2). split.
    + now rewrite E2, E1, app_assoc.
    + intros call Hc. apply in_app_or in Hc as [Hc|Hc].
      * exists 0. rewrite Nat.add_0_r. cbn. split; [lia | now apply H1].
      * destruct (H2 call Hc) as (j & Hj & ->).
        exists (S j). rewrite Nat.add_succ_r. cbn. split; [lia | reflexivity].
Qed.

(** The iteration of a phase that reaches plot generation with a log of
    at least one section calls [create_plot] once, on the last section. *)
Lemma process_phase_plots_last active i d w f0 fs pre s :
  dir_exists d = true -> logs_exists d = true ->
  logs_glob d = f0 :: fs -> complete_exists d = false ->
  existing_plots (plot_base_of i) w = [] ->
  parse_lammps_log (log_read (max_by_mtime f0 fs)) = pre ++ [s] ->
  plot_calls (fst (fst (process_phase active i d w)))
  = plot_calls w ++ [mkCall (snd s) (fst s) ("Phase " ++ str i)%string (plot_base_of i)].
Proof.
  intros Hd Hl Hg Hc Hex Hp.
  unfold process_phase. fold (plot_base_of i).
  rewrite Hd, Hl, Hg, Hc, Hex, Hp.
  assert (Hgen : plot_calls
                   (fst (generate_plots i (plot_base_of i) (pre ++ [s]) w []))
                 = plot_calls w
                   ++ [mkCall (snd s) (fst s) ("Phase " ++ str i)%string (plot_base_of i)]).
  { rewrite generate_plots_calls by (now destruct pre).
    now rewrite last_last. }
  destruct (generate_plots i (plot_base_of i) (pre ++ [s]) w []) as [w' plots'].
  cbn [fst] in Hgen.
  destruct (log_read (max_by_mtime f0 fs)) as [content|]; [|exact Hgen].
  now destruct (contains "Loop time" content).
Qed.

(** The files of another phase do not count as plots of this one. *)
Lemma existing_plots_other_phase k w w' added :
  plot_dir w' = plot_dir w ++ added ->
  (forall f, In f added ->
     exists j t, j <> k /\ f = plot_file (plot_base_of j) t) ->
  existing_plots (plot_base_of k) w = [] ->
  existing_plots (plot_base_of k) w' = [].
Proof.
  unfold existing_plots. intros E Hadd H0.
  destruct (filter (fun f => mem f (plot_dir w'))
              (map (plot_file (plot_base_of k)) plot_types)) as [|p ps] eqn:F;
    [reflexivity|].
  assert (Hp : In p (filter (fun f => mem f (plot_dir w'))
                       (map (plot_file (plot_base_of k)) plot_types)))
    by (rewrite F; now left).
  apply filter_In in Hp as [Hp1 Hp2].
  apply mem_In in Hp2. rewrite E in Hp2. apply in_app_or in Hp2 as [Hp2|Hp2].
  - assert (Hq : In p (filter (fun f => mem f (plot_dir w))
                         (map (plot_file (plot_base_of k)) plot_types))).
    { apply filter_In. split; [assumption | now apply mem_In]. }
    rewrite H0 in Hq. destruct Hq.
  - destruct (Hadd p Hp2) as (j & t & Hj & ->).
    apply in_map_iff in Hp1 as (t' & Et & _).
    elim Hj. symmetry. now apply (plot_file_phase_inj k j t' t).
Qed.

Lemma process_phases_plots_last active dirs : forall i w k d f0 fs pre s,
  nth_error dirs k = Some d ->
  dir_exists d = true -> logs_exists d = true ->
  logs_glob d = f0 :: fs -> complete_exists d = false ->
  existing_plots (plot_base_of (i + k)) w = [] ->
  parse_lammps_log (log_read (max_by_mtime f0 fs)) = pre ++ [s] ->
  exists before after,
    plot_calls (fst (fst (process_phases active i dirs w)))
    = plot_calls w ++ before
      ++ mkCall (snd s) (fst s) ("Phase " ++ str (i + k))%string (plot_base_of (i + k))
         :: after
    /\ forall call, In call (before ++ after) ->
         call_filename call <> plot_base_of (i + k).
Proof.
  induction dirs as [|d0 dirs IH]; intros i w k d f0 fs pre s Hk Hd Hl Hg Hc Hex Hp.
  - now destruct k.
  - cbn [process_phases]. destruct k as [|k].
    + cbn in Hk. inversion Hk; subst d0. rewrite Nat.add_0_r in *.
      pose proof (process_phase_plots_last active i d w f0 fs pre s Hd Hl Hg Hc Hex Hp)
        as E1.
      destruct (process_phase active i d w) as [[w1 info] c].
      destruct (process_phases_call_names active dirs (S i) w1) as (cs2 & E2 & H2).
      destruct (process_phases active (S i) dirs w1) as [[w2 infos] cs].
      cbn [fst] in *. exists [], cs2. split.
      * rewrite E2, E1, <- app_assoc. reflexivity.
      * intros call Hcall. cbn [app] in Hcall.
        destruct (H2 call Hcall) as (j & _ & ->).
        intros E. apply plot_base_of_inj in E. lia.
    + cbn in Hk.
      destruct (process_phase_call_names active i d0 w) as (cs1 & E1 & H1).
      destruct (process_phase_plot_dir active i d0 w) as (added & Ea & Ha).
      destruct (process_phase active i d0 w) as [[w1 info] c]. cbn [fst] in *.
      assert (Hex1 : existing_plots (plot_base_of (S i + k)) w1 = []).
      { apply (existing_plots_other_phase (S i + k) w w1 added Ea).
        - intros f Hf. destruct (Ha f Hf) as (t & _ & ->).
          exists i, t. split; [lia | reflexivity].
        - now rewrite Nat.add_succ_r in Hex. }
      destruct (IH (S i) w1 k d f0 fs pre s Hk Hd Hl Hg Hc Hex1 Hp)
        as (before & after & E2 & H2).
      destruct (process_phases active (S i) dirs w1) as [[w2 infos] cs].
      cbn [fst] in *. exists (cs1 ++ before), after. split.
      * rewrite E2, E1, <- !app_assoc. now rewrite Nat.add_succ_r.
      * intros call Hcall. rewrite <- app_assoc in Hcall.
        apply in_app_or in Hcall as [Hcall|Hcall].
        -- rewrite (H1 call Hcall). intros E. apply plot_base_of_inj in E. lia.
        -- rewrite Nat.add_succ_r. now apply H2.
Qed.

End LastSectionPlotted.

(** C7. A poll passes only last sections to plot generation.  Every call
    of [create_plot] it makes is given the last section
    [parse_lammps_log] returned for the latest log of one of the phase
    directories; the sections before the last one have no effect on what
    the plotting step does; and a phase whose iteration reaches plot
    generation (directory, logs directory and a log file there, no
    COMPLETE file, no plot file of the phase in PLOT_DIR when the poll
    starts) with a latest log of one section or more gets exactly one
    call, on the last section, every other call of the poll being for
    another phase. *)
Theorem only_last_section_is_plotted
    (pipeline lmp : run_result) (dirs : list phase_dir) (w : world) :
  (exists cs,
      polled_calls pipeline lmp dirs w = plot_calls w ++ cs
      /\ forall call, In call cs ->
           exists d, In d dirs /\ from_last_section d call)
  /\ (forall i base pre s w0 plots0,
        generate_plots i base (pre ++ [s]) w0 plots0
        = generate_plots i base [s] w0 plots0)
  /\ (forall k d f0 fs pre s,
        nth_error dirs k = Some d ->
        dir_exists d = true -> logs_exists d = true ->
        logs_glob d = f0 :: fs -> complete_exists d = false ->
        existing_plots (plot_base_of (S k)) w = [] ->
        parse_lammps_log (log_read (max_by_mtime f0 fs)) = pre ++ [s] ->
        exists before after,
          polled_calls pipeline lmp dirs w
          = plot_calls w ++ before
            ++ mkCall (snd s) (fst s) ("Phase " ++ str (S k))%string
                 (plot_base_of (S k)) :: after
          /\ forall call, In call (before ++ after) ->
               call_filename call <> plot_base_of (S k)).
Proof.
  split; [|split].
  - rewrite polled_calls_eq. apply process_phases_calls.
  - intros. apply generate_plots_last.
  - intros k d f0 fs pre s Hk Hd Hl Hg Hc Hex Hp. rewrite polled_calls_eq.
    apply (process_phases_plots_last (active_lammps_of lmp) dirs 1 w k d f0 fs pre s);
      assumption.
Qed.

Lemma only_last_section_is_plotted_witness :
  exists before after,
    polled_calls RunError pgrep_1_4711
      [growing_log; growing_log; no_dir; no_dir] empty_world
    = plot_calls empty_world ++ before
      ++ mkCall (snd growing_log_last_section) (fst growing_log_last_section)
           ("Phase " ++ str 2)%string (plot_base_of 2) :: after
    /\ forall call, In call (before ++ after) ->
         call_filename call <> plot_base_of 2.
Proof.
  apply (proj2 (proj2 (only_last_section_is_plotted RunError pgrep_1_4711
                         [growing_log; growing_log; no_dir; no_dir] empty_world))
           1 growing_log
           (mkLog "/home/rimuru/workspace/setup_sim/data/phase1/logs/old.log" 50
              (ReadOk (text_of_lines ["Step Temp"; "0 300"; "Loop time of 2.0"])))
           [mkLog "/home/rimuru/workspace/setup_sim/data/phase1/logs/run.log" 100
              (ReadOk (text_of_lines
                         ["Step Temp"; "0 300"; "Step Temp Press"; "0 300 1.5";
                          "10 301 1.4"]))]
           [(["Step"; "Temp"], [[Finite false 0 0; Finite false 300 0]])]
           growing_log_last_section);
    reflexivity.
Defined.

(** A latest log with two sections: only the second reaches [create_plot]. *)
Example two_sections_plot_last :
  parse_lammps_log
    (ReadOk (text_of_lines
               ["Step Temp"; "0 300"; "Step Temp Press"; "0 300 1.5"; "10 301 1.4"]))
  = [(["Step"; "Temp"], [[Finite false 0 0; Finite false 300 0]]);
     (["Step"; "Temp"; "Press"],
      [[Finite false 0 0; Finite false 300 0; Finite false 15 (-1)];
       [Finite false 10 0; Finite false 301 0; Finite false 14 (-1)]])]
  /\ polled_calls RunError pgrep_1_4711
       [growing_log; no_dir; no_dir; no_dir] empty_world
     = [mkCall
          [[Finite false 0 0; Finite false 300 0; Finite false 15 (-1)];
           [Finite false 10 0; Finite false 301 0; Finite false 14 (-1)]]
          ["Step"; "Temp"; "Press"] "Phase 1" "phase1_latest"].
Proof. split; reflexivity. Qed.

(* ===================================================================== *)
(** ** The start-up block: [background_updates] *)
(* ===================================================================== *)

Section StartupNames.

Import Startup.

Lemma not_mem_not_In x l : mem x l = false -> ~ In x l.
Proof. intros E H. apply mem_In in H. congruence. Qed.

Lemma not_In_not_mem (x : string) l : ~ In x l -> mem x l = false.
Proof.
  intros Hn. destruct (mem x l) eqn:E; [|reflexivity].
  apply mem_In in E. now elim Hn.
Qed.

End StartupNames.

Section StartupRuns.

Import Startup.

Variable lib : nat -> nat -> bool.

Lemma bind_raise {A B : Type} (x : exn) (k : A -> run B) :
  bind (raise x) k = raise x.
Proof. reflexivity. Qed.

Lemma bind_ret {A B : Type} (a : A) (k : A -> run B) : bind (ret a) k = k a.
Proof. unfold bind, ret. now destruct (k a). Qed.

(** When every name and attribute of the steps resolves, only a library
    step can stop them. *)
Lemma run_steps_resolved line ss : forall pos g g',
  steps_resolve ss g = Some g' ->
  run_steps lib line pos ss g = ret g'
  \/ (run_steps lib line pos ss g = raise (LibraryError line)
      /\ exists p, lib line p = true).
Proof.
  induction ss as [|s ss IH]; intros pos g g' H; cbn [steps_resolve run_steps] in *.
  - inversion H. now left.
  - destruct s as [n|n a| |n o]; cbn [run_step].
    + unfold load_name.
      destruct (mem n (names g) || mem n builtins); [|discriminate].
      rewrite !bind_ret. now apply IH.
    + unfold load_name.
      destruct (mem n (names g) || mem n builtins); [|discriminate].
      rewrite bind_ret.
      assert (Hlib : steps_resolve ss g = Some g' ->
                bind (bind (library lib line pos) (fun _ => ret g))
                  (fun g0 => run_steps lib line (S pos) ss g0) = ret g'
                \/ (bind (bind (library lib line pos) (fun _ => ret g))
                      (fun g0 => run_steps lib line (S pos) ss g0)
                    = raise (LibraryError line)
                    /\ exists p, lib line p = true)).
      { intros H'. unfold library. destruct (lib line pos) eqn:El.
        - right. split; [reflexivity | now exists pos].
        - rewrite !bind_ret. now apply IH. }
      destruct (lookup n g) as [[|]|]; [|now apply Hlib|now apply Hlib].
      destruct (mem a datetime_class_attributes); [|discriminate].
      rewrite bind_ret. now apply IH.
    + unfold library. destruct (lib line pos) eqn:El.
      * right. split; [reflexivity | now exists pos].
      * rewrite !bind_ret. now apply IH.
    + rewrite bind_ret. now apply IH.
Qed.

Lemma run_statements_resolved sts : forall g g',
  statements_resolve sts g = Some g' ->
  run_statements lib sts g = ret g'
  \/ exists l p, In l (map stmt_line sts) /\ lib l p = true
                 /\ run_statements lib sts g = raise (LibraryError l).
Proof.
  induction sts as [|st sts IH]; intros g g' H; cbn [statements_resolve run_statements] in *.
  - inversion H. now left.
  - destruct (steps_resolve (stmt_steps st) g) as [g1|] eqn:E; [|discriminate].
    destruct (run_steps_resolved (stmt_line st) (stmt_steps st) 0 g g1 E)
      as [R|[R [p Hp]]]; rewrite R.
    + rewrite bind_ret. destruct (IH g1 g' H) as [R'|(l & p & Hl & Hp & R')].
      * now left.
      * right. exists l, p. split; [now right | now split].
    + right. exists (stmt_line st), p. split; [now left | now split].
Qed.

Lemma run_statements_app a b g :
  run_statements lib (a ++ b) g
  = bind (run_statements lib a g) (fun g' => run_statements lib b g').
Proof.
  revert g. induction a as [|st a IH]; intros g; cbn [app run_statements].
  - now rewrite bind_ret.
  - destruct (run_steps lib (stmt_line st) 0 (stmt_steps st) g) as [evs [x|g1]].
    + reflexivity.
    + cbn [bind]. rewrite IH.
      destruct (run_statements lib a g1) as [evs1 [x|g2]]; [reflexivity|].
      cbn [bind]. destruct (run_statements lib b g2) as [evs2 r].
      now rewrite app_assoc.
Qed.

(** Lines 5 to 62 always end in an exception: in a library before line
    62, or at line 62 when that line is reached. *)
Lemma header_raises secure_key :
  run_statements lib (header secure_key) initial_namespace
  = raise (AttributeError "datetime.datetime" "timedelta")
  \/ exists l p, l < 62 /\ lib l p = true
       /\ run_statements lib (header secure_key) initial_namespace
          = raise (LibraryError l).
Proof.
  change (header secure_key)
    with (removelast (header secure_key)
          ++ [mkStatement 62
                [Attribute "datetime" "timedelta"; Library;
                 Attribute "app" "config"; Library]]).
  rewrite run_statements_app.
  assert (Hres : exists g, statements_resolve (removelast (header secure_key))
                             initial_namespace = Some g
                           /\ lookup "datetime" g = Some DatetimeClass
                           /\ mem "datetime" (names g) = true).
  { destruct secure_key; vm_compute; eexists; repeat split. }
  destruct Hres as (g & Hres & Hlook & Hmem).
  destruct (run_statements_resolved _ _ _ Hres) as [R|(l & p & Hl & Hp & R)];
    rewrite R.
  - left. rewrite bind_ret. cbn [run_statements stmt_line stmt_steps run_steps run_step].
    unfold load_name. rewrite Hmem. cbn [orb]. rewrite bind_ret, Hlook.
    reflexivity.
  - right. exists l, p. split; [|now split].
    clear R Hres Hp. destruct secure_key; cbn in Hl;
      repeat (destruct Hl as [<-|Hl]; [lia|]); destruct Hl.
Qed.

End StartupRuns.

(** C9, as amended. The start-up block holds a statement that creates a
    thread whose target is the name background_updates; no statement of
    dashboard.py binds that name and it is no builtin, so that
    statement, run with any globals that lack the name, raises NameError
    before a thread is started.  Start-up itself never gets that far: it
    ends in an exception at line 62 or before (an AttributeError of
    [datetime.timedelta] when no import or library call before it
    fails), with no thread started and no server running; so no periodic
    update routine ever runs. *)
Theorem background_updates_is_never_started
    (secure_key : bool) (lib : nat -> nat -> bool)
    (later : Startup.namespace -> Startup.run Startup.namespace) :
  (~ In "background_updates" (map snd Startup.module_bindings)
   /\ ~ In "background_updates" Startup.implicit_globals
   /\ ~ In "background_updates" Startup.builtins)
  /\ (forall globals,
        In "threading" globals -> ~ In "background_updates" globals ->
        Startup.start_updates_and_serve globals
        = ([], inl (Startup.NameError "background_updates")))
  /\ (exists x,
        Startup.startup secure_key lib later = ([], inl x)
        /\ (x = Startup.AttributeError "datetime.datetime" "timedelta"
            \/ exists l p, l < 62 /\ lib l p = true /\ x = Startup.LibraryError l))
  /\ ((forall l p, l < 62 -> lib l p = false) ->
      Startup.startup secure_key lib later
      = ([], inl (Startup.AttributeError "datetime.datetime" "timedelta"))).
Proof.
  split; [|split; [|split]].
  - repeat split; apply not_mem_not_In; reflexivity.
  - intros globals Hthr Hbu.
    unfold Startup.start_updates_and_serve, Startup.load_name.
    apply mem_In in Hthr. rewrite Hthr.
    rewrite (not_In_not_mem _ _ Hbu).
    reflexivity.
  - unfold Startup.startup.
    destruct (header_raises lib secure_key) as [R|(l & p & Hl & Hp & R)]; rewrite R.
    + eexists. split; [reflexivity | now left].
    + eexists. split; [reflexivity|]. right. now exists l, p.
  - intros Hlib. unfold Startup.startup.
    destruct (header_raises lib secure_key) as [R|(l & p & Hl & Hp & R)]; rewrite R.
    + reflexivity.
    + rewrite (Hlib l p Hl) in Hp. discriminate Hp.
Qed.

(** C9 as stated fails: with every import and library call succeeding,
    start-up does not end in a NameError for background_updates; it ends
    at line 62, where [datetime] is the class imported at line 17, which
    has no attribute [timedelta]. *)
Lemma startup_stops_before_the_update_thread :
  ~ (forall (secure_key : bool) (lib : nat -> nat -> bool)
            (later : Startup.namespace -> Startup.run Startup.namespace),
        exists evs,
          Startup.startup secure_key lib later
          = (evs, inl (Startup.NameError "background_updates"))).
Proof.
  intros H.
  destruct (H false (fun _ _ => false) (fun g => Startup.ret g)) as [evs E].
  vm_compute in E. discriminate E.
Qed.

Example startup_with_working_libraries :
  Startup.startup false (fun _ _ => false) (fun g => Startup.ret g)
  = ([], inl (Startup.AttributeError "datetime.datetime" "timedelta")).
Proof. reflexivity. Qed.

(** The names lines 5 to 61 bind are those [module_bindings] lists for
    these lines. *)
Example header_binds_the_listed_names :
  option_map Startup.names
    (Startup.statements_resolve (removelast (Startup.header true))
       Startup.initial_namespace)
  = Some (rev (map snd (filter (fun b => (fst b <? 62)%nat) Startup.module_bindings))
          ++ Startup.implicit_globals).
Proof. reflexivity. Qed.

(* ===================================================================== *)
(** ** py_phase4.py: a missing input file *)
(* ===================================================================== *)

Section MissingFile.

Import Report.

Variable ndarray : Type.
Variable value : Type.
Variable np_loadtxt : string -> nat -> option string -> M ndarray.
Variable size_body composition_body structure_body evolution_body :
  ndarray -> M (option value).
Variable thermo_body : M value.

Let load_data' := load_data ndarray np_loadtxt.
Let analyze' :=
  analyze ndarray value np_loadtxt size_body composition_body structure_body
    evolution_body thermo_body.

Lemma load_data_missing filename skip_rows delimiter e :
  present e filename = false ->
  load_data' filename skip_rows delimiter e
  = (mkEnv (present e)
       (printed e ++ [("Warning: " ++ filename ++ " not found")%string]),
     Returned None).
Proof.
  intros H. unfold load_data', load_data, try_except, bind, print, ret.
  now rewrite H.
Qed.

Lemma analyze_missing k e :
  present e (input_file k) = false ->
  analyze' k e = (mkEnv (present e) (printed e ++ missing_output k), Returned None).
Proof.
  intros H.
  destruct k; cbn [analyze' analyze input_file missing_output] in *;
    unfold analyze', analyze, analyze_size_distribution, analyze_composition,
      analyze_structure, analyze_thermodynamics, analyze_time_evolution,
      load_data, try_except, bind, print, ret;
    cbn [present printed]; rewrite H; cbn [present printed];
    rewrite <- ?app_assoc; reflexivity.
Qed.

Lemma seq_after_missing k e rest :
  present e (input_file k) = false ->
  seq (ignore (analyze' k) :: rest) e
  = seq rest (mkEnv (present e) (printed e ++ missing_output k)).
Proof.
  intros H. cbn [seq]. unfold ignore, bind at 1 2.
  now rewrite (analyze_missing k e H).
Qed.

End MissingFile.

Section MainContinues.

Import Report.

Lemma seq_app (a b : list (M unit)) e :
  seq (a ++ b) e
  = match seq a e with
    | (e', Returned _) => seq b e'
    | (e', Raised msg) => (e', Raised msg)
    end.
Proof.
  revert e. induction a as [|s a IH]; intros e; [reflexivity|].
  cbn [app seq]. unfold bind.
  destruct (s e) as [e' [[]|msg]]; [apply IH | reflexivity].
Qed.

Variable ndarray : Type.
Variable value : Type.
Variable np_loadtxt : string -> nat -> option string -> M ndarray.
Variable size_body composition_body structure_body evolution_body :
  ndarray -> M (option value).
Variable thermo_body : M value.
Variable generate_report generate_pdf_report : M unit.

Let analyze' :=
  analyze ndarray value np_loadtxt size_body composition_body structure_body
    evolution_body thermo_body.
Let steps :=
  main_steps ndarray value np_loadtxt size_body composition_body structure_body
    evolution_body thermo_body generate_report generate_pdf_report.

Lemma main_steps_at k : nth_error steps (position k) = Some (ignore (analyze' k)).
Proof. now destruct k. Qed.

Lemma main_steps_split k :
  steps = firstn (position k) steps ++ ignore (analyze' k) :: skipn (S (position k)) steps.
Proof. now destruct k. Qed.

(** [main] once the statements before an analysis whose file is missing
    have returned. *)
Lemma main_after_missing k e e1 :
  seq (firstn (position k) steps) e = (e1, Returned tt) ->
  present e1 (input_file k) = false ->
  main ndarray value np_loadtxt size_body composition_body structure_body
    evolution_body thermo_body generate_report generate_pdf_report e
  = seq (skipn (S (position k)) steps)
      (mkEnv (present e1) (printed e1 ++ missing_output k)).
Proof.
  intros Hbefore Hmissing. unfold main. fold steps.
  rewrite (main_steps_split k) at 1. rewrite seq_app, Hbefore.
  now apply seq_after_missing.
Qed.

End MainContinues.

Section UnreadableLog.

(** An iteration whose latest log cannot be read calls [create_plot] not
    at all and leaves PLOT_DIR as it is. *)
Lemma unreadable_log_no_plot active i d f0 fs w :
  logs_glob d = f0 :: fs ->
  log_read (max_by_mtime f0 fs) = ReadError ->
  fst (fst (process_phase active i d w)) = w.
Proof.
  intros Hg Hr. unfold process_phase. rewrite Hg, Hr.
  destruct (dir_exists d); [|reflexivity].
  destruct (logs_exists d); [|reflexivity].
  destruct (complete_exists d); [reflexivity|].
  cbn [parse_lammps_log generate_plots].
  now destruct (existing_plots _ w).
Qed.

End UnreadableLog.

Section MainRunsTheOthers.

Import Report.

Variable ndarray : Type.
Variable value : Type.
Variable np_loadtxt : string -> nat -> option string -> M ndarray.
Variable size_body composition_body structure_body evolution_body :
  ndarray -> M (option value).
Variable thermo_body : M value.
Variable generate_report generate_pdf_report : M unit.

Let analyze' :=
  analyze ndarray value np_loadtxt size_body composition_body structure_body
    evolution_body thermo_body.
Let steps :=
  main_steps ndarray value np_loadtxt size_body composition_body structure_body
    evolution_body thermo_body generate_report generate_pdf_report.

(** Every other analysis is called before or after a given one. *)
Lemma main_steps_others k j :
  j <> k ->
  (position j < position k
   /\ In (ignore (analyze' j)) (firstn (position k) steps))
  \/ (position k < position j
      /\ In (ignore (analyze' j)) (skipn (S (position k)) steps)).
Proof.
  intros Hjk.
  destruct j, k; try (now elim Hjk);
    (left; split; [cbn; lia | cbn; tauto])
    || (right; split; [cbn; lia | cbn; tauto]).
Qed.

End MainRunsTheOthers.

(** C8. When the input file of an analysis does not exist, [load_data]
    on it returns None after printing a warning, the analysis returns
    None without raising and without running its statistics, and the
    statements that follow it run next in the environment it leaves.
    Every analysis is a statement of [main]; once [main] has run the
    statements before the analysis whose file is missing, it goes on
    with the statements after it, and each other analysis is among the
    statements run before or among those that follow.  Likewise
    [parse_lammps_log] returns the empty list when reading the log
    raises, and the poll then makes no plot for that log. *)
Theorem missing_input_file_is_skipped
    (ndarray value : Type)
    (np_loadtxt : string -> nat -> option string -> Report.M ndarray)
    (size_body composition_body structure_body evolution_body :
       ndarray -> Report.M (option value))
    (thermo_body : Report.M value)
    (generate_report generate_pdf_report : Report.M unit)
    (k : Report.analysis) (e : Report.env) :
  Report.present e (Report.input_file k) = false ->
  (forall skip_rows delimiter,
      Report.load_data ndarray np_loadtxt (Report.input_file k) skip_rows delimiter e
      = (Report.mkEnv (Report.present e)
           (Report.printed e
            ++ [("Warning: " ++ Report.input_file k ++ " not found")%string]),
         Report.Returned None))
  /\ Report.analyze ndarray value np_loadtxt size_body composition_body
       structure_body evolution_body thermo_body k e
     = (Report.mkEnv (Report.present e)
          (Report.printed e ++ Report.missing_output k),
        Report.Returned None)
  /\ (forall rest,
        Report.seq
          (Report.ignore
             (Report.analyze ndarray value np_loadtxt size_body composition_body
                structure_body evolution_body thermo_body k) :: rest) e
        = Report.seq rest
            (Report.mkEnv (Report.present e)
               (Report.printed e ++ Report.missing_output k)))
  /\ (forall j,
        nth_error
          (Report.main_steps ndarray value np_loadtxt size_body composition_body
             structure_body evolution_body thermo_body generate_report
             generate_pdf_report) (Report.position j)
        = Some (Report.ignore
                  (Report.analyze ndarray value np_loadtxt size_body
                     composition_body structure_body evolution_body thermo_body j)))
  /\ (forall e0,
        Report.seq
          (firstn (Report.position k)
             (Report.main_steps ndarray value np_loadtxt size_body composition_body
                structure_body evolution_body thermo_body generate_report
                generate_pdf_report)) e0
        = (e, Report.Returned tt) ->
        Report.main ndarray value np_loadtxt size_body composition_body
          structure_body evolution_body thermo_body generate_report
          generate_pdf_report e0
        = Report.seq
            (skipn (S (Report.position k))
               (Report.main_steps ndarray value np_loadtxt size_body
                  composition_body structure_body evolution_body thermo_body
                  generate_report generate_pdf_report))
            (Report.mkEnv (Report.present e)
               (Report.printed e ++ Report.missing_output k)))
  /\ (forall j, j <> k ->
        (Report.position j < Report.position k
         /\ In (Report.ignore
                  (Report.analyze ndarray value np_loadtxt size_body
                     composition_body structure_body evolution_body thermo_body j))
              (firstn (Report.position k)
                 (Report.main_steps ndarray value np_loadtxt size_body
                    composition_body structure_body evolution_body thermo_body
                    generate_report generate_pdf_report)))
        \/ (Report.position k < Report.position j
            /\ In (Report.ignore
                     (Report.analyze ndarray value np_loadtxt size_body
                        composition_body structure_body evolution_body thermo_body j))
                 (skipn (S (Report.position k))
                    (Report.main_steps ndarray value np_loadtxt size_body
                       composition_body structure_body evolution_body thermo_body
                       generate_report generate_pdf_report))))
  /\ parse_lammps_log ReadError = []
  /\ (forall active i d f0 fs w,
        logs_glob d = f0 :: fs ->
        log_read (max_by_mtime f0 fs) = ReadError ->
        fst (fst (process_phase active i d w)) = w).
Proof.
  intros Hmissing.
  split; [|split; [|split; [|split; [|split; [|split; [|split]]]]]].
  - intros. now apply load_data_missing.
  - now apply analyze_missing.
  - intros. now apply seq_after_missing.
  - intros j. apply main_steps_at.
  - intros e0 Hbefore. now apply main_after_missing.
  - intros j Hj. now apply main_steps_others.
  - reflexivity.
  - intros. now apply (unreadable_log_no_plot active i d f0 fs w).
Qed.

Lemma missing_input_file_is_skipped_witness :
  (forall skip_rows delimiter,
      Report.load_data unit test_loadtxt (Report.input_file Report.Composition)
        skip_rows delimiter after_size_missing
      = (Report.mkEnv (Report.present after_size_missing)
           (Report.printed after_size_missing
            ++ [("Warning: " ++ Report.input_file Report.Composition
                 ++ " not found")%string]),
         Report.Returned None))
  /\ Report.analyze unit unit test_loadtxt test_body test_body test_body test_body
       test_thermo Report.Composition after_size_missing
     = (Report.mkEnv (Report.present after_size_missing)
          (Report.printed after_size_missing
           ++ Report.missing_output Report.Composition),
        Report.Returned None)
  /\ (forall rest,
        Report.seq
          (Report.ignore
             (Report.analyze unit unit test_loadtxt test_body test_body test_body
                test_body test_thermo Report.Composition) :: rest)
          after_size_missing
        = Report.seq rest
            (Report.mkEnv (Report.present after_size_missing)
               (Report.printed after_size_missing
                ++ Report.missing_output Report.Composition)))
  /\ (forall j,
        nth_error
          (Report.main_steps unit unit test_loadtxt test_body test_body test_body
             test_body test_thermo test_report test_report) (Report.position j)
        = Some (Report.ignore
                  (Report.analyze unit unit test_loadtxt test_body test_body
                     test_body test_body test_thermo j)))
  /\ (forall e0,
        Report.seq
          (firstn (Report.position Report.Composition)
             (Report.main_steps unit unit test_loadtxt test_body test_body test_body
                test_body test_thermo test_report test_report)) e0
        = (after_size_missing, Report.Returned tt) ->
        Report.main unit unit test_loadtxt test_body test_body test_body test_body
          test_thermo test_report test_report e0
        = Report.seq
            (skipn (S (Report.position Report.Composition))
               (Report.main_steps unit unit test_loadtxt test_body test_body
                  test_body test_body test_thermo test_report test_report))
            (Report.mkEnv (Report.present after_size_missing)
               (Report.printed after_size_missing
                ++ Report.missing_output Report.Composition)))
  /\ (forall j, j <> Report.Composition ->
        (Report.position j < Report.position Report.Composition
         /\ In (Report.ignore
                  (Report.analyze unit unit test_loadtxt test_body test_body
                     test_body test_body test_thermo j))
              (firstn (Report.position Report.Composition)
                 (Report.main_steps unit unit test_loadtxt test_body test_body
                    test_body test_body test_thermo test_report test_report)))
        \/ (Report.position Report.Composition < Report.position j
            /\ In (Report.ignore
                     (Report.analyze unit unit test_loadtxt test_body test_body
                        test_body test_body test_thermo j))
                 (skipn (S (Report.position Report.Composition))
                    (Report.main_steps unit unit test_loadtxt test_body test_body
                       test_body test_body test_thermo test_report test_report))))
  /\ parse_lammps_log ReadError = []
  /\ (forall active i d f0 fs w,
        logs_glob d = f0 :: fs ->
        log_read (max_by_mtime f0 fs) = ReadError ->
        fst (fst (process_phase active i d w)) = w).
Proof.
  apply (missing_input_file_is_skipped unit unit test_loadtxt test_body test_body
           test_body test_body test_thermo test_report test_report
           Report.Composition after_size_missing).
  reflexivity.
Defined.

(** In a directory that holds the RDF file only, [main] reaches the
    composition analysis after the warning of the size analysis, and goes
    on from there. *)
Example main_reaches_composition :
  Report.seq
    (firstn (Report.position Report.Composition)
       (Report.main_steps unit unit test_loadtxt test_body test_body test_body
          test_body test_thermo test_report test_report)) only_rdf_present
  = (after_size_missing, Report.Returned tt)
  /\ Report.main unit unit test_loadtxt test_body test_body test_body test_body
       test_thermo test_report test_report only_rdf_present
     = Report.seq
         (skipn (S (Report.position Report.Composition))
            (Report.main_steps unit unit test_loadtxt test_body test_body
               test_body test_body test_thermo test_report test_report))
         (Report.mkEnv (Report.present after_size_missing)
            (Report.printed after_size_missing
             ++ Report.missing_output Report.Composition)).
Proof. split; reflexivity. Qed.

(** A run of [main] with the RDF file as the only input: the four other
    analyses print their line (and a warning) and return, the RDF
    analysis and both reports run. *)
Example main_with_only_rdf :
  Report.printed
    (fst (Report.main unit unit test_loadtxt test_body test_body test_body
            test_body test_thermo test_report test_report only_rdf_present))
  = [ Report.repeat_char "=" 80;
      "NITINOL NANOPARTICLE FORMATION ANALYSIS";
      Report.repeat_char "=" 80;
      "Analyzing nanoparticle size distribution...";
      "Warning: ../output/particle_size_dist.dat not found";
      "Analyzing composition data...";
      "Warning: ../output/composition_analysis.dat not found";
      "Analyzing structural data (RDF)...";
      "(statistics and plots)";
      "Analyzing thermodynamic data...";
      "Analyzing temporal evolution...";
      "Warning: ../output/cluster_evolution.dat not found";
      "(report)";
      "(report)";
      String PyStr.LF "Analysis complete. Results saved to: ../figures/";
      "PDF report with enhanced statistics generated in: ../output/";
      Report.repeat_char "=" 80 ].
Proof. reflexivity. Qed.

(* ===================================================================== *)
(** ** [parse_lammps_log]: further properties *)
(* ===================================================================== *)

Section ParserMore.

Lemma parse_line_outside st raw :
  in_data_section st = false -> is_header (strip raw) = false ->
  parse_line st raw = st.
Proof. intros Hin Hh. unfold parse_line. now rewrite Hh, Hin. Qed.

Lemma fold_no_header pre : forall st,
  in_data_section st = false -> no_header pre ->
  fold_left parse_line pre st = st.
Proof.
  induction pre as [|l pre IH]; intros st Hin Hpre; [reflexivity|].
  inversion Hpre; subst. cbn [fold_left].
  rewrite parse_line_outside by assumption. now apply IH.
Qed.

Lemma flush_outside st : in_data_section st = false -> flush st = data_sections st.
Proof. intros H. unfold flush, has_rows. now rewrite H. Qed.

(** Outside a section, the header tokens and rows left in the loop's
    variables no longer matter. *)
Lemma parse_line_forgets ds hs1 cs1 hs2 cs2 raw :
  parse_line (mkParser ds false hs1 cs1) raw = mkParser ds false hs1 cs1
  /\ parse_line (mkParser ds false hs2 cs2) raw = mkParser ds false hs2 cs2
  \/ parse_line (mkParser ds false hs1 cs1) raw
     = parse_line (mkParser ds false hs2 cs2) raw.
Proof.
  unfold parse_line. destruct (is_header (strip raw)); cbn; [right | left]; auto.
Qed.

Lemma fold_forgets rest : forall ds hs1 cs1 hs2 cs2,
  flush (fold_left parse_line rest (mkParser ds false hs1 cs1))
  = flush (fold_left parse_line rest (mkParser ds false hs2 cs2)).
Proof.
  induction rest as [|l rest IH]; intros; cbn [fold_left].
  - now rewrite !flush_outside.
  - destruct (parse_line_forgets ds hs1 cs1 hs2 cs2 l) as [[E1 E2]|E].
    + rewrite E1, E2. apply IH.
    + now rewrite E.
Qed.

(** Sections already returned are a prefix of everything later. *)
Lemma parse_line_prefix ds st raw :
  parse_line (mkParser (ds ++ data_sections st) (in_data_section st)
                (headers st) (current_section st)) raw
  = mkParser (ds ++ data_sections (parse_line st raw))
      (in_data_section (parse_line st raw)) (headers (parse_line st raw))
      (current_section (parse_line st raw)).
Proof.
  destruct st as [d b hs cs]. unfold parse_line.
  cbn [in_data_section headers current_section data_sections].
  destruct (is_header (strip raw)).
  - cbn. f_equal. unfold flush, has_rows. cbn.
    destruct b; cbn; [|reflexivity].
    destruct cs; [reflexivity | now rewrite app_assoc].
  - destruct b; [|reflexivity].
    destruct (nonempty (strip raw) && negb (startswith (strip raw) "Loop")
              && negb (startswith (strip raw) "#")); [|reflexivity].
    destruct (row_values (strip raw)) as [vs|]; [|reflexivity].
    now destruct (List.length vs =? List.length hs)%nat.
Qed.

Lemma fold_prefix rest : forall ds st,
  flush (fold_left parse_line rest
           (mkParser (ds ++ data_sections st) (in_data_section st)
              (headers st) (current_section st)))
  = ds ++ flush (fold_left parse_line rest st).
Proof.
  induction rest as [|l rest IH]; intros ds st; cbn [fold_left].
  - unfold flush, has_rows. cbn.
    destruct (in_data_section st); cbn; [|reflexivity].
    destruct (current_section st); [reflexivity | now rewrite app_assoc].
  - rewrite parse_line_prefix. apply IH.
Qed.

Lemma parse_line_unconvertible st raw :
  in_data_section st = true -> unconvertible raw ->
  parse_line st raw
  = mkParser (data_sections st) false (headers st) (current_section st).
Proof.
  intros Hin (Hh & Hne & Hl & Hc & Hv). unfold parse_line.
  now rewrite Hh, Hin, Hne, Hl, Hc, Hv.
Qed.

End ParserMore.

(** X1. Lines before the first header line are ignored: a log without any
    header line gives no section, and such lines in front of a log change
    nothing. *)
Theorem lines_before_first_header_are_ignored (pre rest : list string) :
  no_header pre ->
  parse_lines pre = [] /\ parse_lines (pre ++ rest) = parse_lines rest.
Proof.
  intros Hpre. unfold parse_lines. split.
  - rewrite (fold_no_header pre parser_init eq_refl Hpre). reflexivity.
  - rewrite fold_left_app.
    rewrite (fold_no_header pre parser_init eq_refl Hpre). reflexivity.
Qed.

Lemma lines_before_first_header_are_ignored_witness :
  parse_lines [line "LAMMPS (2 Aug 2023)"; line "1 2"; line ""] = []
  /\ parse_lines ([line "LAMMPS (2 Aug 2023)"; line "1 2"; line ""]
                  ++ [line "Step Temp"; line "0 300"])
     = parse_lines [line "Step Temp"; line "0 300"].
Proof.
  apply (lines_before_first_header_are_ignored
           [line "LAMMPS (2 Aug 2023)"; line "1 2"; line ""]
           [line "Step Temp"; line "0 300"]).
  repeat constructor.
Defined.

(** X2. A row that does not convert loses the open section: when the
    parser is inside a section after [pre] and the next line makes
    [float] raise, the result is the sections closed before, followed by
    what the rest of the log gives on its own; the rows gathered in the
    open section are not returned. *)
Theorem unconvertible_row_drops_open_section
    (pre : list string) (raw : string) (rest : list string) :
  in_data_section (parser_after pre) = true ->
  unconvertible raw ->
  parse_lines (pre ++ raw :: rest) = closed_sections pre ++ parse_lines rest.
Proof.
  intros Hin Hraw. unfold parse_lines, closed_sections.
  rewrite fold_left_app. cbn [fold_left]. fold (parser_after pre).
  rewrite (parse_line_unconvertible _ _ Hin Hraw).
  rewrite (fold_forgets rest _ _ _ [] []).
  rewrite <- (app_nil_r (data_sections (parser_after pre))) at 1.
  apply (fold_prefix rest (data_sections (parser_after pre)) parser_init).
Qed.

Lemma unconvertible_row_drops_open_section_witness :
  parse_lines ([line "Step Temp"; line "0 300"; line "10 301"]
               ++ line "Performance: 12 ns/day" :: [line "20 302"])
  = closed_sections [line "Step Temp"; line "0 300"; line "10 301"]
    ++ parse_lines [line "20 302"].
Proof.
  apply (unconvertible_row_drops_open_section
           [line "Step Temp"; line "0 300"; line "10 301"]
           (line "Performance: 12 ns/day") [line "20 302"]).
  - reflexivity.
  - repeat split; reflexivity.
Defined.

(** X3. Sections compose: a header line followed by N >= 1 numeric rows
    of its arity, put after any log, adds exactly one section, the
    header's tokens with those rows, after the sections of that log. *)
Theorem appended_block_adds_one_section
    (content : list string) (h : string) (rows : list string) :
  is_header (strip h) = true ->
  Forall (numeric_row (split (strip h))) rows ->
  rows <> [] ->
  exists data,
    parse_lines (content ++ h :: rows)
    = parse_lines content ++ [(split (strip h), data)]
    /\ Forall2 (fun raw vs => row_values (strip raw) = Some vs) rows data.
Proof.
  intros Hh Hrows Hne. unfold parse_lines.
  rewrite fold_left_app. cbn [fold_left].
  rewrite (parse_line_header _ _ Hh).
  set (st := fold_left parse_line content parser_init).
  edestruct (parse_rows rows (mkParser (flush st) true (split (strip h)) []))
    as (data & E & F); [reflexivity | now apply header_has_tokens | exact Hrows |].
  exists data. split; [|exact F]. rewrite E.
  cbn [data_sections headers current_section app].
  unfold flush at 1, has_rows.
  cbn [in_data_section current_section data_sections headers andb].
  destruct data; [|reflexivity].
  apply Forall2_length in F. destruct rows; [now elim Hne | discriminate F].
Qed.

Lemma appended_block_adds_one_section_witness :
  exists data,
    parse_lines ([line "Step Temp"; line "0 300"]
                 ++ line "Step Temp Press" :: [line "0 300 1.5"])
    = parse_lines [line "Step Temp"; line "0 300"]
      ++ [(split (strip (line "Step Temp Press")), data)]
    /\ Forall2 (fun raw vs => row_values (strip raw) = Some vs)
         [line "0 300 1.5"] data.
Proof.
  apply (appended_block_adds_one_section [line "Step Temp"; line "0 300"]
           (line "Step Temp Press") [line "0 300 1.5"]).
  - reflexivity.
  - repeat constructor; eexists; split; reflexivity.
  - discriminate.
Defined.

Section ParserProvenance.

Variable content : list string.

Let header_from (hs : list string) : Prop :=
  exists l, In l content /\ is_header (strip l) = true /\ hs = split (strip l).

Let row_from (r : row) : Prop :=
  exists l, In l content /\ row_values (strip l) = Some r.

Let prov (st : parser_state) : Prop :=
  Forall (section_from content) (data_sections st)
  /\ (in_data_section st = true -> header_from (headers st))
  /\ Forall row_from (current_section st).

Lemma prov_flush st : prov st -> Forall (section_from content) (flush st).
Proof.
  intros (Hs & Hh & Hc). unfold flush, has_rows.
  destruct (in_data_section st); cbn; [|assumption].
  destruct (current_section st) as [|r rs] eqn:E; [assumption|].
  apply Forall_app. split; [assumption|]. constructor; [|constructor].
  split; cbn [fst snd].
  - now apply Hh.
  - intros r' Hr'. rewrite Forall_forall in Hc. now apply Hc.
Qed.

Lemma prov_parse_line st raw : In raw content -> prov st -> prov (parse_line st raw).
Proof.
  intros Hin Hp. pose proof (prov_flush st Hp) as Hf.
  destruct Hp as (Hs & Hh & Hc). unfold parse_line.
  destruct (is_header (strip raw)) eqn:Ehd.
  { repeat split; cbn; [assumption | | constructor].
    intros _. now exists raw. }
  destruct (in_data_section st) eqn:Ein; [|repeat split; auto; congruence].
  destruct (nonempty (strip raw) && negb (startswith (strip raw) "Loop")
            && negb (startswith (strip raw) "#"));
    [|repeat split; auto; congruence].
  destruct (row_values (strip raw)) as [vs|] eqn:Ev.
  - destruct (List.length vs =? List.length (headers st))%nat;
      [|repeat split; auto; congruence].
    repeat split; cbn; [assumption | auto |].
    apply Forall_app. split; [assumption|].
    constructor; [|constructor]. now exists raw.
  - repeat split; cbn; [assumption | discriminate | assumption].
Qed.

Lemma prov_fold ls : forall st,
  incl ls content -> prov st -> prov (fold_left parse_line ls st).
Proof.
  induction ls as [|l ls IH]; intros st Hi Hp; [assumption|].
  cbn [fold_left]. apply IH.
  - intros x Hx. apply Hi. now right.
  - apply prov_parse_line; [apply Hi; now left | assumption].
Qed.

Lemma parse_lines_provenance : Forall (section_from content) (parse_lines content).
Proof.
  apply prov_flush, prov_fold; [apply incl_refl|].
  repeat split; cbn; [constructor | discriminate | constructor].
Qed.

End ParserProvenance.

Section ParserCount.

Let open_count (st : parser_state) : nat :=
  List.length (data_sections st) + (if in_data_section st then 1 else 0).

Lemma flush_length st : List.length (flush st) <= open_count st.
Proof.
  unfold flush, has_rows, open_count.
  destruct (in_data_section st); cbn; [|lia].
  destruct (current_section st); [lia|]. rewrite length_app. cbn. lia.
Qed.

Lemma parse_line_count st raw :
  open_count (parse_line st raw)
  <= open_count st + (if is_header (strip raw) then 1 else 0).
Proof.
  unfold parse_line. destruct (is_header (strip raw)).
  - pose proof (flush_length st). unfold open_count in *. cbn. lia.
  - destruct (in_data_section st) eqn:Ein; [|lia].
    destruct (nonempty (strip raw) && negb (startswith (strip raw) "Loop")
              && negb (startswith (strip raw) "#")); [|lia].
    destruct (row_values (strip raw)) as [vs|].
    + destruct (List.length vs =? List.length (headers st))%nat; [|lia].
      unfold open_count. cbn. rewrite Ein. lia.
    + unfold open_count. cbn. rewrite Ein. lia.
Qed.

Lemma fold_count ls : forall st,
  open_count (fold_left parse_line ls st) <= open_count st + count_headers ls.
Proof.
  induction ls as [|l ls IH]; intros st.
  - cbn. unfold count_headers. cbn. lia.
  - cbn [fold_left]. specialize (IH (parse_line st l)).
    pose proof (parse_line_count st l) as H.
    unfold count_headers in *. cbn [filter].
    destruct (is_header (strip l)); cbn [List.length]; lia.
Qed.

Lemma parse_lines_count content :
  List.length (parse_lines content) <= count_headers content.
Proof.
  unfold parse_lines.
  pose proof (flush_length (fold_left parse_line content parser_init)).
  pose proof (fold_count content parser_init). unfold open_count in *.
  cbn in *. lia.
Qed.

End ParserCount.

(** X4. The parser invents nothing: the header tokens of every returned
    section are the tokens of a header line of the log, every row of it
    is the conversion of a line of the log, and there are at most as many
    sections as the log has header lines. *)
Theorem sections_come_from_the_log (text : string) :
  Forall (section_from (readlines text)) (parse_lammps_log (ReadOk text))
  /\ List.length (parse_lammps_log (ReadOk text))
     <= count_headers (readlines text).
Proof.
  cbn [parse_lammps_log]. split.
  - apply parse_lines_provenance.
  - apply parse_lines_count.
Qed.

Section SkippedLines.

Lemma parse_line_skipped_line st raw :
  skipped_line raw = true -> parse_line st raw = st.
Proof.
  unfold skipped_line. intros H. apply andb_true_iff in H as [Hh Hs].
  apply negb_true_iff in Hh. unfold parse_line. rewrite Hh.
  destruct (in_data_section st); [|reflexivity].
  destruct (nonempty (strip raw)); cbn in *;
    [|reflexivity].
  apply orb_true_iff in Hs as [Hs|Hs]; rewrite Hs; cbn; [reflexivity|].
  now rewrite andb_false_r.
Qed.

End SkippedLines.

(** X5. Blank lines and lines starting with "Loop" or "#" that are no
    header lines play no part: removing all of them from a log leaves
    what [parse_lammps_log] returns unchanged. *)
Theorem skipped_lines_can_be_removed (content : list string) :
  parse_lines content
  = parse_lines (filter (fun l => negb (skipped_line l)) content).
Proof.
  unfold parse_lines. f_equal. generalize parser_init as st.
  induction content as [|l content IH]; intros st; [reflexivity|].
  cbn [fold_left filter]. destruct (skipped_line l) eqn:E; cbn [negb].
  - rewrite (parse_line_skipped_line st l E). apply IH.
  - cbn [fold_left]. apply IH.
Qed.


(* ===================================================================== *)
(** ** [get_simulation_status]: further properties *)
(* ===================================================================== *)

Section LatestLog.

Lemma max_by_mtime_scan rest : forall best pre mid,
  (forall f, In f pre -> (log_mtime f < log_mtime best)%Z) ->
  (forall f, In f mid -> (log_mtime f <= log_mtime best)%Z) ->
  first_newest (max_by_mtime best rest) (pre ++ best :: mid ++ rest).
Proof.
  induction rest as [|f rest IH]; intros best pre mid Hpre Hmid.
  - exists pre, mid. rewrite app_nil_r. now repeat split.
  - cbn [max_by_mtime]. destruct (log_mtime best <? log_mtime f)%Z eqn:E.
    + apply Z.ltb_lt in E.
      replace (pre ++ best :: mid ++ f :: rest)
        with ((pre ++ best :: mid) ++ f :: [] ++ rest)
        by (rewrite <- app_assoc; reflexivity).
      apply IH.
      * intros x Hx. apply in_app_or in Hx as [Hx|[<-|Hx]].
        -- specialize (Hpre x Hx). lia.
        -- exact E.
        -- specialize (Hmid x Hx). lia.
      * intros x [].
    + apply Z.ltb_ge in E.
      replace (pre ++ best :: mid ++ f :: rest)
        with (pre ++ best :: (mid ++ [f]) ++ rest)
        by (rewrite <- (app_assoc mid); reflexivity).
      apply IH; [assumption|].
      intros x Hx. apply in_app_or in Hx as [Hx|[<-|[]]]; [now apply Hmid | exact E].
Qed.

Lemma max_by_mtime_first_newest f0 fs :
  first_newest (max_by_mtime f0 fs) (f0 :: fs).
Proof.
  apply (max_by_mtime_scan fs f0 [] []); intros ? [].
Qed.

End LatestLog.

(** X6. The log a poll analyses is the newest one, the first in glob
    order among logs of equal modification time: for a phase with log
    files and no COMPLETE file, [current_log] names a log that no other
    log is newer than and that every earlier log is strictly older
    than. *)
Theorem current_log_is_first_newest
    (active : list string) (i : nat) (d : phase_dir) (w : world)
    (f0 : log_file) (fs : list log_file) :
  dir_exists d = true ->
  logs_exists d = true ->
  logs_glob d = f0 :: fs ->
  complete_exists d = false ->
  exists m,
    first_newest m (logs_glob d)
    /\ current_log (phase_report active i d w) = Some (basename (log_path m)).
Proof.
  intros Hd Hl Hg Hc. exists (max_by_mtime f0 fs). split.
  - rewrite Hg. apply max_by_mtime_first_newest.
  - unfold phase_report, process_phase. rewrite Hd, Hl, Hg, Hc.
    destruct (match existing_plots _ w with [] => _ | _ :: _ => _ end) as [w' plots'].
    destruct (log_read (max_by_mtime f0 fs)) as [content|]; [|reflexivity].
    now destruct (contains "Loop time" content).
Qed.

Lemma current_log_is_first_newest_witness :
  exists m,
    first_newest m (logs_glob growing_log)
    /\ current_log (phase_report ["1"] 1 growing_log empty_world)
       = Some (basename (log_path m)).
Proof.
  refine (current_log_is_first_newest ["1"] 1 growing_log empty_world _ _ _ _ _ _);
    reflexivity.
Defined.

Section PlotDirectory.

Lemma existing_plots_keep active i d w :
  existing_plots (plot_base_of i) w <> [] ->
  fst (fst (process_phase active i d w)) = w
  /\ (plots (phase_report active i d w) = []
      \/ plots (phase_report active i d w) = existing_plots (plot_base_of i) w).
Proof.
  intros Hex. unfold phase_report, process_phase. fold (plot_base_of i).
  destruct (dir_exists d); [|now split; [|left]].
  destruct (logs_exists d); [|now split; [|left]].
  destruct (logs_glob d) as [|f0 fs]; [now split; [|left]|].
  destruct (complete_exists d); [now split; [|left]|].
  destruct (existing_plots (plot_base_of i) w) as [|p ps] eqn:E; [now elim Hex|].
  destruct (log_read (max_by_mtime f0 fs)) as [content|]; [|now split; [|right]].
  destruct (contains "Loop time" content); now split; [|right].
Qed.

(** What an iteration reports as plots is what lies in PLOT_DIR when it
    ends. *)
Lemma reported_plots active i d w :
  plots (phase_report active i d w) = []
  \/ plots (phase_report active i d w)
     = existing_plots (plot_base_of i) (fst (fst (process_phase active i d w))).
Proof.
  unfold phase_report, process_phase. fold (plot_base_of i).
  destruct (dir_exists d); [|now left].
  destruct (logs_exists d); [|now left].
  destruct (logs_glob d) as [|f0 fs]; [now left|].
  destruct (complete_exists d); [now left|].
  destruct (existing_plots (plot_base_of i) w) as [|p ps] eqn:E.
  - unfold generate_plots.
    destruct (parse_lammps_log (log_read (max_by_mtime f0 fs))) as [|s0 ss].
    + left. destruct (log_read (max_by_mtime f0 fs)) as [content|]; [|reflexivity].
      now destruct (contains "Loop time" content).
    + right. destruct (last (s0 :: ss) ([], [])) as [hs data].
      destruct (log_read (max_by_mtime f0 fs)) as [content|]; [|reflexivity].
      now destruct (contains "Loop time" content).
  - right. rewrite <- E.
    destruct (log_read (max_by_mtime f0 fs)) as [content|]; [|reflexivity].
    now destruct (contains "Loop time" content).
Qed.

End PlotDirectory.

Lemma existing_plots_mono base w w2 :
  incl (plot_dir w) (plot_dir w2) ->
  existing_plots base w <> [] -> existing_plots base w2 <> [].
Proof.
  unfold existing_plots. intros Hi Hne E.
  destruct (filter (fun f => mem f (plot_dir w)) (map (plot_file base) plot_types))
    as [|p ps] eqn:F; [now elim Hne|].
  assert (Hp : In p (filter (fun f => mem f (plot_dir w))
                       (map (plot_file base) plot_types)))
    by (rewrite F; now left).
  apply filter_In in Hp as [Hp1 Hp2].
  assert (Hq : In p (filter (fun f => mem f (plot_dir w2))
                       (map (plot_file base) plot_types))).
  { apply filter_In. split; [assumption|].
    apply mem_In, Hi. now apply mem_In. }
  rewrite E in Hq. destruct Hq.
Qed.

(** X7. Plots are drawn once: when one iteration has reported at least
    one plot for a phase, then, as long as the files it left in PLOT_DIR
    stay there, a later iteration for that phase (whatever the phase
    directory and the process list have become) adds no file and calls
    [create_plot] no more. *)
Theorem reported_plots_are_never_redrawn
    (active active' : list string) (i : nat) (d d' : phase_dir) (w w2 : world) :
  plots (phase_report active i d w) <> [] ->
  incl (plot_dir (fst (fst (process_phase active i d w)))) (plot_dir w2) ->
  fst (fst (process_phase active' i d' w2)) = w2.
Proof.
  intros Hp Hi.
  destruct (reported_plots active i d w) as [E|E]; [now elim Hp|].
  rewrite E in Hp.
  apply (existing_plots_keep active' i d' w2).
  eapply existing_plots_mono; eauto.
Qed.

Lemma reported_plots_are_never_redrawn_witness :
  fst (fst (process_phase [] 1 unreadable_log
              (fst (fst (process_phase ["1"] 1 growing_log empty_world)))))
  = fst (fst (process_phase ["1"] 1 growing_log empty_world)).
Proof.
  apply (reported_plots_are_never_redrawn ["1"] [] 1 growing_log unreadable_log
           empty_world (fst (fst (process_phase ["1"] 1 growing_log empty_world)))).
  - vm_compute. discriminate.
  - apply incl_refl.
Defined.

(** X8. A poll never removes or renames a file of PLOT_DIR: the directory
    after the poll is the directory before it followed by new files, and
    every new file is named phase<k>_latest_<type>.png for a phase number
    k of the poll and one of the four plot types. *)
Theorem poll_only_adds_phase_plots
    (pipeline lmp : run_result) (dirs : list phase_dir) (w : world) :
  exists added,
    plot_dir (fst (get_simulation_status pipeline lmp dirs w)) = plot_dir w ++ added
    /\ forall f, In f added ->
         exists k t, 1 <= k <= List.length dirs /\ In t plot_types
                     /\ f = plot_file (plot_base_of k) t.
Proof.
  unfold get_simulation_status.
  destruct (process_phases_plot_dir (active_lammps_of lmp) dirs 1 w) as (added & E & H).
  destruct (process_phases (active_lammps_of lmp) 1 dirs w) as [[w' infos] c].
  cbn [fst] in *. exists added. split; [exact E|].
  intros f Hf. destruct (H f Hf) as (k & t & Hk & Ht & ->).
  exists (S k), t. repeat split; [lia | lia | assumption].
Qed.

Section DrawColumns.

Variable drawn : string -> drawing.
Variable filename : string.

Lemma draw_columns_all_saved cols :
  (forall c, In c cols -> drawn c = Saved) ->
  draw_columns drawn filename cols = (map (plot_file filename) cols, true).
Proof.
  induction cols as [|col cols IH]; intros H; [reflexivity|].
  cbn [draw_columns map]. rewrite (H col (or_introl eq_refl)).
  rewrite IH; [reflexivity|]. intros c Hc. apply H. now right.
Qed.

Lemma draw_columns_first_error pre col post file_left :
  (forall c, In c pre -> drawn c = Saved) ->
  drawn col = DrawError file_left ->
  draw_columns drawn filename (pre ++ col :: post)
  = (map (plot_file filename) pre
     ++ (if file_left then [plot_file filename col] else []), false).
Proof.
  intros Hpre Hcol. induction pre as [|p pre IH]; cbn [app draw_columns map].
  - now rewrite Hcol.
  - rewrite (Hpre p (or_introl eq_refl)).
    rewrite IH; [reflexivity|]. intros c Hc. apply Hpre. now right.
Qed.

Lemma draw_columns_ok cols :
  snd (draw_columns drawn filename cols) = true
  <-> forall c, In c cols -> drawn c = Saved.
Proof.
  induction cols as [|col cols IH]; cbn [draw_columns].
  - split; [intros _ c [] | reflexivity].
  - destruct (drawn col) as [|l] eqn:E.
    + destruct (draw_columns drawn filename cols) as [files ok]. cbn [snd] in *.
      rewrite IH. split.
      * intros H c [<-|Hc]; [exact E | now apply H].
      * intros H c Hc. apply H. now right.
    + cbn [snd]. split; [discriminate|].
      intros H. specialize (H col (or_introl eq_refl)). congruence.
Qed.

End DrawColumns.

Lemma frame_ok_section (s : section) :
  section_ok s -> frame_ok (snd s) (fst s) = true.
Proof.
  intros [Hne Hrows]. unfold frame_ok.
  destruct (snd s) as [|r rs]; [reflexivity|].
  apply Nat.eqb_eq.
  assert (H : forall l : list row,
             Forall (fun r : row => List.length r = List.length (fst s)) l ->
             l <> [] ->
             list_max (map (fun r : row => List.length r) l) = List.length (fst s)).
  { induction l as [|x l IH]; intros Hl Hn; [now elim Hn|].
    inversion Hl; subst. cbn [map list_max fold_right].
    destruct l as [|y l].
    - cbn. lia.
    - change (fold_right Nat.max 0 (map (fun r : row => List.length r) (y :: l)))
        with (list_max (map (fun r : row => List.length r) (y :: l))).
      rewrite IH; [lia | assumption | discriminate]. }
  apply H; [assumption | discriminate].
Qed.

(** X9. [create_plot] never fails on the shape of what the parser
    returns.  For a section returned by [parse_lammps_log] it returns True
    exactly when no plot column is among the header tokens, or "Step" is
    one of them and every plot column present is drawn and saved.  Without
    a token "Step" it leaves no file; with it, it leaves the files of the
    columns drawn before the first turn that raises (all of them when
    none does), and the file of that turn if [plt.savefig] left one. *)
Theorem create_plot_on_parsed_section
    (f : read_result) (s : section) (title filename : string) (w : world) :
  In s (parse_lammps_log f) ->
  let call := mkCall (snd s) (fst s) title filename in
  let after := create_plot (snd s) (fst s) title filename w in
  (snd after = true
   <-> plot_columns (fst s) = []
       \/ (In "Step" (fst s)
           /\ forall col, In col (plot_columns (fst s)) -> draw w call col = Saved))
  /\ (~ In "Step" (fst s) -> plot_dir (fst after) = plot_dir w)
  /\ (In "Step" (fst s) ->
      (forall col, In col (plot_columns (fst s)) -> draw w call col = Saved) ->
      plot_dir (fst after)
      = plot_dir w ++ map (plot_file filename) (plot_columns (fst s)))
  /\ (In "Step" (fst s) ->
      forall pre col post file_left,
        plot_columns (fst s) = pre ++ col :: post ->
        (forall c, In c pre -> draw w call c = Saved) ->
        draw w call col = DrawError file_left ->
        plot_dir (fst after)
        = plot_dir w
          ++ map (plot_file filename) pre
          ++ (if file_left then [plot_file filename col] else [])).
Proof.
  intros Hs call after.
  assert (Hok : Forall section_ok (parse_lammps_log f)).
  { destruct f as [text|]; cbn; [|constructor].
    apply flush_ok, fold_parse_line_inv, parser_inv_init. }
  rewrite Forall_forall in Hok.
  pose proof (frame_ok_section s (Hok s Hs)) as Hframe.
  subst after. unfold create_plot. fold (plot_columns (fst s)). fold call.
  rewrite Hframe. cbn [negb].
  destruct (plot_columns (fst s)) as [|c cs] eqn:Hcols.
  - cbn [fst snd plot_dir]. rewrite app_nil_r. repeat split.
    + now left.
    + intros _ _. cbn. now rewrite app_nil_r.
    + intros _ pre col post l E. now destruct pre.
  - destruct (mem "Step" (fst s)) eqn:Hstep.
    + apply mem_In in Hstep.
      pose proof (draw_columns_ok (draw w call) filename (c :: cs)) as Hiff.
      split; [|split; [|split]].
      * destruct (draw_columns (draw w call) filename (c :: cs)) as [files ok].
        cbn [snd] in *. rewrite Hiff. split.
        -- intros H. right. now split.
        -- intros [H|[_ H]]; [discriminate H | exact H].
      * intros Hn. now elim Hn.
      * intros _ Hall. now rewrite (draw_columns_all_saved _ _ _ Hall).
      * intros _ pre col post l E Hpre Hcol. rewrite E.
        now rewrite (draw_columns_first_error _ _ pre col post l Hpre Hcol).
    + cbn [fst snd plot_dir]. rewrite app_nil_r.
      assert (Hn : ~ In "Step" (fst s)).
      { intros H. apply mem_In in H. congruence. }
      split; [|split; [|split]].
      * split; [discriminate|]. intros [H|[H _]]; [discriminate H | now elim Hn].
      * reflexivity.
      * intros H. now elim Hn.
      * intros H. now elim Hn.
Qed.

Lemma create_plot_on_parsed_section_witness :
  (snd (create_plot (snd overflow_section) (fst overflow_section)
          "Phase 1" "phase1_latest" press_overflow_world) = true
   <-> plot_columns (fst overflow_section) = []
       \/ (In "Step" (fst overflow_section)
           /\ forall col, In col (plot_columns (fst overflow_section)) ->
                draw press_overflow_world
                  (mkCall (snd overflow_section) (fst overflow_section)
                     "Phase 1" "phase1_latest") col = Saved))
  /\ (~ In "Step" (fst overflow_section) ->
      plot_dir (fst (create_plot (snd overflow_section) (fst overflow_section)
                       "Phase 1" "phase1_latest" press_overflow_world))
      = plot_dir press_overflow_world)
  /\ (In "Step" (fst overflow_section) ->
      (forall col, In col (plot_columns (fst overflow_section)) ->
         draw press_overflow_world
           (mkCall (snd overflow_section) (fst overflow_section)
              "Phase 1" "phase1_latest") col = Saved) ->
      plot_dir (fst (create_plot (snd overflow_section) (fst overflow_section)
                       "Phase 1" "phase1_latest" press_overflow_world))
      = plot_dir press_overflow_world
        ++ map (plot_file "phase1_latest") (plot_columns (fst overflow_section)))
  /\ (In "Step" (fst overflow_section) ->
      forall pre col post file_left,
        plot_columns (fst overflow_section) = pre ++ col :: post ->
        (forall c, In c pre ->
           draw press_overflow_world
             (mkCall (snd overflow_section) (fst overflow_section)
                "Phase 1" "phase1_latest") c = Saved) ->
        draw press_overflow_world
          (mkCall (snd overflow_section) (fst overflow_section)
             "Phase 1" "phase1_latest") col = DrawError file_left ->
        plot_dir (fst (create_plot (snd overflow_section) (fst overflow_section)
                         "Phase 1" "phase1_latest" press_overflow_world))
        = plot_dir press_overflow_world
          ++ map (plot_file "phase1_latest") pre
          ++ (if file_left then [plot_file "phase1_latest" col] else [])).
Proof.
  apply (create_plot_on_parsed_section
           (ReadOk (text_of_lines ["Step Temp Press"; "0 300 1e308"; "1 301 -1e308"]))
           overflow_section "Phase 1" "phase1_latest" press_overflow_world).
  vm_compute. left. reflexivity.
Defined.

(** The pressure column overflows the axis: the temperature plot is saved,
    the pressure plot is not, and [create_plot] returns False. *)
Example overflowing_pressure_plot :
  create_plot (snd overflow_section) (fst overflow_section)
    "Phase 1" "phase1_latest" press_overflow_world
  = (mkWorld ["phase1_latest_Temp.png"]
       [mkCall (snd overflow_section) (fst overflow_section) "Phase 1" "phase1_latest"]
       (draw press_overflow_world),
     false).
Proof. reflexivity. Qed.

Section PollSummary.

(** What one iteration adds to [completed_phases], against what it
    reports. *)
Lemma process_phase_completed active i d w :
  let '(_, info, c) := process_phase active i d w in
  (c = 1 /\ status info = Complete /\ progress info = 100%Q)
  \/ (c = 0 /\ status info <> Complete
      /\ (0 <= progress info)%Q /\ (progress info <= 95)%Q).
Proof.
  unfold process_phase.
  assert (H0 : (0 <= 0)%Q /\ (0 <= 95)%Q) by (split; discriminate).
  destruct (dir_exists d); [|right; repeat split; try easy].
  destruct (logs_exists d); [|right; repeat split; try easy].
  destruct (logs_glob d) as [|f0 fs]; [right; repeat split; try easy|].
  destruct (complete_exists d); [now left|].
  destruct (match existing_plots _ w with [] => _ | _ :: _ => _ end) as [w' plots'].
  destruct (log_read (max_by_mtime f0 fs)) as [content|].
  - destruct (contains "Loop time" content); [now left|].
    right. cbn [status progress]. repeat split.
    + unfold running_or_paused. now destruct (mem (str i) active).
    + apply Qle_trans with 10%Q; [discriminate | apply estimate_progress_bounds].
    + apply estimate_progress_bounds.
  - right; repeat split; try easy.
Qed.

Lemma sum_progress_acc infos : forall acc,
  (fold_left (fun a p => a + progress p) infos acc
   == acc + fold_left (fun a p => a + progress p) infos 0)%Q.
Proof.
  induction infos as [|p infos IH]; intros acc; cbn [fold_left].
  - lra.
  - rewrite (IH (acc + progress p)%Q), (IH (0 + progress p)%Q). lra.
Qed.

Lemma sum_progress_cons p infos :
  (sum_progress (p :: infos) == progress p + sum_progress infos)%Q.
Proof.
  unfold sum_progress. cbn [fold_left].
  rewrite sum_progress_acc. lra.
Qed.

(** The counter equals the number of Complete phases; the progress sum is
    bounded by 100 per Complete phase and 95 per other phase. *)
Lemma process_phases_summary active dirs : forall i w,
  let '(_, infos, c) := process_phases active i dirs w in
  List.length infos = List.length dirs
  /\ c <= List.length dirs
  /\ (c = List.length dirs -> Forall (fun p => status p = Complete) infos)
  /\ (Forall (fun p => status p = Complete) infos -> c = List.length dirs)
  /\ (0 <= sum_progress infos)%Q
  /\ (sum_progress infos
      <= 100 * inject_Z (Z.of_nat c)
         + 95 * inject_Z (Z.of_nat (List.length dirs - c)))%Q.
Proof.
  induction dirs as [|d0 dirs IH]; intros i w.
  - cbn. repeat split; auto; try discriminate.
  - cbn [process_phases].
    pose proof (process_phase_completed active i d0 w) as H1.
    destruct (process_phase active i d0 w) as [[w1 info] c1].
    specialize (IH (S i) w1).
    destruct (process_phases active (S i) dirs w1) as [[w2 infos] cs].
    destruct IH as (Hlen & Hle & Hall & Hall' & Hlow & Hup).
    cbn [List.length].
    assert (Hsum := sum_progress_cons info infos).
    destruct H1 as [(-> & Hs & Hp)|(-> & Hs & Hp0 & Hp95)].
    + repeat split.
      * now rewrite Hlen.
      * lia.
      * intros E. constructor; [assumption | apply Hall; lia].
      * intros F. inversion F; subst. rewrite Hall' by assumption. lia.
      * rewrite Hsum, Hp. lra.
      * rewrite Hsum, Hp.
        replace (S (List.length dirs) - (1 + cs)) with (List.length dirs - cs) by lia.
        replace (Z.of_nat (1 + cs)) with (1 + Z.of_nat cs)%Z by lia.
        rewrite inject_Z_plus. change (inject_Z 1) with 1%Q.
        set (a := inject_Z (Z.of_nat cs)) in *.
        set (b := inject_Z (Z.of_nat (List.length dirs - cs))) in *. lra.
    + repeat split.
      * now rewrite Hlen.
      * lia.
      * intros E. lia.
      * intros F. inversion F; subst. contradiction.
      * rewrite Hsum. lra.
      * rewrite Hsum. cbn [Nat.add].
        replace (S (List.length dirs) - cs) with (S (List.length dirs - cs)) by lia.
        replace (Z.of_nat (S (List.length dirs - cs)))
          with (1 + Z.of_nat (List.length dirs - cs))%Z by lia.
        rewrite inject_Z_plus. change (inject_Z 1) with 1%Q.
        set (a := inject_Z (Z.of_nat cs)) in *.
        set (b := inject_Z (Z.of_nat (List.length dirs - cs))) in *. lra.
Qed.

End PollSummary.

(** X10. With the four phase directories of PHASE_DIRS, the overall
    progress of a poll lies within [0, 100], and it is 100 exactly when
    all four phases are reported Complete. *)
Theorem overall_progress_bounds
    (pipeline lmp : run_result) (dirs : list phase_dir) (w : world) :
  List.length dirs = 4 ->
  let report := snd (get_simulation_status pipeline lmp dirs w) in
  (0 <= overall_progress report)%Q
  /\ (overall_progress report <= 100)%Q
  /\ ((overall_progress report == 100)%Q
      <-> Forall (fun p => status p = Complete) (phases report)).
Proof.
  intros Hlen. unfold get_simulation_status.
  pose proof (process_phases_summary (active_lammps_of lmp) dirs 1 w) as H.
  destruct (process_phases (active_lammps_of lmp) 1 dirs w) as [[w' infos] c].
  destruct H as (Hl & Hle & Hall & Hall' & Hlow & Hup).
  rewrite Hlen in *. cbn [snd overall_progress phases].
  destruct (c =? 4)%nat eqn:E.
  - apply Nat.eqb_eq in E. subst c.
    repeat split; try discriminate; try reflexivity. intros _. now apply Hall.
  - apply Nat.eqb_neq in E.
    assert (Hc : (inject_Z (Z.of_nat c) <= 3)%Q).
    { replace 3%Q with (inject_Z 3) by reflexivity.
      rewrite <- Zle_Qle. lia. }
    assert (Hd : (inject_Z (Z.of_nat (4 - c)) == 4 - inject_Z (Z.of_nat c))%Q).
    { replace (Z.of_nat (4 - c)) with (4 - Z.of_nat c)%Z by lia.
      unfold Z.sub. rewrite inject_Z_plus, inject_Z_opp. reflexivity. }
    rewrite Hd in Hup.
    assert (Hs : (sum_progress infos <= 395)%Q) by lra.
    unfold Qdiv. change (/ 4)%Q with (1 # 4)%Q.
    repeat split.
    + lra.
    + lra.
    + intros Eq. lra.
    + intros F. exfalso. apply E. now apply Hall'.
Qed.

Lemma overall_progress_bounds_witness :
  let report :=
    snd (get_simulation_status RunError pgrep_1_4711
           [growing_log; flag_with_log; no_dir; unreadable_log] empty_world) in
  (0 <= overall_progress report)%Q
  /\ (overall_progress report <= 100)%Q
  /\ ((overall_progress report == 100)%Q
      <-> Forall (fun p => status p = Complete) (phases report)).
Proof.
  apply (overall_progress_bounds RunError pgrep_1_4711
           [growing_log; flag_with_log; no_dir; unreadable_log] empty_world).
  reflexivity.
Defined.

(** X11. A poll reports one entry per phase directory, in order, numbered
    from 1. *)
Theorem phases_are_numbered_from_one
    (pipeline lmp : run_result) (dirs : list phase_dir) (w : world) :
  map phase (polled_phases pipeline lmp dirs w) = seq 1 (List.length dirs).
Proof.
  rewrite polled_phases_eq. generalize 1 as i. revert w.
  induction dirs as [|d0 dirs IH]; intros w i; [reflexivity|].
  cbn [process_phases].
  pose proof (phase_report_phase (active_lammps_of lmp) i d0 w) as Hp.
  unfold phase_report in Hp.
  destruct (process_phase (active_lammps_of lmp) i d0 w) as [[w1 info] c].
  specialize (IH w1 (S i)).
  destruct (process_phases (active_lammps_of lmp) (S i) dirs w1) as [[w2 infos] cs].
  cbn in *. now rewrite Hp, IH.
Qed.

(** X12. When [pgrep -f lmp] finds no process or cannot be run, the poll
    counts no active process and reports no phase as Running; a phase
    that would be Running is reported Paused. *)
Theorem no_running_phase_without_processes
    (pipeline lmp : run_result) (dirs : list phase_dir) (w : world)
    (info : phase_info) :
  pgrep_failed lmp ->
  In info (polled_phases pipeline lmp dirs w) ->
  active_lammps_count (snd (get_simulation_status pipeline lmp dirs w)) = 0
  /\ status info <> Running.
Proof.
  intros Hf Hin.
  assert (Ha : active_lammps_of lmp = []).
  { destruct Hf as [->|(rc & out & -> & Hrc)]; [reflexivity|].
    cbn. apply Z.eqb_neq in Hrc. now rewrite Hrc. }
  split.
  - unfold get_simulation_status. rewrite Ha.
    now destruct (process_phases [] 1 dirs w) as [[w' infos] c].
  - rewrite polled_phases_eq, Ha in Hin.
    destruct (process_phases_In _ _ _ _ _ Hin) as (j & d & wj & _ & ->).
    destruct (phase_report_cases [] j wj d)
      as [[Hs _]|[[Hs _]|[[Hs _]|(content & Hs & _)]]]; rewrite Hs; discriminate.
Qed.

Lemma no_running_phase_without_processes_witness :
  active_lammps_count
    (snd (get_simulation_status RunError (Ran 1 "")
            [growing_log; no_dir; no_dir; no_dir] empty_world)) = 0
  /\ status (mkInfo 2 NotStarted 0 [] [] None) <> Running.
Proof.
  apply (no_running_phase_without_processes RunError (Ran 1 "")
           [growing_log; no_dir; no_dir; no_dir] empty_world
           (mkInfo 2 NotStarted 0 [] [] None)).
  - right. exists 1%Z, "". split; [reflexivity | discriminate].
  - vm_compute. right. left. reflexivity.
Defined.

(** X13. A phase with log files and no COMPLETE file whose latest log is
    read without error and holds "Loop time" is reported Complete with
    progress 100, whatever processes are active and whatever the older
    logs hold. *)
Theorem completion_marker_gives_complete
    (pipeline lmp : run_result) (dirs : list phase_dir) (w : world)
    (k : nat) (d : phase_dir) (f0 : log_file) (fs : list log_file)
    (content : string) :
  nth_error dirs k = Some d ->
  dir_exists d = true ->
  logs_exists d = true ->
  logs_glob d = f0 :: fs ->
  complete_exists d = false ->
  log_read (max_by_mtime f0 fs) = ReadOk content ->
  contains "Loop time" content = true ->
  exists info,
    nth_error (polled_phases pipeline lmp dirs w) k = Some info
    /\ phase info = S k
    /\ status info = Complete
    /\ progress info = 100%Q.
Proof.
  intros Hk Hd Hl Hg Hc Hr Hm. rewrite polled_phases_eq.
  destruct (process_phases_nth (active_lammps_of lmp) dirs 1 w k d Hk) as (wk & E).
  cbn [Nat.add] in E. eexists; split; [exact E|].
  split; [apply phase_report_phase|].
  unfold phase_report, process_phase. rewrite Hd, Hl, Hg, Hc, Hr, Hm.
  now destruct (match existing_plots _ wk with [] => _ | _ :: _ => _ end).
Qed.

Lemma completion_marker_gives_complete_witness :
  exists info,
    nth_error
      (polled_phases RunError pgrep_1_4711
         [no_dir; finished_log; no_dir; no_dir] empty_world) 1
    = Some info
    /\ phase info = 2
    /\ status info = Complete
    /\ progress info = 100%Q.
Proof.
  refine (completion_marker_gives_complete RunError pgrep_1_4711
            [no_dir; finished_log; no_dir; no_dir] empty_world 1 finished_log
            _ _ _ _ _ _ _ _ _ _); reflexivity.
Defined.

Section ProgressEstimate.

Lemma clamp_low x : (x <= 10)%Q -> clamp x = 10%Q.
Proof.
  intros H. unfold clamp, py_max, py_min.
  apply Qle_bool_iff in H. rewrite H. reflexivity.
Qed.

Lemma clamp_high x : (95 <= x)%Q -> (clamp x == 95)%Q.
Proof.
  intros H. unfold clamp, py_max, py_min.
  destruct (Qle_bool x 10) eqn:E.
  - apply Qle_bool_iff in E. lra.
  - destruct (Qle_bool 95 x) eqn:E2; [reflexivity|].
    apply Qle_bool_iff in H. congruence.
Qed.

Lemma clamp_mid x : (10 < x)%Q -> (x < 95)%Q -> clamp x = x.
Proof.
  intros H1 H2. unfold clamp, py_max, py_min.
  destruct (Qle_bool x 10) eqn:E; [apply Qle_bool_iff in E; lra|].
  destruct (Qle_bool 95 x) eqn:E2; [apply Qle_bool_iff in E2; lra | reflexivity].
Qed.

Lemma clamp_mono x y : (x <= y)%Q -> (clamp x <= clamp y)%Q.
Proof.
  intros H.
  destruct (Qlt_le_dec 10 x) as [Hx|Hx]; destruct (Qlt_le_dec x 95) as [Hx'|Hx'];
  destruct (Qlt_le_dec 10 y) as [Hy|Hy]; destruct (Qlt_le_dec y 95) as [Hy'|Hy'];
    try lra;
    repeat match goal with
    | H1 : (10 < ?a)%Q, H2 : (?a < 95)%Q |- context [clamp ?a] =>
        rewrite (clamp_mid a H1 H2)
    | H1 : (?a <= 10)%Q |- context [clamp ?a] => rewrite (clamp_low a H1)
    | H1 : (95 <= ?a)%Q |- context [clamp ?a] => rewrite (clamp_high a H1)
    end; lra.
Qed.

Lemma raw_estimate_eq n : (raw_estimate n == inject_Z (Z.of_nat n) * (1 # 100))%Q.
Proof.
  unfold raw_estimate, Qdiv. change (/ 10000)%Q with (1 # 10000)%Q.
  set (a := inject_Z (Z.of_nat n)). lra.
Qed.

Lemma raw_estimate_le n m : n <= m -> (raw_estimate n <= raw_estimate m)%Q.
Proof.
  intros H. rewrite !raw_estimate_eq.
  assert (inject_Z (Z.of_nat n) <= inject_Z (Z.of_nat m))%Q
    by (rewrite <- Zle_Qle; lia).
  lra.
Qed.

Lemma raw_estimate_lt n m : n < m -> (raw_estimate n < raw_estimate m)%Q.
Proof.
  intros H. rewrite !raw_estimate_eq.
  assert (inject_Z (Z.of_nat n) < inject_Z (Z.of_nat m))%Q
    by (rewrite <- Zlt_Qlt; lia).
  lra.
Qed.

Lemma raw_estimate_1000 : (raw_estimate 1000 == 10)%Q.
Proof. reflexivity. Qed.

Lemma raw_estimate_9500 : (raw_estimate 9500 == 95)%Q.
Proof. reflexivity. Qed.

End ProgressEstimate.

(** X14. The progress estimate depends on the length of the latest log
    only and never decreases as the log grows; it is 10 up to 1000
    characters, strictly between 10 and 95 from 1001 to 9499 characters,
    and 95 from 9500 characters on. *)
Theorem estimate_progress_shape (c1 c2 : string) :
  (String.length c1 <= String.length c2 ->
   (estimate_progress c1 <= estimate_progress c2)%Q)
  /\ (String.length c1 <= 1000 -> (estimate_progress c1 == 10)%Q)
  /\ (1000 < String.length c1 < 9500 ->
      (10 < estimate_progress c1)%Q /\ (estimate_progress c1 < 95)%Q)
  /\ (9500 <= String.length c1 -> (estimate_progress c1 == 95)%Q).
Proof.
  change (estimate_progress c1) with (clamp (raw_estimate (String.length c1))).
  change (estimate_progress c2) with (clamp (raw_estimate (String.length c2))).
  repeat split.
  - intros H. now apply clamp_mono, raw_estimate_le.
  - intros H. rewrite clamp_low; [reflexivity|].
    rewrite <- raw_estimate_1000. now apply raw_estimate_le.
  - rewrite clamp_mid.
    + rewrite <- raw_estimate_1000. apply raw_estimate_lt. lia.
    + rewrite <- raw_estimate_1000. apply raw_estimate_lt. lia.
    + rewrite <- raw_estimate_9500. apply raw_estimate_lt. lia.
  - rewrite clamp_mid.
    + rewrite <- raw_estimate_9500. apply raw_estimate_lt. lia.
    + rewrite <- raw_estimate_1000. apply raw_estimate_lt. lia.
    + rewrite <- raw_estimate_9500. apply raw_estimate_lt. lia.
  - intros H. apply clamp_high.
    rewrite <- raw_estimate_9500. now apply raw_estimate_le.
Qed.

(** X15. The status of a phase follows a fixed table: Not Started
    without a directory, a logs directory or a log file; else Complete
    with the COMPLETE file; else by the newest log: Unknown when it
    cannot be read, Complete when it holds "Loop time", and otherwise
    Running or Paused by the process list. Nothing else (older logs,
    plots, the pipeline process) has a say. *)
Theorem status_follows_the_table
    (pipeline lmp : run_result) (dirs : list phase_dir) (w : world) :
  map status (polled_phases pipeline lmp dirs w)
  = map (fun kd => expected_status (active_lammps_of lmp) (fst kd) (snd kd))
      (combine (seq 1 (List.length dirs)) dirs).
Proof.
  rewrite polled_phases_eq. generalize 1 as i. revert w.
  induction dirs as [|d0 dirs IH]; intros w i; [reflexivity|].
  cbn [process_phases List.length seq combine map].
  assert (Hs : status (phase_report (active_lammps_of lmp) i d0 w)
               = expected_status (active_lammps_of lmp) i d0).
  { unfold phase_report, process_phase, expected_status, has_logs, latest_read.
    destruct (dir_exists d0); [|reflexivity].
    destruct (logs_exists d0); [|reflexivity].
    destruct (logs_glob d0) as [|f0 fs]; [reflexivity|]. cbn [andb negb].
    destruct (complete_exists d0); [reflexivity|].
    destruct (match existing_plots _ w with [] => _ | _ :: _ => _ end) as [w' plots'].
    destruct (log_read (max_by_mtime f0 fs)) as [content|]; [|reflexivity].
    now destruct (contains "Loop time" content). }
  unfold phase_report in Hs.
  destruct (process_phase (active_lammps_of lmp) i d0 w) as [[w1 info] c].
  specialize (IH w1 (S i)).
  destruct (process_phases (active_lammps_of lmp) (S i) dirs w1) as [[w2 infos] cs].
  cbn in *. now rewrite Hs, IH.
Qed.


(* ===================================================================== *)
(** ** py_phase4.py: the peaks of the RDF *)
(* ===================================================================== *)

Section Peaks.

Import Stats.

Lemma Qlt_bool_iff a b : Qlt_bool a b = true <-> (a < b)%Q.
Proof.
  unfold Qlt_bool. rewrite negb_true_iff. split.
  - intros H. apply Qnot_le_lt. intros L. apply Qle_bool_iff in L. congruence.
  - intros H. destruct (Qle_bool b a) eqn:E; [|reflexivity].
    apply Qle_bool_iff in E. exfalso. revert E. now apply Qlt_not_le.
Qed.

Lemma Qlt_bool_false a b : Qlt_bool a b = false <-> (b <= a)%Q.
Proof.
  unfold Qlt_bool. rewrite negb_false_iff. apply Qle_bool_iff.
Qed.

Lemma is_peak_iff gr i :
  is_peak gr i = true <->
  (at_index gr (i - 1) < at_index gr i)%Q
  /\ (at_index gr (i + 1) < at_index gr i)%Q
  /\ (1 < at_index gr i)%Q.
Proof.
  unfold is_peak. rewrite !andb_true_iff, !Qlt_bool_iff. tauto.
Qed.

Lemma filter_seq_sorted (f : nat -> bool) n : forall a,
  StronglySorted lt (filter f (seq a n)).
Proof.
  induction n as [|n IH]; intros a; cbn; [constructor|].
  destruct (f a); [|apply IH].
  constructor; [apply IH|].
  apply Forall_forall. intros x Hx. apply filter_In in Hx as [Hx _].
  apply in_seq in Hx. lia.
Qed.

Lemma sorted_app_lt (l1 l2 : list nat) :
  StronglySorted lt (l1 ++ l2) ->
  forall x y, In x l1 -> In y l2 -> x < y.
Proof.
  induction l1 as [|a l1 IH]; intros Hs x y Hx Hy; [destruct Hx|].
  cbn in Hs. inversion Hs as [|? ? Hs' Hall]; subst.
  destruct Hx as [<-|Hx].
  - rewrite Forall_forall in Hall. apply Hall, in_or_app. now right.
  - now apply IH.
Qed.

End Peaks.

(** X16. The peaks found in the RDF are exactly the interior indices
    whose value is above both neighbours and above 1; they come in
    increasing order, and no two of them are adjacent. *)
Theorem peak_indices_characterised (gr : list Q) (i : nat) :
  (In i (Stats.peak_indices gr) <->
     1 <= i /\ i + 1 < List.length gr
     /\ (Stats.at_index gr (i - 1) < Stats.at_index gr i)%Q
     /\ (Stats.at_index gr (i + 1) < Stats.at_index gr i)%Q
     /\ (1 < Stats.at_index gr i)%Q)
  /\ StronglySorted lt (Stats.peak_indices gr)
  /\ (In i (Stats.peak_indices gr) -> ~ In (S i) (Stats.peak_indices gr)).
Proof.
  assert (Hspec : forall j,
             In j (Stats.peak_indices gr) <->
             (1 <= j /\ j + 1 < List.length gr) /\ Stats.is_peak gr j = true).
  { intros j. unfold Stats.peak_indices. rewrite filter_In, in_seq.
    split; intros [H1 H2]; (split; [lia | assumption]). }
  repeat split.
  - apply Hspec in H. lia.
  - apply Hspec in H. lia.
  - apply Hspec in H. destruct H as [_ H]. now apply is_peak_iff in H.
  - apply Hspec in H. destruct H as [_ H]. now apply is_peak_iff in H.
  - apply Hspec in H. destruct H as [_ H]. now apply is_peak_iff in H.
  - intros (H1 & H2 & H3). apply Hspec. split; [lia|]. now apply is_peak_iff.
  - apply filter_seq_sorted.
  - intros Hi Hsi. apply Hspec in Hi as [_ Hi]. apply Hspec in Hsi as [_ Hsi].
    apply is_peak_iff in Hi as (_ & Hi & _).
    apply is_peak_iff in Hsi as (Hsi & _ & _).
    replace (S i - 1) with i in Hsi by lia.
    replace (i + 1) with (S i) in Hi by lia.
    revert Hi. apply Qle_not_lt. now apply Qlt_le_weak.
Qed.

(** X17. At most five peaks are labelled, and they are the first five in
    order of position, not the five highest: every labelled index is a
    peak, and a peak at a smaller index than a labelled one is labelled
    too. *)
Theorem labelled_peaks_are_the_first_five (gr : list Q) :
  List.length (Stats.labelled_peaks gr) <= 5
  /\ (forall i, In i (Stats.labelled_peaks gr) -> In i (Stats.peak_indices gr))
  /\ (forall i j, In i (Stats.labelled_peaks gr) ->
                  In j (Stats.peak_indices gr) -> j < i ->
                  In j (Stats.labelled_peaks gr)).
Proof.
  unfold Stats.labelled_peaks. repeat split.
  - apply firstn_le_length.
  - intros i Hi.
    rewrite <- (firstn_skipn 5 (Stats.peak_indices gr)). apply in_or_app. now left.
  - intros i j Hi Hj Hlt.
    pose proof (filter_seq_sorted (Stats.is_peak gr) (List.length gr - 2) 1) as Hs.
    fold (Stats.peak_indices gr) in Hs.
    rewrite <- (firstn_skipn 5 (Stats.peak_indices gr)) in Hs, Hj.
    apply in_app_or in Hj as [Hj|Hj]; [assumption|].
    pose proof (sorted_app_lt _ _ Hs i j Hi Hj). lia.
Qed.

(** Six peaks of growing height: the sixth and highest gets no label. *)
Example sixth_peak_is_not_labelled :
  Stats.peak_indices [0; 2; 0; 3; 0; 4; 0; 5; 0; 6; 0; 9; 0]%Q = [1; 3; 5; 7; 9; 11]
  /\ Stats.labelled_peaks [0; 2; 0; 3; 0; 4; 0; 5; 0; 6; 0; 9; 0]%Q = [1; 3; 5; 7; 9].
Proof. split; reflexivity. Qed.

(* ===================================================================== *)
(** ** py_phase4.py: the energies of the thermodynamics file *)
(* ===================================================================== *)

Section Energies.

Import Stats.

Lemma scan_lines_filter lines : forall e,
  scan_lines lines e
  = scan_lines (filter (fun l => contains "Energy_Total:" l) lines) e.
Proof.
  induction lines as [|l lines IH]; intros e; [reflexivity|].
  cbn [scan_lines filter]. destruct (contains "Energy_Total:" l) eqn:E.
  - cbn [scan_lines]. rewrite E.
    destruct (scan_parts (split l) e); [apply IH | reflexivity].
  - apply IH.
Qed.

Lemma float_not_key x v :
  float x = Some v ->
  String.eqb x "Energy_Total:" = false
  /\ String.eqb x "Energy_Nano:" = false
  /\ String.eqb x "Formation_Energy:" = false
  /\ String.eqb x "Surface_Energy:" = false.
Proof.
  intros H. pose proof (float_chars x v H) as Hc.
  repeat split; apply String.eqb_neq; intros ->;
    match goal with
    | _ : all_float_chars ?s |- _ =>
        assert (Hbad : float_char ":"%char = true)
          by (apply Hc; cbn; tauto)
    end; discriminate Hbad.
Qed.

End Energies.

(** X18. Only lines that contain "Energy_Total:" are looked at: the other
    lines of the thermodynamics file change nothing, so values that
    stand on lines of their own next to "Energy_Nano:",
    "Formation_Energy:" or "Surface_Energy:" are never read. *)
Theorem only_energy_total_lines_are_read (lines : list string) :
  Stats.extract_energies lines
  = Stats.extract_energies
      (filter (fun l => contains "Energy_Total:" l) lines)
  /\ (Forall (fun l => contains "Energy_Total:" l = false) lines ->
      Stats.extract_energies lines = Stats.Ok Stats.no_energies).
Proof.
  unfold Stats.extract_energies. split; [apply scan_lines_filter|].
  intros H. rewrite scan_lines_filter.
  replace (filter (fun l => contains "Energy_Total:" l) lines) with (@nil string);
    [reflexivity|].
  symmetry. induction H as [|l ls Hl _ IH]; [reflexivity|].
  cbn. now rewrite Hl.
Qed.

(** A file with one value per line: only the total energy is read. *)
Example one_value_per_line :
  Stats.extract_energies
    [line "Energy_Total: -1250.5"; line "Energy_Nano: -310.2";
     line "Formation_Energy: -0.0421"; line "Surface_Energy: 0.0713"]
  = Stats.Ok (Stats.mkEnergies (Some (Finite true 12505 (-1))) None None None).
Proof. reflexivity. Qed.

(** X19. A line whose tokens are the four keys, each followed by a token
    [float] accepts, gives all four values. *)
Theorem four_keys_on_one_line_are_read
    (l ta tb tc td : string) (va vb vc vd : pyfloat) :
  split l = ["Energy_Total:"; ta; "Energy_Nano:"; tb;
             "Formation_Energy:"; tc; "Surface_Energy:"; td] ->
  float ta = Some va -> float tb = Some vb ->
  float tc = Some vc -> float td = Some vd ->
  Stats.extract_energies [l]
  = Stats.Ok (Stats.mkEnergies (Some va) (Some vb) (Some vc) (Some vd)).
Proof.
  intros Hs Ha Hb Hc Hd.
  assert (Hin : contains "Energy_Total:" l = true).
  { apply token_contained. rewrite Hs. now left. }
  unfold Stats.extract_energies. cbn [Stats.scan_lines]. rewrite Hin, Hs.
  destruct (float_not_key ta va Ha) as (A1 & A2 & A3 & A4).
  destruct (float_not_key tb vb Hb) as (B1 & B2 & B3 & B4).
  destruct (float_not_key tc vc Hc) as (C1 & C2 & C3 & C4).
  destruct (float_not_key td vd Hd) as (D1 & D2 & D3 & D4).
  cbn [Stats.scan_parts Stats.next_float String.eqb Ascii.eqb Bool.eqb].
  rewrite Ha, A1, A2, A3, A4. cbn [Stats.scan_parts Stats.next_float].
  cbn [String.eqb Ascii.eqb Bool.eqb].
  rewrite Hb, B1, B2, B3, B4. cbn [Stats.scan_parts Stats.next_float].
  cbn [String.eqb Ascii.eqb Bool.eqb].
  rewrite Hc, C1, C2, C3, C4. cbn [Stats.scan_parts Stats.next_float].
  cbn [String.eqb Ascii.eqb Bool.eqb].
  rewrite Hd, D1, D2, D3, D4. reflexivity.
Qed.

Lemma four_keys_on_one_line_are_read_witness :
  Stats.extract_energies
    [line "Energy_Total: -1250.5 Energy_Nano: -310.2 Formation_Energy: -0.0421 Surface_Energy: 0.0713"]
  = Stats.Ok
      (Stats.mkEnergies (Some (Finite true 12505 (-1))) (Some (Finite true 3102 (-1)))
         (Some (Finite true 421 (-4))) (Some (Finite false 713 (-4)))).
Proof.
  apply (four_keys_on_one_line_are_read
           (line "Energy_Total: -1250.5 Energy_Nano: -310.2 Formation_Energy: -0.0421 Surface_Energy: 0.0713")
           "-1250.5" "-310.2" "-0.0421" "0.0713"); reflexivity.
Defined.

Section ThermoAnalysis.

Import Stats.

Variable format_float : string -> pyfloat -> string.
Variable exn_message : py_exn -> string.
Variable read_lines : string -> Report.M (list string).
Variable thermo_figures : pyfloat -> pyfloat -> pyfloat -> pyfloat -> Report.M unit.
Variable value : Type.
Variable tuple4 : pyfloat -> pyfloat -> pyfloat -> pyfloat -> value.

Let body :=
  Thermo.thermo_body format_float exn_message read_lines thermo_figures value tuple4.

(** The body returns a value only after reading all four energies. *)
Lemma thermo_body_returns e e' v :
  body e = (e', Report.Returned v) ->
  exists e1 lines t n f s,
    read_lines Report.THERMO_FILE e = (e1, Report.Returned lines)
    /\ extract_energies lines
       = Ok (mkEnergies (Some t) (Some n) (Some f) (Some s))
    /\ v = tuple4 t n f s.
Proof.
  unfold body, Thermo.thermo_body. unfold Report.bind at 1.
  destruct (read_lines Report.THERMO_FILE e) as [e1 [lines|msg]] eqn:Hr;
    [|discriminate].
  unfold Report.bind at 1.
  destruct (extract_energies lines) as [[[t|] [n|] [f|] [s|]]|x] eqn:Hx;
    cbn; try discriminate.
  unfold Report.bind.
  match goal with
  | |- context [thermo_figures t n f s ?x] =>
      destruct (thermo_figures t n f s x) as [e2 [[]|msg]]; [|discriminate]
  end.
  intros H. inversion H; subst.
  exists e1, lines, t, n, f, s.
  split; [reflexivity|]. split; [exact Hx | reflexivity].
Qed.

Lemma analyze_thermodynamics_cases (b : Report.M value) e :
  let e1 := Report.mkEnv (Report.present e)
              (Report.printed e ++ ["Analyzing thermodynamic data..."]) in
  Report.analyze_thermodynamics value b e
  = if Report.present e Report.THERMO_FILE then
      match b e1 with
      | (e', Report.Returned v) => (e', Report.Returned (Some v))
      | (e', Report.Raised msg) =>
          (Report.mkEnv (Report.present e')
             (Report.printed e'
              ++ [("Error processing thermodynamic data: " ++ msg)%string]),
           Report.Returned None)
      end
    else (e1, Report.Returned None).
Proof.
  intros e1. unfold Report.analyze_thermodynamics, Report.bind at 1.
  unfold Report.print at 1. fold e1.
  unfold Report.try_except.
  change (Report.present e1 Report.THERMO_FILE)
    with (Report.present e Report.THERMO_FILE).
  destruct (Report.present e Report.THERMO_FILE); [|reflexivity].
  unfold Report.bind at 1. destruct (b e1) as [e' [v|msg]]; reflexivity.
Qed.

End ThermoAnalysis.

Section ThermoSuccess.

Import Stats.

Variable format_float : string -> pyfloat -> string.
Variable exn_message : py_exn -> string.
Variable read_lines : string -> Report.M (list string).
Variable thermo_figures : pyfloat -> pyfloat -> pyfloat -> pyfloat -> Report.M unit.
Variable value : Type.
Variable tuple4 : pyfloat -> pyfloat -> pyfloat -> pyfloat -> value.

(** What the body has printed when it reaches the figures. *)
Lemma thermo_body_succeeds e e1 lines t n f s :
  read_lines Report.THERMO_FILE e = (e1, Report.Returned lines) ->
  extract_energies lines = Ok (mkEnergies (Some t) (Some n) (Some f) (Some s)) ->
  Thermo.thermo_body format_float exn_message read_lines thermo_figures value tuple4 e
  = match thermo_figures t n f s
            (Report.mkEnv (Report.present e1)
               (Report.printed e1
                ++ ["Thermodynamic results:";
                    ("  Total energy: " ++ format_float ".2f" t ++ " eV")%string;
                    ("  Nanoparticle energy: " ++ format_float ".2f" n ++ " eV")%string;
                    ("  Formation energy: " ++ format_float ".4f" f ++ " eV/atom")%string;
                    ("  Surface energy: " ++ format_float ".6f" s ++ " eV/"
                     ++ Thermo.angstrom2)%string]))
    with
    | (e2, Report.Returned _) => (e2, Report.Returned (tuple4 t n f s))
    | (e2, Report.Raised msg) => (e2, Report.Raised msg)
    end.
Proof.
  intros Hr Hx. unfold Thermo.thermo_body. unfold Report.bind at 1. rewrite Hr.
  unfold Report.bind at 1. rewrite Hx.
  cbn -[Thermo.angstrom2 String.append].
  rewrite <- !app_assoc. cbn [app].
  unfold Report.bind.
  destruct (thermo_figures t n f s _) as [e2 [[]|msg]]; reflexivity.
Qed.

End ThermoSuccess.

(** X20. [analyze_thermodynamics] never raises.  It returns values only
    when the thermodynamics file exists, [readlines] on it returned, and
    all four energies were found on the lines read that contain
    "Energy_Total:"; the values returned are those energies.  Without the
    file it returns None after printing its heading only; and when the
    file is read, the four energies are found and both figures are
    drawn, it returns the four energies. *)
Theorem thermodynamics_needs_all_four_energies
    (format_float : string -> pyfloat -> string)
    (exn_message : Stats.py_exn -> string)
    (read_lines : string -> Report.M (list string))
    (thermo_figures : pyfloat -> pyfloat -> pyfloat -> pyfloat -> Report.M unit)
    (value : Type) (tuple4 : pyfloat -> pyfloat -> pyfloat -> pyfloat -> value)
    (e : Report.env) :
  let run :=
    Thermo.analyze_thermodynamics format_float exn_message read_lines
      thermo_figures value tuple4 e in
  let e0 :=
    Report.mkEnv (Report.present e)
      (Report.printed e ++ ["Analyzing thermodynamic data..."]) in
  (exists r, snd run = Report.Returned r)
  /\ (forall v, snd run = Report.Returned (Some v) ->
        Report.present e Report.THERMO_FILE = true
        /\ exists e1 lines t n f s,
             read_lines Report.THERMO_FILE e0 = (e1, Report.Returned lines)
             /\ Stats.extract_energies lines
                = Stats.Ok (Stats.mkEnergies (Some t) (Some n) (Some f) (Some s))
             /\ v = tuple4 t n f s)
  /\ (Report.present e Report.THERMO_FILE = false ->
      run = (e0, Report.Returned None))
  /\ (forall e1 lines t n f s e2,
        Report.present e Report.THERMO_FILE = true ->
        read_lines Report.THERMO_FILE e0 = (e1, Report.Returned lines) ->
        Stats.extract_energies lines
        = Stats.Ok (Stats.mkEnergies (Some t) (Some n) (Some f) (Some s)) ->
        thermo_figures t n f s
          (Report.mkEnv (Report.present e1)
             (Report.printed e1
              ++ ["Thermodynamic results:";
                  ("  Total energy: " ++ format_float ".2f" t ++ " eV")%string;
                  ("  Nanoparticle energy: " ++ format_float ".2f" n ++ " eV")%string;
                  ("  Formation energy: " ++ format_float ".4f" f ++ " eV/atom")%string;
                  ("  Surface energy: " ++ format_float ".6f" s ++ " eV/"
                   ++ Thermo.angstrom2)%string]))
        = (e2, Report.Returned tt) ->
        run = (e2, Report.Returned (Some (tuple4 t n f s)))).
Proof.
  cbn zeta. unfold Thermo.analyze_thermodynamics.
  rewrite analyze_thermodynamics_cases.
  destruct (Report.present e Report.THERMO_FILE) eqn:Hp.
  - destruct (Thermo.thermo_body format_float exn_message read_lines thermo_figures
                value tuple4 _) as [e' [v|msg]] eqn:Hb; cbn [snd].
    + split; [now eexists|]. split; [|split; [discriminate|]].
      * intros v' Hv. inversion Hv; subst v'. split; [reflexivity|].
        destruct (thermo_body_returns _ _ _ _ _ _ _ _ _ Hb)
          as (e1 & lines & t & n & f & s & Hr & Hx & ->).
        exists e1, lines, t, n, f, s. split; [exact Hr|]. split; [exact Hx | reflexivity].
      * intros e1 lines t n f s e2 _ Hr Hx Hf.
        rewrite (thermo_body_succeeds _ _ _ _ _ _ _ _ _ _ _ _ _ Hr Hx), Hf in Hb.
        now inversion Hb.
    + split; [now eexists|]. split; [discriminate|]. split; [discriminate|].
      intros e1 lines t n f s e2 _ Hr Hx Hf.
      rewrite (thermo_body_succeeds _ _ _ _ _ _ _ _ _ _ _ _ _ Hr Hx), Hf in Hb.
      discriminate Hb.
  - cbn [snd]. split; [now eexists|]. split; [discriminate|].
    split; [reflexivity | discriminate].
Qed.

(** With the four values on one line the analysis prints them, draws the
    figures and returns them. *)
Example four_values_on_one_line_analysis :
  Thermo.analyze_thermodynamics
    (fun spec _ => ("<" ++ spec ++ ">")%string)
    (fun _ => "unsupported format string passed to NoneType.__format__")
    (fun _ => Report.ret
       [line ("Energy_Total: -1250.5 Energy_Nano: -310.2 "
              ++ "Formation_Energy: -0.0421 Surface_Energy: 0.0713")])
    (fun _ _ _ _ => Report.print "(figures)")
    (list pyfloat) (fun t n f s => [t; n; f; s])
    (Report.mkEnv (fun _ => true) [])
  = (Report.mkEnv (fun _ => true)
       ["Analyzing thermodynamic data...";
        "Thermodynamic results:";
        "  Total energy: <.2f> eV";
        "  Nanoparticle energy: <.2f> eV";
        "  Formation energy: <.4f> eV/atom";
        ("  Surface energy: <.6f> eV/" ++ Thermo.angstrom2)%string;
        "(figures)"],
     Report.Returned
       (Some [Finite true 12505 (-1); Finite true 3102 (-1);
              Finite true 421 (-4); Finite false 713 (-4)])).
Proof. reflexivity. Qed.

(** With one value per line the analysis prints its heading and the total
    energy, then the formatting of the missing nanoparticle energy raises:
    it reports the error and returns None. *)
Example one_value_per_line_analysis :
  Thermo.analyze_thermodynamics
    (fun spec _ => ("<" ++ spec ++ ">")%string)
    (fun _ => "unsupported format string passed to NoneType.__format__")
    (fun _ => Report.ret
       [line "Energy_Total: -1250.5"; line "Energy_Nano: -310.2";
        line "Formation_Energy: -0.0421"; line "Surface_Energy: 0.0713"])
    (fun _ _ _ _ => Report.print "(figures)")
    unit (fun _ _ _ _ => tt)
    (Report.mkEnv (fun _ => true) [])
  = (Report.mkEnv (fun _ => true)
       ["Analyzing thermodynamic data...";
        "Thermodynamic results:";
        "  Total energy: <.2f> eV";
        "Error processing thermodynamic data: unsupported format string passed to NoneType.__format__"],
     Report.Returned None).
Proof. reflexivity. Qed.

(* ===================================================================== *)
(** ** py_phase4.py: the time to half ejection, the correlation words *)
(* ===================================================================== *)

Section HalfEjection.

Import Stats.

Lemma max_from_In xs : forall best, In (max_from best xs) (best :: xs).
Proof.
  induction xs as [|x xs IH]; intros best; cbn [max_from]; [now left|].
  destruct (Qlt_bool best x).
  - right. apply IH.
  - destruct (IH best) as [H|H]; [now left | right; now right].
Qed.

Lemma max_from_upper xs : forall best x,
  In x (best :: xs) -> (x <= max_from best xs)%Q.
Proof.
  induction xs as [|y xs IH]; intros best x Hx; cbn [max_from].
  - destruct Hx as [<-|[]]. apply Qle_refl.
  - destruct (Qlt_bool best y) eqn:E.
    + apply Qlt_bool_iff in E.
      destruct Hx as [<-|Hx]; [|now apply IH].
      apply Qle_trans with y; [now apply Qlt_le_weak | apply IH; now left].
    + apply Qlt_bool_false in E.
      destruct Hx as [<-|[<-|Hx]].
      * apply IH. now left.
      * apply Qle_trans with best; [assumption | apply IH; now left].
      * apply IH. now right.
Qed.

Lemma first_reaching_some threshold rows :
  (exists r, In r rows /\ (threshold <= snd r)%Q) ->
  exists t, first_reaching threshold rows = Some t /\ first_at threshold rows t.
Proof.
  induction rows as [|[t ej] rows IH]; intros (r & Hr & Hle); [destruct Hr|].
  cbn [first_reaching]. destruct (Qle_bool threshold ej) eqn:E.
  - apply Qle_bool_iff in E. exists t. split; [reflexivity|].
    exists [], ej, rows. repeat split; [assumption | intros ? []].
  - assert (Hlt : (ej < threshold)%Q).
    { apply Qnot_le_lt. intros L. apply Qle_bool_iff in L. congruence. }
    destruct Hr as [<-|Hr]; [cbn in Hle; exfalso; revert Hle; now apply Qlt_not_le|].
    destruct IH as (t' & Ht & pre & ej' & post & -> & Hge & Hpre); [now exists r|].
    exists t'. split; [assumption|].
    exists ((t, ej) :: pre), ej', post. repeat split; [assumption|].
    intros x [<-|Hx]; [exact Hlt | now apply Hpre].
Qed.

End HalfEjection.

(** X21. The time to half ejection is always found when the largest
    ejected count is positive: it is the time of the first row whose
    count reaches half of the largest, so the cell never reads "N/A".
    When no count is positive the variable is never assigned and building
    the cell raises UnboundLocalError. *)
Theorem half_ejection_time_found_or_unbound
    (format_1f : Q -> string) (rows : list (Q * Q)) :
  rows <> [] ->
  let m := Stats.py_max_list (map snd rows) in
  ((0 < m)%Q ->
   exists t,
     Stats.half_ejection_time rows = Stats.Bound (Some t)
     /\ Stats.first_at (m * (1 # 2)) rows t
     /\ Stats.half_ejection_cell format_1f (Stats.half_ejection_time rows)
        = Stats.Ok (format_1f t))
  /\ ((m <= 0)%Q ->
      Stats.half_ejection_cell format_1f (Stats.half_ejection_time rows)
      = Stats.Err (Stats.UnboundLocalError "half_ejection_time")).
Proof.
  intros Hne m. unfold Stats.half_ejection_time. fold m. split.
  - intros Hpos. assert (E : Stats.Qlt_bool 0 m = true) by now apply Qlt_bool_iff.
    rewrite E.
    destruct (first_reaching_some (m * (1 # 2)) rows) as (t & Ht & Hfirst).
    { destruct rows as [|[t0 e0] rows']; [now elim Hne|].
      assert (Hin : In m (map snd ((t0, e0) :: rows')))
        by (apply (max_from_In (map snd rows') e0)).
      apply in_map_iff in Hin as (r & Hr & Hin).
      exists r. split; [assumption|]. rewrite Hr. lra. }
    exists t. rewrite Ht. now repeat split.
  - intros Hle. assert (E : Stats.Qlt_bool 0 m = false) by now apply Qlt_bool_false.
    now rewrite E.
Qed.

Lemma half_ejection_time_found_or_unbound_witness :
  let m := Stats.py_max_list (map snd [(0, 0); (1, 3); (2, 8); (3, 10)]%Q) in
  ((0 < m)%Q ->
   exists t,
     Stats.half_ejection_time [(0, 0); (1, 3); (2, 8); (3, 10)]%Q
     = Stats.Bound (Some t)
     /\ Stats.first_at (m * (1 # 2)) [(0, 0); (1, 3); (2, 8); (3, 10)]%Q t
     /\ Stats.half_ejection_cell (fun _ => "t")
          (Stats.half_ejection_time [(0, 0); (1, 3); (2, 8); (3, 10)]%Q)
        = Stats.Ok ((fun _ : Q => "t") t))
  /\ ((m <= 0)%Q ->
      Stats.half_ejection_cell (fun _ => "t")
        (Stats.half_ejection_time [(0, 0); (1, 3); (2, 8); (3, 10)]%Q)
      = Stats.Err (Stats.UnboundLocalError "half_ejection_time")).
Proof.
  apply (half_ejection_time_found_or_unbound (fun _ => "t")
           [(0, 0); (1, 3); (2, 8); (3, 10)]%Q).
  discriminate.
Defined.

(** No atom ejected at any time: the cell cannot be built. *)
Example nothing_ejected_cell :
  Stats.half_ejection_cell (fun _ => "t")
    (Stats.half_ejection_time [(0, 0); (1, 0); (2, 0)]%Q)
  = Stats.Err (Stats.UnboundLocalError "half_ejection_time").
Proof. reflexivity. Qed.

Section CorrelationWords.

Import Stats.

Lemma lit_order : (0 < lit_0_3)%Q /\ (lit_0_3 < lit_0_7)%Q.
Proof. split; reflexivity. Qed.

End CorrelationWords.

(** X22. The closing sentence and the strength word disagree on negative
    correlations: the sentence says "strongly" exactly when the word is
    Strong and the correlation positive, so a correlation below -0.7 is
    called Strong and negative in the list but "moderately influences" in
    the sentence; "limited impact" is only said of a Weak correlation. *)
Theorem strong_negative_correlation_reads_moderate (c : Q) :
  (Stats.temperature_influence c = Stats.StronglyCorrelates
   <-> Stats.correlation_strength c = Stats.Strong
       /\ Stats.correlation_is_positive c = true)
  /\ ((c < - Stats.lit_0_7)%Q ->
      Stats.correlation_strength c = Stats.Strong
      /\ Stats.correlation_is_positive c = false
      /\ Stats.temperature_influence c = Stats.ModeratelyInfluences)
  /\ (Stats.temperature_influence c = Stats.LimitedImpact ->
      Stats.correlation_strength c = Stats.Weak).
Proof.
  destruct lit_order as [H3 H37].
  unfold Stats.temperature_influence, Stats.correlation_strength,
    Stats.correlation_is_positive.
  destruct (Stats.Qlt_bool Stats.lit_0_7 c) eqn:E1;
  destruct (Stats.Qlt_bool Stats.lit_0_7 (Qabs c)) eqn:E2;
  destruct (Stats.Qlt_bool (Qabs c) Stats.lit_0_3) eqn:E3;
  destruct (Stats.Qlt_bool Stats.lit_0_3 (Qabs c)) eqn:E4;
  destruct (Stats.Qlt_bool 0 c) eqn:E5;
  repeat match goal with
  | H : Stats.Qlt_bool _ _ = true |- _ => apply Qlt_bool_iff in H
  | H : Stats.Qlt_bool _ _ = false |- _ => apply Qlt_bool_false in H
  end;
  pose proof (Qabs_nonneg c) as Hn;
  pose proof (Qle_Qabs c) as Hc;
  assert (Hneg : (c <= 0 -> Qabs c == - c)%Q) by (intros; now apply Qabs_neg);
  assert (Hpos : (0 <= c -> Qabs c == c)%Q) by (intros; now apply Qabs_pos);
  (repeat split; try discriminate; try reflexivity; intros;
   try (intuition discriminate);
   try (exfalso;
        destruct (Qlt_le_dec 0 c) as [P|P];
          [specialize (Hpos (Qlt_le_weak _ _ P)) | specialize (Hneg P)];
          lra)).
Qed.

(* ===================================================================== *)
(** ** dashboard.py: logging in and out, reading a log *)
(* ===================================================================== *)

Section Sessions.

Import Web.

Lemma require_auth_runs {A : Type} (f : session -> A) path s :
  authenticated s = Some true -> require_auth f path s = Page (f s).
Proof. intros H. unfold require_auth, not_authenticated. now rewrite H. Qed.

Lemma require_auth_refuses {A : Type} (f : session -> A) path s :
  authenticated s <> Some true ->
  require_auth f path s
  = if startswith path "/api/" then Unauthorized else RedirectToLogin (Some path).
Proof.
  intros H. unfold require_auth, not_authenticated.
  destruct (authenticated s) as [[]|]; [now elim H | reflexivity | reflexivity].
Qed.

End Sessions.

(** X23. Logging in and out: posting the access key itself authenticates
    the session, whatever it was, and redirects to the requested page (or
    "/"); a view behind [require_auth] then runs at any path. After
    [logout] the same view is refused at every path, with 401 under
    "/api/" and a redirect to the login page carrying the path
    elsewhere. *)
Theorem login_then_logout
    (sha256_hex : string -> string) (ACCESS_KEY : string)
    (A : Type) (view : Web.session -> A)
    (next : option string) (path : string) (s : Web.session) :
  let after_login :=
    Web.login (A := A) sha256_hex ACCESS_KEY Web.POST (Some ACCESS_KEY) next s in
  let after_logout := Web.logout (A := A) (fst after_login) in
  snd after_login
  = Web.RedirectTo (match next with Some n => n | None => "/" end)
  /\ Web.require_auth view path (fst after_login)
     = Web.Page (view (fst after_login))
  /\ Web.require_auth view path (fst after_logout)
     = (if startswith path "/api/" then Web.Unauthorized
        else Web.RedirectToLogin (Some path)).
Proof.
  cbn zeta. unfold Web.login, Web.KEY_HASH. rewrite String.eqb_refl.
  cbn [fst snd]. repeat split.
Qed.

(** X24. A session becomes authenticated through a matching key only: a
    POST whose key has another SHA-256 digest than the access key, and
    any GET, leave the session as it was and answer with the login page;
    a view behind [require_auth] stays refused if it was. *)
Theorem wrong_key_does_not_authenticate
    (sha256_hex : string -> string) (ACCESS_KEY : string)
    (A : Type) (view : Web.session -> A)
    (key next : option string) (path : string) (s : Web.session) :
  sha256_hex (match key with Some k => k | None => EmptyString end)
  <> sha256_hex ACCESS_KEY ->
  Web.login (A := A) sha256_hex ACCESS_KEY Web.POST key next s
  = (s, Web.LoginPage (Some "Invalid access key"))
  /\ Web.login (A := A) sha256_hex ACCESS_KEY Web.GET key next s
     = (s, Web.LoginPage None)
  /\ (Web.authenticated s <> Some true ->
      Web.require_auth view path
        (fst (Web.login (A := A) sha256_hex ACCESS_KEY Web.POST key next s))
      = (if startswith path "/api/" then Web.Unauthorized
         else Web.RedirectToLogin (Some path))).
Proof.
  intros Hne. unfold Web.login, Web.KEY_HASH.
  apply String.eqb_neq in Hne. rewrite Hne. cbn [fst].
  repeat split. intros Hs. now apply require_auth_refuses.
Qed.

Lemma wrong_key_does_not_authenticate_witness :
  Web.login (A := unit) (fun k => k) "s3cret" Web.POST (Some "guess") None
    Web.fresh_session
  = (Web.fresh_session, Web.LoginPage (Some "Invalid access key"))
  /\ Web.login (A := unit) (fun k => k) "s3cret" Web.GET (Some "guess") None
       Web.fresh_session
     = (Web.fresh_session, Web.LoginPage None)
  /\ (Web.authenticated Web.fresh_session <> Some true ->
      Web.require_auth (fun _ => tt) "/api/status"
        (fst (Web.login (A := unit) (fun k => k) "s3cret" Web.POST (Some "guess")
                None Web.fresh_session))
      = (if startswith "/api/status" "/api/" then Web.Unauthorized
         else Web.RedirectToLogin (Some "/api/status"))).
Proof.
  apply (wrong_key_does_not_authenticate (fun k => k) "s3cret" unit (fun _ => tt)
           (Some "guess") None "/api/status" Web.fresh_session).
  discriminate.
Defined.

Section Logs.

Import Web.

Lemma first_log_found fs filename pre d post r :
  (forall x, In x pre -> fs (path_join x filename) = None) ->
  fs (path_join d filename) = Some r ->
  first_log fs (pre ++ d :: post) filename = Some (serve_file r).
Proof.
  intros Hpre Hd. induction pre as [|p pre IH]; cbn [app first_log].
  - now rewrite Hd.
  - rewrite (Hpre p) by now left. apply IH. intros x Hx. apply Hpre. now right.
Qed.

Lemma first_log_none fs filename dirs :
  (forall x, In x dirs -> fs (path_join x filename) = None) ->
  first_log fs dirs filename = None.
Proof.
  induction dirs as [|d dirs IH]; intros H; cbn [first_log]; [reflexivity|].
  rewrite (H d) by now left. apply IH. intros x Hx. apply H. now right.
Qed.

End Logs.

(** X25. [get_log] answers from the first phase log directory that has a
    file of the requested name, readable or not: a file that cannot be
    read there gives an error even when a later directory has a readable
    one. The pipeline log of the data directory is served only under the
    name "pipeline.log" and only when no phase log directory has a file
    of that name; any other name found in no phase log directory is not
    found. *)
Theorem get_log_precedence
    (fs : Web.files) (filename : string) :
  (forall pre d post r,
      Web.LOG_DIRS = pre ++ d :: post ->
      (forall x, In x pre -> fs (Web.path_join x filename) = None) ->
      fs (Web.path_join d filename) = Some r ->
      Web.get_log fs filename = Web.serve_file r)
  /\ ((forall x, In x Web.LOG_DIRS -> fs (Web.path_join x filename) = None) ->
      Web.get_log fs filename
      = if String.eqb filename "pipeline.log" then
          match fs (Web.path_join Web.DATA_DIR "pipeline.log") with
          | Some r => Web.serve_file r
          | None => Web.NotFound
          end
        else Web.NotFound).
Proof.
  split.
  - intros pre d post r Hdirs Hpre Hd. unfold Web.get_log.
    rewrite Hdirs. now rewrite (first_log_found fs filename pre d post r).
  - intros Hnone. unfold Web.get_log.
    now rewrite (first_log_none fs filename Web.LOG_DIRS Hnone).
Qed.

(** An unreadable run.log in phase 1 hides the readable one of phase 2. *)
Example unreadable_log_hides_later_one :
  Web.get_log
    (fun p =>
       if String.eqb p "/home/rimuru/workspace/setup_sim/data/phase1/logs/run.log"
       then Some ReadError
       else if String.eqb p "/home/rimuru/workspace/setup_sim/data/phase2/logs/run.log"
       then Some (ReadOk "Step Temp")
       else None)
    "run.log"
  = Web.ReadFailed.
Proof. reflexivity. Qed.

(* ===================================================================== *)
(** ** py_phase4.py: loading data, and what [main] does not catch *)
(* ===================================================================== *)

Section LoadData.

Import Report.

Variable ndarray : Type.
Variable np_loadtxt : string -> nat -> option string -> M ndarray.

Lemma load_data_cases filename skip_rows delimiter e :
  load_data ndarray np_loadtxt filename skip_rows delimiter e
  = if present e filename then
      match np_loadtxt filename skip_rows delimiter e with
      | (e', Returned a) => (e', Returned (Some a))
      | (e', Raised msg) =>
          (mkEnv (present e')
             (printed e' ++ [("Error loading " ++ filename ++ ": " ++ msg)%string]),
           Returned None)
      end
    else
      (mkEnv (present e)
         (printed e ++ [("Warning: " ++ filename ++ " not found")%string]),
       Returned None).
Proof.
  unfold load_data, try_except.
  destruct (present e filename); [|reflexivity].
  unfold bind at 1.
  destruct (np_loadtxt filename skip_rows delimiter e) as [e' [a|msg]]; reflexivity.
Qed.

End LoadData.

(** X26. [load_data] never raises. It returns the array exactly when the
    file exists and [np.loadtxt] returns one; when [np.loadtxt] raises on
    an existing file it prints the error and returns None, like for a
    missing file. *)
Theorem load_data_never_raises
    (ndarray : Type)
    (np_loadtxt : string -> nat -> option string -> Report.M ndarray)
    (filename : string) (skip_rows : nat) (delimiter : option string)
    (e : Report.env) :
  let run := Report.load_data ndarray np_loadtxt filename skip_rows delimiter e in
  (exists r, snd run = Report.Returned r)
  /\ (forall a,
        snd run = Report.Returned (Some a)
        <-> Report.present e filename = true
            /\ exists e', np_loadtxt filename skip_rows delimiter e
                          = (e', Report.Returned a))
  /\ (forall e' msg,
        Report.present e filename = true ->
        np_loadtxt filename skip_rows delimiter e = (e', Report.Raised msg) ->
        run = (Report.mkEnv (Report.present e')
                 (Report.printed e'
                  ++ [("Error loading " ++ filename ++ ": " ++ msg)%string]),
               Report.Returned None)).
Proof.
  cbn zeta. rewrite load_data_cases.
  destruct (Report.present e filename) eqn:Hp.
  - destruct (np_loadtxt filename skip_rows delimiter e) as [e' [a|msg]] eqn:Hl;
      cbn [fst snd].
    + split; [now eexists|]. split.
      * intros a'. split.
        -- intros Ha. inversion Ha; subst. split; [reflexivity | now exists e'].
        -- intros [_ (e'' & He)]. inversion He; subst. reflexivity.
      * intros e'' msg _ He. discriminate He.
    + split; [now eexists|]. split.
      * intros a. split; [discriminate|]. intros [_ (e'' & He)]. discriminate He.
      * intros e'' msg' _ He. inversion He; subst. reflexivity.
  - cbn [fst snd]. split; [now eexists|]. split.
    + intros a. split; [discriminate|]. intros [H _]. discriminate H.
    + intros e' msg H. discriminate H.
Qed.

Section MainAborts.

Import Report.

Variable ndarray : Type.
Variable value : Type.
Variable np_loadtxt : string -> nat -> option string -> M ndarray.
Variable size_body composition_body structure_body evolution_body :
  ndarray -> M (option value).
Variable thermo_body : M value.
Variable generate_report generate_pdf_report : M unit.

Lemma seq_raises (s : M unit) rest e e' msg :
  s e = (e', Raised msg) -> seq (s :: rest) e = (e', Raised msg).
Proof. intros H. cbn [seq]. unfold bind. now rewrite H. Qed.

Lemma seq_print msg rest e :
  seq (print msg :: rest) e
  = seq rest (mkEnv (present e) (printed e ++ [msg])).
Proof. reflexivity. Qed.

End MainAborts.

(** X27. Nothing in [main] catches what an analysis raises after loading:
    when the size file loads and the size statistics raise, [main] ends
    with that exception where the statistics left off; no later analysis
    and no report runs. *)
Theorem failing_size_statistics_abort_main
    (ndarray value : Type)
    (np_loadtxt : string -> nat -> option string -> Report.M ndarray)
    (size_body composition_body structure_body evolution_body :
       ndarray -> Report.M (option value))
    (thermo_body : Report.M value)
    (generate_report generate_pdf_report : Report.M unit)
    (e e2 e3 : Report.env) (a : ndarray) (msg : string) :
  let e1 :=
    Report.mkEnv (Report.present e)
      ((((Report.printed e ++ [Report.repeat_char "=" 80])
         ++ ["NITINOL NANOPARTICLE FORMATION ANALYSIS"])
        ++ [Report.repeat_char "=" 80])
       ++ ["Analyzing nanoparticle size distribution..."]) in
  Report.present e Report.PARTICLE_SIZE_FILE = true ->
  np_loadtxt Report.PARTICLE_SIZE_FILE 1 None e1 = (e2, Report.Returned a) ->
  size_body a e2 = (e3, Report.Raised msg) ->
  Report.main ndarray value np_loadtxt size_body composition_body structure_body
    evolution_body thermo_body generate_report generate_pdf_report e
  = (e3, Report.Raised msg).
Proof.
  intros e1 Hp Hl Hb. unfold e1 in Hl. unfold Report.main, Report.main_steps.
  rewrite !seq_print. cbn [Report.present Report.printed]. apply seq_raises.
  unfold Report.ignore, Report.analyze, Report.analyze_size_distribution.
  unfold Report.bind at 1. unfold Report.bind at 1.
  cbn [Report.print Report.present Report.printed].
  unfold Report.bind at 1.
  rewrite load_data_cases. cbn [Report.present Report.printed].
  rewrite Hp, Hl, Hb. reflexivity.
Qed.

Lemma failing_size_statistics_abort_main_witness :
  Report.main unit unit test_loadtxt
    (fun _ e => (e, Report.Raised "zero-size array")) test_body test_body test_body
    test_thermo test_report test_report (Report.mkEnv (fun _ => true) [])
  = (Report.mkEnv (fun _ => true)
       ((((([] ++ [Report.repeat_char "=" 80])
           ++ ["NITINOL NANOPARTICLE FORMATION ANALYSIS"])
          ++ [Report.repeat_char "=" 80])
         ++ ["Analyzing nanoparticle size distribution..."])),
     Report.Raised "zero-size array").
Proof.
  apply (failing_size_statistics_abort_main unit unit test_loadtxt
           (fun _ e => (e, Report.Raised "zero-size array")) test_body test_body
           test_body test_thermo test_report test_report
           (Report.mkEnv (fun _ => true) [])
           (Report.mkEnv (fun _ => true)
              ((((([] ++ [Report.repeat_char "=" 80])
                  ++ ["NITINOL NANOPARTICLE FORMATION ANALYSIS"])
                 ++ [Report.repeat_char "=" 80])
                ++ ["Analyzing nanoparticle size distribution..."])))
           (Report.mkEnv (fun _ => true)
              ((((([] ++ [Report.repeat_char "=" 80])
                  ++ ["NITINOL NANOPARTICLE FORMATION ANALYSIS"])
                 ++ [Report.repeat_char "=" 80])
                ++ ["Analyzing nanoparticle size distribution..."])))
           tt "zero-size array");
    reflexivity.
Defined.

(* ===================================================================== *)
(** ** py_phase4.py: the tables of the PDF report *)
(* ===================================================================== *)

(** X28. The size table of the PDF report is always built, thirteen rows
    of two cells; the composition table never is: its last row formats
    with the specification ":.3f", which floats reject, so building it
    raises ValueError whatever the statistics are. *)
Theorem composition_table_always_raises
    (render : string -> Q -> string)
    (s : PdfReport.size_stats) (c : PdfReport.composition_stats) :
  (exists rows,
      PdfReport.size_table render s = Stats.Ok rows
      /\ List.length rows = 13
      /\ Forall (fun r => List.length r = 2) rows)
  /\ PdfReport.comp_data render c = Stats.Err (Stats.ValueError ":.3f").
Proof.
  split.
  - eexists. split; [reflexivity|]. split; [reflexivity|].
    repeat constructor.
  - reflexivity.
Qed.
